(** * 2DVectorGraphics: the input-to-state layer of [main.py]

    A shallow embedding of the interactive canvas of [main.py]: the shape
    registry and its hit-test ([Scene]), the drag controller ([draggable]),
    the press / drag / release state machine ([Scene.mouse_action]) and the
    toolbar dispatcher ([Toolbar], [DrawArea.mouse_button_callback]),
    together with the thin wrapper of [main_app/session/session.py].

    Conventions of the embedding.
    - A Python float is an IEEE 754 binary64 number, [float] of [PrimFloat]:
      [+], [-], [<=] are the rounded operations.  The Python ints of
      [main.py] that meet floats (55, 40, 20, the layout coordinates) are
      far below [2 ^ 53]; they stand for the same numbers as doubles and are
      written as such ([float_of_Z] for the computed ones).
    - [e ** 2] and [e ** 0.5] are Python's float power [float_pow]: its
      special cases are written out, its general case calls the platform's
      [pow] and turns the error it reports into [OverflowError] or
      [ValueError].  The platform is a parameter ([Libm]);
      [correctly_rounded] is one such platform, used in the examples.
    - A [Shape] is a mutable object shared between [Scene.shapes],
      [Scene.selected] and [draggable.shape], and a [vec2] is a mutable
      object too: [Shape.__init__] and [draggable.__init__] store the
      [vec2] they are given, and [Shape.translate] changes it in place.
      Both kinds of object live in an object store ([heap] for shapes,
      [vheap] for [vec2]s) and are named by references ([ref], [vref]); two
      references are equal exactly when Python's [is] holds, which is also
      what [list.remove] compares, since [Shape] defines no [__eq__].  The
      fields of a [Shape] are never assigned after [__init__], so only the
      [vec2] store changes.
    - The [vec2] of a [Button] and of the [Toolbar] is built by the code that
      stores it and never changed or handed on; it is kept by value.
    - A method that mutates [self] returns the new [self]; a method that can
      raise returns a [result]. *)

From Stdlib Require Import ZArith Lia Floats QArith.
From stdpp Require Import base option list functions strings.

(** ** Module constants of [main.py] *)

Definition WIDTH : Z := 640.
Definition HEIGHT : Z := 480.
Definition UI_TOP_BAR_HEIGHT : Z := 32.
Definition BUTTON_SIZE : Z := 20.
Definition BUTTON_MARGIN : Z := 6.

(** ** Python-level plumbing *)

(** The exceptions the modelled code can raise: [list.remove] of an absent
    element and the platform's [pow] reporting a domain error
    ([ValueError]), attribute access on [None] ([AttributeError]), a float
    power out of range ([OverflowError]), and [<=] between a complex and a
    float ([TypeError]). *)
Inductive exn : Set :=
| ValueError
| AttributeError
| OverflowError
| TypeError.

Inductive result (A : Type) : Type :=
| Ok (a : A)
| Raise (e : exn).
Arguments Ok {A} a.
Arguments Raise {A} e.

(** [float(n)] for a Python int [n]: the nearest double, ties to even. *)
Definition float_of_Z (n : Z) : float :=
  SF2Prim (binary_normalize prec emax n 0 false).

(** The value [errno] holds after a call of the platform's [pow]. *)
Inductive errno : Set := no_error | ERANGE | EDOM.

(** The platform's C library: [pow(x, y)] and the [errno] it leaves. *)
Class Libm : Type := {
  libm_pow : float -> float -> float;
  libm_errno : float -> float -> errno
}.

(** The two exponents [main.py] writes: [2] and [0.5]. *)
Inductive exponent : Set := exp_two | exp_half.

Definition exponent_value (w : exponent) : float :=
  match w with
  | exp_two => 2%float
  | exp_half => 0.5%float
  end.

(** [iw != floor(iw)] for the two exponents. *)
Definition exponent_is_fractional (w : exponent) : bool :=
  match w with
  | exp_two => false
  | exp_half => true
  end.

(** The value of [v ** w] for a float [v]: a float, or a complex number (of
    which the program only ever asks whether it is [<=] a float). *)
Inductive power : Set :=
| PyFloat (f : float)
| PyComplex.

(** [_Py_ADJUST_ERANGE1]: an infinite result counts as out of range, and a
    range error with result zero (underflow) is cleared. *)
Definition adjust_erange1 (e : errno) (ix : float) : errno :=
  match e with
  | no_error => if is_infinity ix then ERANGE else no_error
  | ERANGE => if (ix =? 0)%float then no_error else ERANGE
  | EDOM => EDOM
  end.

(** Python's [iv ** iw] for a float [iv] and [iw] one of [2] and [0.5], in
    the order of the tests of [float_pow]: a nan base, an infinite base, a
    zero base, a negative base (complex for a fractional exponent, else its
    absolute value), the base 1, and then the platform's [pow].  The cases
    for [iw] zero, nan, infinite, negative or odd do not arise for these
    two exponents. *)
Definition float_pow `{Libm} (iv : float) (w : exponent) : result power :=
  let iw := exponent_value w in
  if is_nan iv then Ok (PyFloat iv)
  else if is_infinity iv then Ok (PyFloat (abs iv))
  else if (iv =? 0)%float then Ok (PyFloat 0%float)
  else if (iv <? 0)%float && exponent_is_fractional w then Ok PyComplex
  else
    let iv := if (iv <? 0)%float then (- iv)%float else iv in
    if (iv =? 1)%float then Ok (PyFloat 1%float)
    else
      let ix := libm_pow iv iw in
      match adjust_erange1 (libm_errno iv iw) ix with
      | no_error => Ok (PyFloat ix)
      | ERANGE => Raise OverflowError
      | EDOM => Raise ValueError
      end.

(** A platform whose [pow] is correctly rounded: [pow(x, 2)] is the rounded
    square and [pow(x, 0.5)] the rounded square root.  It reports a range
    error on overflow and on underflow to zero, as glibc does.  ([float_pow]
    calls it with no other exponent.) *)
Definition correctly_rounded_pow (x y : float) : float :=
  if (y =? 2)%float then (x * x)%float
  else if (y =? 0.5)%float then sqrt x
  else nan.

Definition correctly_rounded_errno (x y : float) : errno :=
  let r := correctly_rounded_pow x y in
  if is_nan r then (if is_nan x || is_nan y then no_error else EDOM)
  else if is_infinity r && is_finite x then ERANGE
  else if (r =? 0)%float && negb (x =? 0)%float then ERANGE
  else no_error.

#[export] Instance correctly_rounded : Libm := {|
  libm_pow := correctly_rounded_pow;
  libm_errno := correctly_rounded_errno
|}.

(** [skia.Color(r, g, b)]: an opaque colour value. *)
Definition Color : Type := (Z * Z * Z)%type.

(** The value of [uuid.uuid4()], supplied by the environment. *)
Definition uuid : Type := Z.

(** The identity of a [Shape] object. *)
Definition ref : Type := nat.

(** The identity of a [vec2] object. *)
Definition vref : Type := nat.

Inductive MOUSE_ACTION : Set :=
| LEFT_CLICK_DOWN
| LEFT_CLICK_DRAG
| LEFT_CLICK_UP
| RIGHT_CLICK_DOWN.

(** The two GLFW enumerations [mouse_button_callback] inspects;
    [MOUSE_BUTTON_OTHER] stands for every button that is neither the left
    nor the right one. *)
Inductive glfw_button : Set :=
| MOUSE_BUTTON_LEFT
| MOUSE_BUTTON_RIGHT
| MOUSE_BUTTON_OTHER.

Inductive glfw_action : Set := RELEASE | PRESS | REPEAT.

Definition glfw_button_eqb (a b : glfw_button) : bool :=
  match a, b with
  | MOUSE_BUTTON_LEFT, MOUSE_BUTTON_LEFT
  | MOUSE_BUTTON_RIGHT, MOUSE_BUTTON_RIGHT
  | MOUSE_BUTTON_OTHER, MOUSE_BUTTON_OTHER => true
  | _, _ => false
  end.

Definition glfw_action_eqb (a b : glfw_action) : bool :=
  match a, b with
  | RELEASE, RELEASE | PRESS, PRESS | REPEAT, REPEAT => true
  | _, _ => false
  end.

(** ** [vec2] *)

Module vec2.

(** Modelled from the spec: the class [vec2] of
    [shared_python.shared_math.geometry] is not part of the sources.  The
    spec's Point is "a 2D coordinate (x, y), floating point"; [main.py]
    reads [.x] and [.y], subtracts two points ([pos - self.current_pos],
    the spec's "delta = new_pos - last_known_pos") and calls [translate],
    the spec's "translate the dragged shape's center by delta (in place)".
    A value of this type is the content of one [vec2] object. *)
Record t : Type := mk { x : float; y : float }.

(** Modelled from the spec: [a - b], the componentwise difference, as a new
    point. *)
Definition sub (a b : t) : t := mk (x a - x b)%float (y a - y b)%float.

(** Modelled from the spec: [self.translate(d)] adds [d] to [self] in place;
    the new content of [self] is returned. *)
Definition translate (self d : t) : t :=
  mk (x self + x d)%float (y self + y d)%float.

End vec2.

(** The [vec2] store: the content of the [vec2] object behind every
    reference. *)
Definition vheap : Type := vref -> vec2.t.

(** ** [class Shape] *)

Module Shape.

(** [pos] is the [vec2] object the constructor was given, not a copy. *)
Record t : Type := mk {
  pos : vref;
  radius : float;
  color : Color;
  id : uuid
}.

(** [Shape(pos, radius, color)]; [uid] is the outcome of [uuid.uuid4()]. *)
Definition init (pos : vref) (radius : float) (color : Color) (uid : uuid)
  : t :=
  mk pos radius color uid.

(** [contains(pos)], with [p] the content of the argument: the two squares,
    their sum, the root, and the comparison, in the order Python evaluates
    them.  A square of a float is never complex; were it, the comparison
    would raise. *)
Definition contains `{Libm} (v : vheap) (self : t) (p : vec2.t)
  : result bool :=
  match float_pow (vec2.x p - vec2.x (v (pos self)))%float exp_two with
  | Raise e => Raise e
  | Ok a =>
      match float_pow (vec2.y p - vec2.y (v (pos self)))%float exp_two with
      | Raise e => Raise e
      | Ok b =>
          match a, b with
          | PyFloat a, PyFloat b =>
              match float_pow (a + b)%float exp_half with
              | Raise e => Raise e
              | Ok (PyFloat distance) => Ok (distance <=? radius self)%float
              | Ok PyComplex => Raise TypeError
              end
          | _, _ => Raise TypeError
          end
      end
  end.

(** [self.pos.translate(pos)]: the [vec2] object of the shape changes in
    place; the shape itself does not. *)
Definition translate (self : t) (d : vec2.t) (v : vheap) : vheap :=
  alter (fun c => vec2.translate c d) (pos self) v.

End Shape.

(** The object store: the [Shape] behind every reference. *)
Definition heap : Type := ref -> Shape.t.

(** ** [class draggable] *)

Module draggable.

(** [current_pos] is the [vec2] object of the last drag event. *)
Record t : Type := mk {
  current_pos : vref;
  shape : ref
}.

Definition init (start_pos : vref) (dragging_shape : ref) : t :=
  mk start_pos dragging_shape.

(** [work(pos)]: the difference is taken first, as a new [vec2]; then the
    controller records [pos] and the shape's [vec2] is changed. *)
Definition work (self : t) (pos : vref) (h : heap) (v : vheap)
  : vheap * t :=
  let distance := vec2.sub (v pos) (v (current_pos self)) in
  let self' := mk pos (shape self) in
  (Shape.translate (h (shape self')) distance v, self').

End draggable.

(** ** [class Button] *)

Module Button.

Record t : Type := mk {
  pos : option vec2.t;
  size : float;
  color : Color;
  clicked : bool;
  selected : bool
}.

(** [Button(id, size, color)]: the [id] argument is not stored. *)
Definition init (id : string) (size : float) (color : Color) : t :=
  mk None size color false false.

Definition set_pos (p : vec2.t) (self : t) : t :=
  mk (Some p) (size self) (color self) (clicked self) (selected self).

(** [self.pos.x] on an unplaced button is an attribute access on [None]. *)
Definition hit_test (self : t) (p : vec2.t) : result bool :=
  match pos self with
  | None => Raise AttributeError
  | Some o =>
      Ok (((vec2.x o <=? vec2.x p)%float &&
           (vec2.x p <=? vec2.x o + size self)%float) &&
          ((vec2.y o <=? vec2.y p)%float &&
           (vec2.y p <=? vec2.y o + size self)%float))
  end.

Definition click (self : t) : t :=
  mk (pos self) (size self) (color self) (clicked self)
     (negb (selected self)).

End Button.

(** ** [class Toolbar] *)

Module Toolbar.

Record t : Type := mk {
  pos : vec2.t;
  buttons : list Button.t
}.

(** [enumerate(self.buttons)] with [btn.set_pos] is an indexed map.  The
    coordinates are Python ints; they are below [2 ^ 53] for any list of
    buttons a machine can hold, so [float_of_Z] converts them exactly. *)
Definition _create_button_positions (self : t) : t :=
  let button_count := Z.of_nat (length (buttons self)) in
  let button_width :=
    (BUTTON_SIZE * button_count + BUTTON_MARGIN * (button_count + 1))%Z in
  let start_x := ((WIDTH - button_width) `div` 2)%Z in
  let y := ((UI_TOP_BAR_HEIGHT - BUTTON_SIZE) `div` 2)%Z in
  mk (pos self)
     (imap (fun i btn =>
              let x :=
                (start_x + Z.of_nat i * (BUTTON_SIZE + BUTTON_MARGIN))%Z in
              Button.set_pos (vec2.mk (float_of_Z x) (float_of_Z y)) btn)
           (buttons self)).

Definition init (pos : vec2.t) (btns : list Button.t) : t :=
  _create_button_positions (mk pos btns).

(** The loop of [hit_test] over the buttons from index [i] on.  The button
    returned by the source is named by its index in [self.buttons]. *)
Fixpoint hit_test_from (i : nat) (btns : list Button.t) (p : vec2.t)
  : result (option nat) :=
  match btns with
  | [] => Ok None
  | btn :: rest =>
      match Button.hit_test btn p with
      | Raise e => Raise e
      | Ok true => Ok (Some i)
      | Ok false => hit_test_from (S i) rest p
      end
  end.

Definition hit_test (self : t) (p : vec2.t) : result (option nat) :=
  hit_test_from 0 (buttons self) p.

(** [clicked_button.click()] on the button found at index [i]. *)
Definition click_at (i : nat) (self : t) : t :=
  mk (pos self) (alter Button.click i (buttons self)).

End Toolbar.

(** ** [class Scene] *)

Module Scene.

Record t : Type := mk {
  shapes : list ref;
  draggable : option draggable.t;
  selected : option ref
}.

Definition init : t := mk [] None None.

Definition add_shape (shape : ref) (self : t) : t :=
  mk (shapes self ++ [shape]) (draggable self) (selected self).

(** [list.remove(x)]: drop the first element equal to [x]; [None] stands for
    the [ValueError] raised when there is none. *)
Fixpoint remove_first (x : ref) (l : list ref) : option (list ref) :=
  match l with
  | [] => None
  | y :: l' =>
      if Nat.eqb y x then Some l'
      else match remove_first x l' with
           | Some l'' => Some (y :: l'')
           | None => None
           end
  end.

(** [remove_shape] returns its outcome and the scene it leaves behind. *)
Definition remove_shape (shape : ref) (self : t) : result unit * t :=
  match remove_first shape (shapes self) with
  | Some l => (Ok tt, mk l (draggable self) (selected self))
  | None => (Raise ValueError, self)
  end.

(** The [for this_shape in self.shapes] loop of the press case: the first
    shape of the list that contains the point; an exception raised by a
    [contains] ends the loop. *)
Fixpoint first_containing `{Libm} (h : heap) (v : vheap) (p : vec2.t)
    (l : list ref) : result (option ref) :=
  match l with
  | [] => Ok None
  | this_shape :: l' =>
      match Shape.contains v (h this_shape) p with
      | Raise e => Raise e
      | Ok true => Ok (Some this_shape)
      | Ok false => first_containing h v p l'
      end
  end.

(** [mouse_action(action, pos)], with [pos] a [vec2] object.  The returned
    [option bool] is Python's [True] / [False] / [None]; an exception leaves
    the scene and the stores as they were. *)
Definition mouse_action `{Libm} (action : MOUSE_ACTION) (pos : vref)
    (h : heap) (v : vheap) (self : t) : result (option bool) * vheap * t :=
  match action with
  | LEFT_CLICK_DOWN =>
      match selected self with
      | None =>
          match first_containing h v (v pos) (shapes self) with
          | Raise e => (Raise e, v, self)
          | Ok (Some this_shape) =>
              (Ok (Some true), v,
               mk (shapes self) (draggable self) (Some this_shape))
          | Ok None => (Ok None, v, self)
          end
      | Some _ => (Ok None, v, self)
      end
  | LEFT_CLICK_DRAG =>
      match selected self with
      | None => (Ok (Some false), v, self)
      | Some sel =>
          match draggable self with
          | None =>
              (Ok None, v,
               mk (shapes self) (Some (draggable.init pos sel))
                  (selected self))
          | Some d =>
              let '(v', d') := draggable.work d pos h v in
              (Ok None, v', mk (shapes self) (Some d') (selected self))
          end
      end
  | LEFT_CLICK_UP => (Ok None, v, mk (shapes self) None None)
  | RIGHT_CLICK_DOWN => (Ok None, v, self)
  end.

End Scene.

(** ** [class DrawArea] *)

(** The module-level [color = Color(0, 255, 0)]. *)
Definition color : Color := (0, 255, 0)%Z.

(** The two object stores with their allocators: [next] and [next_vec] are
    the first unused references. *)
Record store : Type := mk_store {
  objs : heap;
  vecs : vheap;
  next : ref;
  next_vec : vref
}.

(** Allocation of a new [Shape] object. *)
Definition alloc (s : Shape.t) (st : store) : ref * store :=
  (next st,
   mk_store (<[next st := s]> (objs st)) (vecs st)
            (S (next st)) (next_vec st)).

(** Allocation of a new [vec2] object: [vec2(x, y)]. *)
Definition alloc_vec2 (p : vec2.t) (st : store) : vref * store :=
  (next_vec st,
   mk_store (objs st) (<[next_vec st := p]> (vecs st))
            (next st) (S (next_vec st))).

(** The store after a mouse action changed [vec2] objects. *)
Definition with_vecs (v : vheap) (st : store) : store :=
  mk_store (objs st) v (next st) (next_vec st).

Module DrawArea.

Record t : Type := mk {
  width : Z;
  height : Z;
  scene : Scene.t;
  toolbar : Toolbar.t
}.

Definition init (width height : Z) : t :=
  mk width height Scene.init
     (Toolbar.init
        (vec2.mk 0%float (float_of_Z (HEIGHT - UI_TOP_BAR_HEIGHT)))
        [Button.init "select" (float_of_Z BUTTON_SIZE) (200, 200, 200)%Z;
         Button.init "delete" (float_of_Z BUTTON_SIZE) (200, 200, 200)%Z]).

Definition add_shape (shape : ref) (self : t) : t :=
  mk (width self) (height self) (Scene.add_shape shape (scene self))
     (toolbar self).

Definition remove_shape (shape : ref) (self : t) : result unit * t :=
  let '(r, sc) := Scene.remove_shape shape (scene self) in
  (r, mk (width self) (height self) sc (toolbar self)).

(** [mouse_button_callback(window, button, action, mods)]; [(x, y)] is the
    cursor position read from the window and [uid] the identifier a shape
    created by this call would draw.  [pos = vec2(x, y)] is a new object.
    The two top-level [if] statements run one after the other: [left] is
    the outcome of the first. *)
Definition mouse_button_callback `{Libm} (button : glfw_button)
    (action : glfw_action) (x y : float) (uid : uuid)
    (st : store) (self : t) : result (store * t) :=
  let '(pos, st) := alloc_vec2 (vec2.mk x y) st in
  let left :=
    if glfw_button_eqb button MOUSE_BUTTON_LEFT then
      if glfw_action_eqb action PRESS then
        match Toolbar.hit_test (toolbar self) (vecs st pos) with
        | Raise e => Raise e
        | Ok (Some clicked_button) =>
            Ok (st, mk (width self) (height self) (scene self)
                       (Toolbar.click_at clicked_button (toolbar self)))
        | Ok None =>
            match Scene.mouse_action LEFT_CLICK_DOWN pos (objs st) (vecs st)
                                     (scene self) with
            | (Raise e, _, _) => Raise e
            | (Ok _, v, sc) =>
                Ok (with_vecs v st,
                    mk (width self) (height self) sc (toolbar self))
            end
        end
      else if glfw_action_eqb action RELEASE then
        match Scene.mouse_action LEFT_CLICK_UP pos (objs st) (vecs st)
                                 (scene self) with
        | (Raise e, _, _) => Raise e
        | (Ok _, v, sc) =>
            Ok (with_vecs v st,
                mk (width self) (height self) sc (toolbar self))
        end
      else Ok (st, self)
    else Ok (st, self) in
  match left with
  | Raise e => Raise e
  | Ok (st, self) =>
      if glfw_button_eqb button MOUSE_BUTTON_RIGHT then
        if glfw_action_eqb action RELEASE then
          let '(shape, st') :=
            alloc (Shape.init pos 40%float color uid) st in
          Ok (st', add_shape shape self)
        else Ok (st, self)
      else Ok (st, self)
  end.

(** [cursor_pos_callback(window, xpos, ypos)]; [left] is what
    [glfw.get_mouse_button(window, glfw.MOUSE_BUTTON_LEFT)] reports. *)
Definition cursor_pos_callback `{Libm} (left : glfw_action)
    (xpos ypos : float) (st : store) (self : t) : result (store * t) :=
  if glfw_action_eqb left PRESS then
    let '(pos, st) := alloc_vec2 (vec2.mk xpos ypos) st in
    match Scene.mouse_action LEFT_CLICK_DRAG pos (objs st) (vecs st)
                             (scene self) with
    | (Raise e, _, _) => Raise e
    | (Ok _, v, sc) =>
        Ok (with_vecs v st, mk (width self) (height self) sc (toolbar self))
    end
  else Ok (st, self).

End DrawArea.

(** ** [class Wmain] and the start of the program *)

Module Wmain.

Record t : Type := mk { draw_area : DrawArea.t }.

Definition init : t :=
  mk (DrawArea.init WIDTH (HEIGHT - UI_TOP_BAR_HEIGHT)).

Definition add_shape (shape : ref) (self : t) : t :=
  mk (DrawArea.add_shape shape (draw_area self)).

Definition remove_shape (shape : ref) (self : t) : result unit * t :=
  let '(r, d) := DrawArea.remove_shape shape (draw_area self) in (r, mk d).

End Wmain.

(** The last lines of [main.py] before [wmain.run()]: one shape of radius 40
    centred at a new [vec2(55, 55)] is created and registered.  [st0] is the
    store the program starts from and [uid] the identifier drawn for the
    shape. *)
Definition program_start (uid : uuid) (st0 : store) : store * Wmain.t :=
  let wmain := Wmain.init in
  let '(pos, st) :=
    alloc_vec2 (vec2.mk 55%float 55%float) st0 in
  let '(shape, st) := alloc (Shape.init pos 40%float color uid) st in
  (st, Wmain.add_shape shape wmain).

(** ** [class Session] of [main_app/session/session.py] *)

Module Session.

(** Modelled from the spec: the [Scene] this class imports from
    [.scene.scene] is not part of the sources; it is taken to be the shape
    registry and state machine the spec describes, that is [Scene] of
    [main.py].  Every method of [Session] only forwards to it. *)
Record t : Type := mk { scene : Scene.t }.

Definition init : t := mk Scene.init.

Definition add_shape (shape : ref) (self : t) : t :=
  mk (Scene.add_shape shape (scene self)).

Definition remove_shape (shape : ref) (self : t) : result unit * t :=
  let '(r, sc) := Scene.remove_shape shape (scene self) in (r, mk sc).

Definition mouse_action `{Libm} (action : MOUSE_ACTION) (pos : vref)
    (h : heap) (v : vheap) (self : t) : result (option bool) * vheap * t :=
  let '(r, v', sc) := Scene.mouse_action action pos h v (scene self) in
  (r, v', mk sc).

End Session.

(** ** Event sequences and the states of the interaction machine *)

(** What can happen to a scene between two frames: a mouse action is
    delivered with a [vec2] object, a shape is registered, a shape is
    removed. *)
Inductive event : Type :=
| Mouse (action : MOUSE_ACTION) (pos : vref)
| AddShape (shape : ref)
| RemoveShape (shape : ref).

(** One event, on the [vec2] store and the scene; the shapes [h] themselves
    do not change.  A call that raises leaves the state as the method
    returns it. *)
Definition step `{Libm} (h : heap) (e : event) (st : vheap * Scene.t)
  : vheap * Scene.t :=
  match e with
  | Mouse action pos =>
      let '(_, v, s) := Scene.mouse_action action pos h st.1 st.2 in (v, s)
  | AddShape shape => (st.1, Scene.add_shape shape st.2)
  | RemoveShape shape => (st.1, (Scene.remove_shape shape st.2).2)
  end.

Definition run `{Libm} (h : heap) (es : list event) (st : vheap * Scene.t)
  : vheap * Scene.t :=
  fold_left (fun st e => step h e st) es st.

(** The three states the spec names, read off the two optional fields. *)
Inductive phase : Set := Idle | Selected | Dragging.

Definition phase_of (s : Scene.t) : phase :=
  match Scene.selected s, Scene.draggable s with
  | None, _ => Idle
  | Some _, None => Selected
  | Some _, Some _ => Dragging
  end.

(** A drag record exists only together with a selection, and it drags the
    selected shape. *)
Definition session_consistent (s : Scene.t) : Prop :=
  forall d, Scene.draggable s = Some d ->
            Scene.selected s = Some (draggable.shape d).

(** The centre a drag gesture computes: starting from the centre [c] and the
    pointer [last] of the anchoring drag event, each later pointer [q] adds
    the rounded difference [q - last] to the centre. *)
Fixpoint dragged (c last : vec2.t) (qs : list vec2.t) : vec2.t :=
  match qs with
  | [] => c
  | q :: qs' => dragged (vec2.translate c (vec2.sub q last)) q qs'
  end.

(** ** The toolbar row, in the terms of [_create_button_positions] *)

(** [start_x] and the [x] of the [i]-th button, for [n] buttons. *)
Definition start_x (n : Z) : Z :=
  ((WIDTH - (BUTTON_SIZE * n + BUTTON_MARGIN * (n + 1))) `div` 2)%Z.

Definition button_x (n : Z) (i : nat) : Z :=
  (start_x n + Z.of_nat i * (BUTTON_SIZE + BUTTON_MARGIN))%Z.

(** The free space left of the first and right of the last of [n] buttons
    within the container width. *)
Definition left_gap (n : nat) : Z := button_x (Z.of_nat n) 0.

Definition right_gap (n : nat) : Z :=
  (WIDTH - (button_x (Z.of_nat n) (n - 1) + BUTTON_SIZE))%Z.

(** ** The hit-tests of the spec, on exact numbers *)

(** The rational number a finite double stands for. *)
Definition Q_of_float (f : float) : option Q :=
  match Prim2SF f with
  | S754_zero _ => Some 0%Q
  | S754_finite s m e => Some ((cond_Zopp s (Z.pos m) # 1) * (2 # 1) ^ e)%Q
  | S754_infinity _ | S754_nan => None
  end.

(** Spec 4.2, circular containment: "Euclidean distance from point to shape
    center <= radius", on the exact values of finite doubles; for a
    radius that is not negative the distances are compared by their
    squares. *)
Definition euclidean_within (c p : vec2.t) (r : float) : option bool :=
  match Q_of_float (vec2.x c), Q_of_float (vec2.y c),
        Q_of_float (vec2.x p), Q_of_float (vec2.y p), Q_of_float r with
  | Some cx, Some cy, Some px, Some py, Some r =>
      Some (Qle_bool 0 r &&
            Qle_bool ((px - cx) * (px - cx) + (py - cy) * (py - cy))
                     (r * r))
  | _, _, _, _, _ => None
  end.

(** Spec 4.2, square containment: "both coordinates fall within
    [origin, origin+size] inclusive on both axes", on the exact values of
    finite doubles. *)
Definition square_within (o p : vec2.t) (size : float) : option bool :=
  match Q_of_float (vec2.x o), Q_of_float (vec2.y o),
        Q_of_float (vec2.x p), Q_of_float (vec2.y p), Q_of_float size with
  | Some ox, Some oy, Some px, Some py, Some s =>
      Some ((Qle_bool ox px && Qle_bool px (ox + s)) &&
            (Qle_bool oy py && Qle_bool py (oy + s)))
  | _, _, _, _, _ => None
  end.

(** ** Scenarios used by the examples below *)

(** The [vec2] store that holds the given contents at the references 0, 1,
    2, ... *)
Definition vecs_of (l : list vec2.t) : vheap :=
  fun q => default (vec2.mk 0%float 0%float) (l !! q).

(** Two overlapping shapes: [shape_A], registered first, and [shape_B],
    registered second; each has a [vec2] object of its own for its centre,
    (55, 55) and (60, 60). *)
Definition shape_A : Shape.t := Shape.init 0 40%float color 1%Z.
Definition shape_B : Shape.t := Shape.init 1 40%float color 2%Z.
Definition heap_AB : heap := <[1 := shape_B]> (fun _ => shape_A).

(** The [vec2] objects the pointer events of the examples carry. *)
Definition point_P : vref := 2.
Definition point_in_B : vref := 3.
Definition point_70_70 : vref := 4.
Definition point_80_85 : vref := 5.
Definition point_60_60 : vref := 6.

Definition vecs_AB : vheap :=
  vecs_of [vec2.mk 55%float 55%float; vec2.mk 60%float 60%float;
           vec2.mk 58%float 58%float; vec2.mk 95%float 62%float;
           vec2.mk 70%float 70%float; vec2.mk 80%float 85%float;
           vec2.mk 60%float 60%float].

Definition scene_AB : Scene.t :=
  Scene.add_shape 1 (Scene.add_shape 0 Scene.init).

(** [shape_A] selected, no drag record yet. *)
Definition scene_A_selected : Scene.t := Scene.mk [0; 1] None (Some 0).

(** Only [shape_B] is registered. *)
Definition scene_B_only : Scene.t := Scene.add_shape 1 Scene.init.

(** [shape_A] is registered, pressed, dragged once, and then removed. *)
Definition remove_while_dragging : list event :=
  [AddShape 0;
   Mouse LEFT_CLICK_DOWN point_P;
   Mouse LEFT_CLICK_DRAG point_70_70;
   RemoveShape 0].

(** The window of the program with a shape of radius 40, centred at
    (300, 20), registered under the first toolbar button. *)
Definition store_under_toolbar : store :=
  mk_store (fun _ => Shape.init 0 40%float color 7%Z)
           (vecs_of [vec2.mk 300%float 20%float]) 1 1.

Definition draw_area_under_toolbar : DrawArea.t :=
  DrawArea.add_shape 0 (DrawArea.init WIDTH (HEIGHT - UI_TOP_BAR_HEIGHT)).

(** The stores before the program has built an object. *)
Definition store_empty : store := mk_store (fun _ => shape_B) (vecs_of []) 0 0.

(** The two buttons of the program's toolbar, as its constructor places
    them. *)
Definition select_button : Button.t :=
  Button.mk (Some (vec2.mk 291%float 6%float)) 20%float (200, 200, 200)%Z
            false false.

Definition delete_button : Button.t :=
  Button.mk (Some (vec2.mk 317%float 6%float)) 20%float (200, 200, 200)%Z
            false false.

(** The scenario of the spec: [shape_A] alone is registered; press at
    (60, 60), drag to (70, 70), drag to (80, 85). *)
Definition scene_A : Scene.t := Scene.add_shape 0 Scene.init.

Definition scenario : list event :=
  [Mouse LEFT_CLICK_DOWN point_60_60;
   Mouse LEFT_CLICK_DRAG point_70_70;
   Mouse LEFT_CLICK_DRAG point_80_85].

(** A shape centred at (0.1, 0), and pointer events at (0, 0), (0.2, 0) and
    (0.5, 0); the doubles nearest to 0.1 and 0.2 are written out. *)
Definition vecs_tenths : vheap :=
  vecs_of [vec2.mk 0x1.999999999999ap-4%float 0%float;
           vec2.mk 0%float 0%float;
           vec2.mk 0x1.999999999999ap-3%float 0%float;
           vec2.mk 0.5%float 0%float].

(** ** The event loop of [Wmain.run] *)

(** What [glfw.poll_events()] delivers: a mouse-button event, with the
    cursor position and the identifier a created shape would draw, or a
    cursor move, with the reported state of the left button. *)
Inductive gui_event : Type :=
| MouseButton (button : glfw_button) (action : glfw_action) (x y : float)
              (uid : uuid)
| CursorPos (held : glfw_action) (xpos ypos : float).

Definition gui_step `{Libm} (e : gui_event) (w : store * DrawArea.t)
  : result (store * DrawArea.t) :=
  match e with
  | MouseButton button action x y uid =>
      DrawArea.mouse_button_callback button action x y uid w.1 w.2
  | CursorPos held xpos ypos =>
      DrawArea.cursor_pos_callback held xpos ypos w.1 w.2
  end.

(** The events in order; an exception raised by a callback ends the loop. *)
Fixpoint gui_run `{Libm} (es : list gui_event) (w : store * DrawArea.t)
  : result (store * DrawArea.t) :=
  match es with
  | [] => Ok w
  | e :: es' =>
      match gui_step e w with
      | Ok w' => gui_run es' w'
      | Raise x => Raise x
      end
  end.

(** The window as [wmain.run()] finds it. *)
Definition program_window (uid : uuid) (st0 : store) : store * DrawArea.t :=
  ((program_start uid st0).1, Wmain.draw_area (program_start uid st0).2).

(** What holds of the program's window at every moment of the loop: the
    registry lists, in order and once each, the shapes allocated since
    [first]; the selection is a registered shape; a drag record drags the
    selected shape; every registered shape has radius 40 and the program's
    colour; every registered shape has a [vec2] object of its own for its
    centre, which is not the [vec2] of the drag record; and the two toolbar
    buttons sit where the constructor put them, with their size and with
    [clicked] unset. *)
Definition window_ok (first : ref) (w : store * DrawArea.t) : Prop :=
  first < next w.1 /\
  Scene.shapes (DrawArea.scene w.2) = seq first (next w.1 - first) /\
  (forall r, Scene.selected (DrawArea.scene w.2) = Some r ->
             r ∈ Scene.shapes (DrawArea.scene w.2)) /\
  session_consistent (DrawArea.scene w.2) /\
  (forall r, r ∈ Scene.shapes (DrawArea.scene w.2) ->
             Shape.radius (objs w.1 r) = 40%float /\
             Shape.color (objs w.1 r) = color /\
             Shape.pos (objs w.1 r) < next_vec w.1) /\
  (forall r r', r ∈ Scene.shapes (DrawArea.scene w.2) ->
                r' ∈ Scene.shapes (DrawArea.scene w.2) ->
                Shape.pos (objs w.1 r) = Shape.pos (objs w.1 r') -> r = r') /\
  (forall d, Scene.draggable (DrawArea.scene w.2) = Some d ->
             draggable.current_pos d < next_vec w.1 /\
             forall r, r ∈ Scene.shapes (DrawArea.scene w.2) ->
                       Shape.pos (objs w.1 r) <> draggable.current_pos d) /\
  Toolbar.pos (DrawArea.toolbar w.2) = vec2.mk 0%float 448%float /\
  exists sel_select sel_delete : bool,
    Toolbar.buttons (DrawArea.toolbar w.2)
    = [Button.mk (Some (vec2.mk 291%float 6%float)) 20%float
                 (200, 200, 200)%Z false sel_select;
       Button.mk (Some (vec2.mk 317%float 6%float)) 20%float
                 (200, 200, 200)%Z false sel_delete].

(** The scenario of the spec as the event loop delivers it: press at
    (60, 60), cursor moves to (70, 70) and (80, 85) with the button held,
    release. *)
Definition scenario_events : list gui_event :=
  [MouseButton MOUSE_BUTTON_LEFT PRESS 60 60 0%Z;
   CursorPos PRESS 70 70;
   CursorPos PRESS 80 85;
   MouseButton MOUSE_BUTTON_LEFT RELEASE 80 85 0%Z].

(** The one way a callback of the program raises: a left press, with
    nothing selected, reaches the circle test of a registered shape, and
    that test raises. *)
Definition press_test_raises `{Libm} (ev : gui_event)
    (w : store * DrawArea.t) (e : exn) : Prop :=
  exists (x y : float) (uid : uuid),
    ev = MouseButton MOUSE_BUTTON_LEFT PRESS x y uid /\
    Scene.selected (DrawArea.scene w.2) = None /\
    exists r, r ∈ Scene.shapes (DrawArea.scene w.2) /\
              Shape.contains (vecs (alloc_vec2 (vec2.mk x y) w.1).2)
                             (objs w.1 r) (vec2.mk x y) = Raise e.

(** The cursor moves to [q] while the left button is held. *)
Definition cursor_to (q : vec2.t) : gui_event :=
  CursorPos PRESS (vec2.x q) (vec2.y q).

(** ** Drawing *)

(** The paints the code uses: [skia.ColorBLUE], [skia.ColorGRAY], or a
    [Color(r, g, b)] value. *)
Inductive paint_color : Type :=
| ColorBLUE
| ColorGRAY
| ColorOf (c : Color).

(** The two canvas calls of the code, [canvas.drawRect(Rect.MakeXYWH(x, y,
    w, h), paint)] and [canvas.drawCircle(cx, cy, radius, paint)]; a canvas
    is the list of the calls it received, oldest first. *)
Inductive draw_command : Type :=
| drawRect (x y w h : float) (paint : paint_color)
| drawCircle (cx cy radius : float) (paint : paint_color).

Definition canvas : Type := list draw_command.

(** [Button.draw]: the paint is chosen first; [self.pos.x] raises on an
    unplaced button, before anything is drawn. *)
Definition Button_draw (self : Button.t) (cv : canvas) : result unit * canvas :=
  let paint :=
    if Button.selected self then ColorBLUE
    else if Button.clicked self then ColorGRAY
    else ColorOf (Button.color self) in
  match Button.pos self with
  | None => (Raise AttributeError, cv)
  | Some o =>
      (Ok tt,
       cv ++ [drawRect (vec2.x o) (vec2.y o)
                       (float_of_Z BUTTON_SIZE) (float_of_Z BUTTON_SIZE)
                       paint])
  end.

(** The loop [for btn in self.buttons: btn.draw(canvas)]. *)
Fixpoint buttons_draw (btns : list Button.t) (cv : canvas)
  : result unit * canvas :=
  match btns with
  | [] => (Ok tt, cv)
  | btn :: rest =>
      match Button_draw btn cv with
      | (Ok _, cv') => buttons_draw rest cv'
      | (Raise e, cv') => (Raise e, cv')
      end
  end.

(** [Toolbar.draw] *)
Definition Toolbar_draw (self : Toolbar.t) (cv : canvas)
  : result unit * canvas :=
  let cv' :=
    cv ++ [drawRect (vec2.x (Toolbar.pos self))
                    (vec2.y (Toolbar.pos self)
                     + float_of_Z (HEIGHT - UI_TOP_BAR_HEIGHT))%float
                    (float_of_Z WIDTH) (float_of_Z UI_TOP_BAR_HEIGHT)
                    ColorGRAY] in
  buttons_draw (Toolbar.buttons self) cv'.

(** [Shape.draw] *)
Definition Shape_draw (v : vheap) (self : Shape.t) (cv : canvas) : canvas :=
  cv ++ [drawCircle (vec2.x (v (Shape.pos self)))
                    (vec2.y (v (Shape.pos self)))
                    (Shape.radius self) (ColorOf (Shape.color self))].

(** [Scene.draw]: the loop [for shape in self.shapes: shape.draw(canvas)]. *)
Definition Scene_draw (h : heap) (v : vheap) (self : Scene.t) (cv : canvas)
  : canvas :=
  fold_left (fun cv shape => Shape_draw v (h shape) cv) (Scene.shapes self) cv.

(** [DrawArea.draw]: the scene, then the toolbar. *)
Definition DrawArea_draw (st : store) (self : DrawArea.t) (cv : canvas)
  : result unit * canvas :=
  Toolbar_draw (DrawArea.toolbar self)
               (Scene_draw (objs st) (vecs st) (DrawArea.scene self) cv).

(** The circle [Shape.draw] paints for a shape. *)
Definition circle_of (v : vheap) (self : Shape.t) : draw_command :=
  drawCircle (vec2.x (v (Shape.pos self))) (vec2.y (v (Shape.pos self)))
             (Shape.radius self) (ColorOf (Shape.color self)).

(** The paint of a program button: blue when toggled, grey base otherwise. *)
Definition button_paint (toggled : bool) : paint_color :=
  if toggled then ColorBLUE else ColorOf (200, 200, 200)%Z.

(** A mouse action other than the release. *)
Definition not_release (e : event) : Prop :=
  match e with
  | Mouse LEFT_CLICK_UP _ => False
  | _ => True
  end.

(** * Properties *)

(** ** Doubles *)

Lemma SFcompare_refl (x : spec_float) :
  x <> S754_nan -> SFcompare x x = Some Eq.
Proof.
  destruct x as [s | s | | s m e]; intros Hx; simpl.
  - reflexivity.
  - destruct s; reflexivity.
  - contradiction.
  - destruct s; rewrite Z.compare_refl, Pos.compare_refl; reflexivity.
Qed.

(** Whatever a double is [<=] to is not a nan. *)
Lemma leb_true_refl_r (a b : float) :
  (a <=? b)%float = true -> (b <=? b)%float = true.
Proof.
  rewrite !FloatAxioms.leb_spec. unfold SFleb. intros H.
  rewrite SFcompare_refl; [reflexivity |].
  intros Hb. rewrite Hb in H.
  destruct (Prim2SF a); discriminate H.
Qed.

Lemma leb_true_refl_l (a b : float) :
  (a <=? b)%float = true -> (a <=? a)%float = true.
Proof.
  rewrite !FloatAxioms.leb_spec. unfold SFleb. intros H.
  rewrite SFcompare_refl; [reflexivity |].
  intros Ha. rewrite Ha in H. discriminate H.
Qed.

Lemma is_finite_SF (x : float) :
  is_finite x = true ->
  (exists s, Prim2SF x = S754_zero s) \/
  (exists s m e, Prim2SF x = S754_finite s m e).
Proof.
  unfold is_finite, is_nan, is_infinity.
  rewrite !FloatAxioms.eqb_spec, abs_spec.
  destruct (Prim2SF x) as [s | s | | s m e]; intros H.
  - left. eexists. reflexivity.
  - exfalso. revert H. destruct s; vm_compute; discriminate.
  - exfalso. revert H. vm_compute. discriminate.
  - right. do 3 eexists. reflexivity.
Qed.

(** The difference of a finite double with itself is [+0]. *)
Lemma sub_diag (x : float) : is_finite x = true -> (x - x)%float = 0%float.
Proof.
  intros Hf. apply Prim2SF_inj. rewrite FloatAxioms.sub_spec.
  destruct (is_finite_SF x Hf) as [[s ->] | (s & m & e & ->)].
  - destruct s; reflexivity.
  - unfold SF64sub, SFsub. rewrite Z.sub_diag. reflexivity.
Qed.

(** Two doubles that a test tells apart are different. *)
Lemma float_neq (test : float -> bool) (a b : float) :
  test a <> test b -> a <> b.
Proof. intros Hne Heq. apply Hne. rewrite Heq. reflexivity. Qed.

(** ** Python's float power *)

(** A square is never complex. *)
Lemma float_pow_two_not_complex `{Libm} (iv : float) :
  float_pow iv exp_two <> Ok PyComplex.
Proof.
  unfold float_pow. cbn [exponent_is_fractional exponent_value].
  rewrite andb_false_r.
  repeat match goal with
         | |- context [if ?b then _ else _] => destruct b
         end;
    try discriminate.
  all: match goal with
       | |- context [adjust_erange1 ?e ?x] =>
           destruct (adjust_erange1 e x); discriminate
       end.
Qed.

(** ** The circle test *)

(** With the three powers known, the test is the comparison of the computed
    distance with the radius. *)
Lemma contains_computed `{Libm} (v : vheap) (s : Shape.t) (p : vec2.t)
    (a b d : float) :
  float_pow (vec2.x p - vec2.x (v (Shape.pos s)))%float exp_two
  = Ok (PyFloat a) ->
  float_pow (vec2.y p - vec2.y (v (Shape.pos s)))%float exp_two
  = Ok (PyFloat b) ->
  float_pow (a + b)%float exp_half = Ok (PyFloat d) ->
  Shape.contains v s p = Ok (d <=? Shape.radius s)%float.
Proof.
  intros Ha Hb Hd. unfold Shape.contains. rewrite Ha, Hb, Hd. reflexivity.
Qed.

(** An exception of a power is the outcome of the test. *)
Lemma contains_raise_x `{Libm} (v : vheap) (s : Shape.t) (p : vec2.t)
    (e : exn) :
  float_pow (vec2.x p - vec2.x (v (Shape.pos s)))%float exp_two = Raise e ->
  Shape.contains v s p = Raise e.
Proof. intros Ha. unfold Shape.contains. rewrite Ha. reflexivity. Qed.

Lemma contains_raise_y `{Libm} (v : vheap) (s : Shape.t) (p : vec2.t)
    (a : float) (e : exn) :
  float_pow (vec2.x p - vec2.x (v (Shape.pos s)))%float exp_two
  = Ok (PyFloat a) ->
  float_pow (vec2.y p - vec2.y (v (Shape.pos s)))%float exp_two = Raise e ->
  Shape.contains v s p = Raise e.
Proof. intros Ha Hb. unfold Shape.contains. rewrite Ha, Hb. reflexivity. Qed.

Lemma contains_raise_root `{Libm} (v : vheap) (s : Shape.t) (p : vec2.t)
    (a b : float) (e : exn) :
  float_pow (vec2.x p - vec2.x (v (Shape.pos s)))%float exp_two
  = Ok (PyFloat a) ->
  float_pow (vec2.y p - vec2.y (v (Shape.pos s)))%float exp_two
  = Ok (PyFloat b) ->
  float_pow (a + b)%float exp_half = Raise e ->
  Shape.contains v s p = Raise e.
Proof.
  intros Ha Hb Hd. unfold Shape.contains. rewrite Ha, Hb, Hd. reflexivity.
Qed.

(** A shape with a finite centre and a radius that is not negative contains
    its own centre, on every platform. *)
Lemma contains_centre `{Libm} (v : vheap) (s : Shape.t) (p : vec2.t) :
  p = v (Shape.pos s) ->
  is_finite (vec2.x p) = true ->
  is_finite (vec2.y p) = true ->
  (0 <=? Shape.radius s)%float = true ->
  Shape.contains v s p = Ok true.
Proof.
  intros -> Hx Hy Hr.
  rewrite (contains_computed v s _ 0%float 0%float 0%float).
  - rewrite Hr. reflexivity.
  - rewrite (sub_diag _ Hx). reflexivity.
  - rewrite (sub_diag _ Hy). reflexivity.
  - reflexivity.
Qed.

(** ** The square test *)

Lemma button_hit_test_iff (b : Button.t) (p : vec2.t) :
  Button.hit_test b p = Ok true <->
  exists o : vec2.t,
    Button.pos b = Some o /\
    (vec2.x o <=? vec2.x p)%float = true /\
    (vec2.x p <=? vec2.x o + Button.size b)%float = true /\
    (vec2.y o <=? vec2.y p)%float = true /\
    (vec2.y p <=? vec2.y o + Button.size b)%float = true.
Proof.
  unfold Button.hit_test.
  destruct (Button.pos b) as [o |].
  - split.
    + intros H. injection H as H.
      apply andb_prop in H as [Hx Hy].
      apply andb_prop in Hx as [Hx1 Hx2].
      apply andb_prop in Hy as [Hy1 Hy2].
      exists o. repeat split; assumption.
    + intros (o' & Ho & Hx1 & Hx2 & Hy1 & Hy2).
      injection Ho as <-.
      rewrite Hx1, Hx2, Hy1, Hy2. reflexivity.
  - split.
    + intros H. discriminate H.
    + intros (o & Ho & _). discriminate Ho.
Qed.

(** The two corners of a placed button, the origin and the computed far
    corner, are inside it. *)
Lemma button_corners (b : Button.t) (o : vec2.t) :
  Button.pos b = Some o ->
  (vec2.x o <=? vec2.x o + Button.size b)%float = true ->
  (vec2.y o <=? vec2.y o + Button.size b)%float = true ->
  Button.hit_test b o = Ok true /\
  Button.hit_test b (vec2.mk (vec2.x o + Button.size b)%float
                             (vec2.y o + Button.size b)%float) = Ok true.
Proof.
  intros Ho Hx Hy. split; apply button_hit_test_iff; exists o;
    cbn [vec2.x vec2.y];
    repeat split;
    eauto using leb_true_refl_l, leb_true_refl_r.
Qed.

(** ** The press-time hit-test *)

Section press_loop.

Context `{L : Libm} (h : heap) (v : vheap) (p : vec2.t).

Lemma first_containing_none (l : list ref) :
  (forall r, r ∈ l -> Shape.contains v (h r) p = Ok false) ->
  Scene.first_containing h v p l = Ok None.
Proof.
  induction l as [| r l IH]; intros Hall; simpl.
  - reflexivity.
  - rewrite (Hall r) by apply list_elem_of_here.
    apply IH. intros r' Hr'. apply Hall. apply list_elem_of_further, Hr'.
Qed.

Lemma first_containing_first (l1 l2 : list ref) (a : ref) :
  (forall r, r ∈ l1 -> Shape.contains v (h r) p = Ok false) ->
  Shape.contains v (h a) p = Ok true ->
  Scene.first_containing h v p (l1 ++ a :: l2) = Ok (Some a).
Proof.
  induction l1 as [| r l1 IH]; intros Hall Ha; simpl.
  - rewrite Ha. reflexivity.
  - rewrite (Hall r) by apply list_elem_of_here.
    apply IH; [| exact Ha].
    intros r' Hr'. apply Hall. apply list_elem_of_further, Hr'.
Qed.

Lemma first_containing_raise (l1 l2 : list ref) (a : ref) (e : exn) :
  (forall r, r ∈ l1 -> Shape.contains v (h r) p = Ok false) ->
  Shape.contains v (h a) p = Raise e ->
  Scene.first_containing h v p (l1 ++ a :: l2) = Raise e.
Proof.
  induction l1 as [| r l1 IH]; intros Hall Ha; simpl.
  - rewrite Ha. reflexivity.
  - rewrite (Hall r) by apply list_elem_of_here.
    apply IH; [| exact Ha].
    intros r' Hr'. apply Hall. apply list_elem_of_further, Hr'.
Qed.

(** Every answer of the loop is a registered shape that contains the point
    and is preceded only by shapes that do not. *)
Lemma first_containing_Some (l : list ref) (a : ref) :
  Scene.first_containing h v p l = Ok (Some a) ->
  exists l1 l2, l = l1 ++ a :: l2 /\
    Shape.contains v (h a) p = Ok true /\
    forall r, r ∈ l1 -> Shape.contains v (h r) p = Ok false.
Proof.
  induction l as [| r l IH]; simpl; intros H.
  - discriminate H.
  - destruct (Shape.contains v (h r) p) as [[|] | e] eqn:Hr.
    + injection H as <-. exists [], l. repeat split; [exact Hr |].
      intros r' Hr'. inversion Hr'.
    + destruct (IH H) as (l1 & l2 & -> & Ha & Hall).
      exists (r :: l1), l2. repeat split; [exact Ha |].
      intros r' Hr'. apply elem_of_cons in Hr' as [-> | Hr'].
      * exact Hr.
      * apply Hall, Hr'.
    + discriminate H.
Qed.

(** The loop answers "none" only when every shape was tested and none
    contains the point. *)
Lemma first_containing_None_inv (l : list ref) :
  Scene.first_containing h v p l = Ok None ->
  forall r, r ∈ l -> Shape.contains v (h r) p = Ok false.
Proof.
  induction l as [| r0 l IH]; simpl; intros H r Hr.
  - inversion Hr.
  - destruct (Shape.contains v (h r0) p) as [[|] | e] eqn:Hr0;
      [discriminate H | | discriminate H].
    apply elem_of_cons in Hr as [-> | Hr]; [exact Hr0 |].
    exact (IH H r Hr).
Qed.

(** The loop raises only what the test of some shape raises, after shapes
    that do not contain the point. *)
Lemma first_containing_Raise_inv (l : list ref) (e : exn) :
  Scene.first_containing h v p l = Raise e ->
  exists l1 l2 a, l = l1 ++ a :: l2 /\
    Shape.contains v (h a) p = Raise e /\
    forall r, r ∈ l1 -> Shape.contains v (h r) p = Ok false.
Proof.
  induction l as [| r l IH]; simpl; intros H.
  - discriminate H.
  - destruct (Shape.contains v (h r) p) as [[|] | e'] eqn:Hr.
    + discriminate H.
    + destruct (IH H) as (l1 & l2 & a & -> & Ha & Hall).
      exists (r :: l1), l2, a. repeat split; [exact Ha |].
      intros r' Hr'. apply elem_of_cons in Hr' as [-> | Hr'].
      * exact Hr.
      * apply Hall, Hr'.
    + injection H as ->. exists [], l, r. repeat split; [exact Hr |].
      intros r' Hr'. inversion Hr'.
Qed.

End press_loop.

Lemma shape_A_contains_P :
  Shape.contains vecs_AB (heap_AB 0) (vecs_AB point_P) = Ok true.
Proof. reflexivity. Qed.

Lemma shape_B_contains_P :
  Shape.contains vecs_AB (heap_AB 1) (vecs_AB point_P) = Ok true.
Proof. reflexivity. Qed.

(** C1, counterexample. With [shape_A] registered before [shape_B] and
    [point_P] = (58, 58) inside both, a press at [point_P] selects
    [shape_A], the one registered first, and not [shape_B]. *)
Lemma press_selects_first_registered_AB :
  Scene.shapes scene_AB = [0; 1] /\
  Shape.contains vecs_AB (heap_AB 0) (vecs_AB point_P) = Ok true /\
  Shape.contains vecs_AB (heap_AB 1) (vecs_AB point_P) = Ok true /\
  Scene.mouse_action LEFT_CLICK_DOWN point_P heap_AB vecs_AB scene_AB
  = (Ok (Some true), vecs_AB, Scene.mk [0; 1] None (Some 0)) /\
  Scene.selected
    (Scene.mouse_action LEFT_CLICK_DOWN point_P heap_AB vecs_AB scene_AB).2
  <> Some 1.
Proof.
  assert (Hrun : Scene.mouse_action LEFT_CLICK_DOWN point_P heap_AB vecs_AB
                                    scene_AB
                 = (Ok (Some true), vecs_AB, Scene.mk [0; 1] None (Some 0))).
  { unfold Scene.mouse_action, scene_AB. simpl Scene.selected.
    simpl Scene.shapes. cbn [Scene.first_containing].
    rewrite shape_A_contains_P. reflexivity. }
  split; [reflexivity |].
  split; [exact shape_A_contains_P |].
  split; [exact shape_B_contains_P |].
  split; [exact Hrun |].
  rewrite Hrun. simpl. discriminate.
Qed.

(** C1, as the code has it. From a state without selection, a press tests
    the shapes in insertion order (the order of [Scene.shapes], to which
    [add_shape] appends) and selects the first one that contains the point,
    that is the earliest registered such shape; it reports [True] and changes
    neither the registry, nor a [vec2], nor the drag record.  When no shape
    contains the point nothing changes and the call returns [None].
    Conversely, whatever shape is selected after the press contains the
    point and no shape registered before it does.  A test that raises ends
    the press with that exception and nothing changed. *)
Theorem press_selects_first_containing `{Libm} (h : heap) (v : vheap)
    (s : Scene.t) (pos : vref) :
  Scene.selected s = None ->
  (forall (shape : ref),
      Scene.shapes (Scene.add_shape shape s) = Scene.shapes s ++ [shape]) /\
  (forall (l1 l2 : list ref) (a : ref),
      Scene.shapes s = l1 ++ a :: l2 ->
      (forall r, r ∈ l1 -> Shape.contains v (h r) (v pos) = Ok false) ->
      Shape.contains v (h a) (v pos) = Ok true ->
      Scene.mouse_action LEFT_CLICK_DOWN pos h v s
      = (Ok (Some true), v,
         Scene.mk (Scene.shapes s) (Scene.draggable s) (Some a))) /\
  ((forall r, r ∈ Scene.shapes s ->
              Shape.contains v (h r) (v pos) = Ok false) ->
   Scene.mouse_action LEFT_CLICK_DOWN pos h v s = (Ok None, v, s)) /\
  (forall a : ref,
      Scene.selected (Scene.mouse_action LEFT_CLICK_DOWN pos h v s).2
      = Some a ->
      exists l1 l2 : list ref,
        Scene.shapes s = l1 ++ a :: l2 /\
        Shape.contains v (h a) (v pos) = Ok true /\
        forall r, r ∈ l1 -> Shape.contains v (h r) (v pos) = Ok false) /\
  (forall (l1 l2 : list ref) (a : ref) (e : exn),
      Scene.shapes s = l1 ++ a :: l2 ->
      (forall r, r ∈ l1 -> Shape.contains v (h r) (v pos) = Ok false) ->
      Shape.contains v (h a) (v pos) = Raise e ->
      Scene.mouse_action LEFT_CLICK_DOWN pos h v s = (Raise e, v, s)).
Proof.
  intros Hsel. split; [reflexivity |]. split; [| split; [| split]].
  - intros l1 l2 a Hl Hbefore Ha.
    unfold Scene.mouse_action. rewrite Hsel, Hl.
    rewrite (first_containing_first h v _ l1 l2 a Hbefore Ha). reflexivity.
  - intros Hnone.
    unfold Scene.mouse_action. rewrite Hsel.
    rewrite (first_containing_none h v _ _ Hnone). reflexivity.
  - intros a. unfold Scene.mouse_action. rewrite Hsel.
    destruct (Scene.first_containing h v (v pos) (Scene.shapes s))
      as [[r |] | e] eqn:Hfc;
      cbn [snd Scene.selected]; intros Ha.
    + injection Ha as <-. exact (first_containing_Some h v _ _ r Hfc).
    + rewrite Hsel in Ha. discriminate Ha.
    + rewrite Hsel in Ha. discriminate Ha.
  - intros l1 l2 a e Hl Hbefore Ha.
    unfold Scene.mouse_action. rewrite Hsel, Hl.
    rewrite (first_containing_raise h v _ l1 l2 a e Hbefore Ha). reflexivity.
Qed.

Lemma press_selects_first_containing_witness :
  Scene.selected scene_AB = None /\
  Scene.mouse_action LEFT_CLICK_DOWN point_P heap_AB vecs_AB scene_AB
  = (Ok (Some true), vecs_AB,
     Scene.mk (Scene.shapes scene_AB) (Scene.draggable scene_AB) (Some 0)).
Proof.
  split; [reflexivity |].
  refine (proj1 (proj2 (press_selects_first_containing
                          heap_AB vecs_AB scene_AB point_P eq_refl))
                [] [1] 0 eq_refl _ shape_A_contains_P).
  intros r Hr. inversion Hr.
Defined.

(** ** Press while a shape is selected *)

(** C10. With a selection in place, a press that reaches the state machine
    does nothing at all: whatever the point and whatever shapes contain it,
    the call returns [None] without a hit-test (so it cannot raise either),
    and the [vec2] store and the scene (registry, selection, drag record)
    are the ones it was given. *)
Theorem press_while_selected_is_noop `{Libm} (h : heap) (v : vheap)
    (s : Scene.t) (sel : ref) (pos : vref) :
  Scene.selected s = Some sel ->
  Scene.mouse_action LEFT_CLICK_DOWN pos h v s = (Ok None, v, s).
Proof.
  intros Hsel. unfold Scene.mouse_action. rewrite Hsel. reflexivity.
Qed.

(** [shape_A] is selected and the press, at (95, 62), lands inside
    [shape_B]. *)
Lemma press_while_selected_is_noop_witness :
  Shape.contains vecs_AB (heap_AB 1) (vecs_AB point_in_B) = Ok true /\
  Scene.mouse_action LEFT_CLICK_DOWN point_in_B heap_AB vecs_AB
                     scene_A_selected
  = (Ok None, vecs_AB, scene_A_selected).
Proof.
  split.
  - reflexivity.
  - exact (press_while_selected_is_noop
             heap_AB vecs_AB scene_A_selected 0 point_in_B eq_refl).
Defined.

(** ** Release *)

(** C5. From any state a release drops the drag record and the selection,
    which is the state [Idle], and touches neither the registry nor a
    [vec2]; a second release straight after it changes nothing.  A release
    of the left button always reaches the scene this way, wherever the
    pointer is; the store only gains the [vec2] the callback builds for the
    pointer. *)
Theorem release_resets_and_is_idempotent `{Libm} (h : heap) (v : vheap)
    (s : Scene.t) (p1 p2 : vref) :
  (exists s1 : Scene.t,
     Scene.mouse_action LEFT_CLICK_UP p1 h v s = (Ok None, v, s1) /\
     Scene.selected s1 = None /\
     Scene.draggable s1 = None /\
     Scene.shapes s1 = Scene.shapes s /\
     phase_of s1 = Idle /\
     Scene.mouse_action LEFT_CLICK_UP p2 h v s1 = (Ok None, v, s1)) /\
  (forall (st : store) (d : DrawArea.t) (uid : uuid) (x y : float),
     DrawArea.scene d = s ->
     DrawArea.mouse_button_callback MOUSE_BUTTON_LEFT RELEASE x y uid st d
     = Ok ((alloc_vec2 (vec2.mk x y) st).2,
           DrawArea.mk (DrawArea.width d) (DrawArea.height d)
                       (Scene.mk (Scene.shapes s) None None)
                       (DrawArea.toolbar d))).
Proof.
  split.
  - exists (Scene.mk (Scene.shapes s) None None). repeat split.
  - intros st d uid x y <-. reflexivity.
Qed.

(** A release at (80, 85) while [shape_A] is being dragged. *)
Lemma release_resets_and_is_idempotent_witness :
  DrawArea.mouse_button_callback MOUSE_BUTTON_LEFT RELEASE 80 85 0%Z
    (mk_store heap_AB vecs_AB 2 7)
    (DrawArea.mk WIDTH (HEIGHT - UI_TOP_BAR_HEIGHT)
       (Scene.mk [0; 1] (Some (draggable.mk point_70_70 0)) (Some 0))
       (Toolbar.mk (vec2.mk 0 448) [select_button; delete_button]))
  = Ok (mk_store heap_AB (<[7 := vec2.mk 80 85]> vecs_AB) 2 8,
        DrawArea.mk WIDTH (HEIGHT - UI_TOP_BAR_HEIGHT)
          (Scene.mk [0; 1] None None)
          (Toolbar.mk (vec2.mk 0 448) [select_button; delete_button])).
Proof.
  exact (proj2 (release_resets_and_is_idempotent
                  heap_AB vecs_AB
                  (Scene.mk [0; 1] (Some (draggable.mk point_70_70 0))
                            (Some 0))
                  point_80_85 point_80_85)
               (mk_store heap_AB vecs_AB 2 7)
               (DrawArea.mk WIDTH (HEIGHT - UI_TOP_BAR_HEIGHT)
                  (Scene.mk [0; 1] (Some (draggable.mk point_70_70 0))
                            (Some 0))
                  (Toolbar.mk (vec2.mk 0 448) [select_button; delete_button]))
               0%Z 80%float 85%float eq_refl).
Defined.

(** ** The session invariant *)

Lemma mouse_action_consistent `{Libm} (a : MOUSE_ACTION) (pos : vref)
    (h : heap) (v : vheap) (s : Scene.t) :
  session_consistent s ->
  session_consistent (Scene.mouse_action a pos h v s).2.
Proof.
  intros Hinv. unfold Scene.mouse_action.
  destruct a.
  - destruct (Scene.selected s) as [sel |] eqn:Hsel; [exact Hinv |].
    destruct (Scene.first_containing h v (v pos) (Scene.shapes s))
      as [[r |] | e]; [| exact Hinv | exact Hinv].
    intros d Hd. simpl in Hd.
    specialize (Hinv d Hd). rewrite Hsel in Hinv. discriminate Hinv.
  - destruct (Scene.selected s) as [sel |] eqn:Hsel; [| exact Hinv].
    destruct (Scene.draggable s) as [d0 |] eqn:Hd0.
    + intros d Hd. simpl in Hd. injection Hd as <-. simpl.
      rewrite <- Hsel. exact (Hinv d0 Hd0).
    + intros d Hd. simpl in Hd. injection Hd as <-. reflexivity.
  - intros d Hd. discriminate Hd.
  - exact Hinv.
Qed.

Lemma step_consistent `{Libm} (h : heap) (e : event) (st : vheap * Scene.t) :
  session_consistent st.2 -> session_consistent (step h e st).2.
Proof.
  intros Hinv. destruct e as [a p | r | r]; unfold step.
  - pose proof (mouse_action_consistent a p h st.1 st.2 Hinv) as HH.
    destruct (Scene.mouse_action a p h st.1 st.2) as [[ret v'] s'].
    exact HH.
  - exact Hinv.
  - unfold Scene.remove_shape.
    destruct (Scene.remove_first r (Scene.shapes st.2)); exact Hinv.
Qed.

Lemma run_consistent `{Libm} (h : heap) (es : list event)
    (st : vheap * Scene.t) :
  session_consistent st.2 -> session_consistent (run h es st).2.
Proof.
  revert st. induction es as [| e es IH]; intros st Hinv.
  - exact Hinv.
  - apply IH. apply step_consistent. exact Hinv.
Qed.

(** C9. A new scene has no drag record, and after any sequence of mouse
    actions (press, drag, release, and the unused right-click member), also
    interleaved with registrations and removals of shapes and with calls
    that raise, a drag record exists only while a shape is selected, and it
    drags that shape. *)
Theorem drag_only_while_selected `{Libm} (es : list event) (h : heap)
    (v : vheap) :
  Scene.draggable Scene.init = None /\
  session_consistent (run h es (v, Scene.init)).2 /\
  (forall d, Scene.draggable (run h es (v, Scene.init)).2 = Some d ->
             Scene.selected (run h es (v, Scene.init)).2 <> None).
Proof.
  assert (Hinv : session_consistent (run h es (v, Scene.init)).2).
  { apply run_consistent. intros d Hd. discriminate Hd. }
  split; [reflexivity |]. split; [exact Hinv |].
  intros d Hd. rewrite (Hinv d Hd). discriminate.
Qed.

(** ** The drag controller *)

(** Reading the [vec2] store after an object was changed in place. *)
Lemma vheap_alter_eq (g : vec2.t -> vec2.t) (v : vheap) (q : vref) :
  alter g q v q = g (v q).
Proof. exact (fn_lookup_alter g v q). Qed.

Lemma vheap_alter_ne (g : vec2.t -> vec2.t) (v : vheap) (q q' : vref) :
  q <> q' -> alter g q v q' = v q'.
Proof. exact (fn_lookup_alter_ne g v q q'). Qed.

(** One drag event while a drag record exists. *)
Lemma drag_step_dragging `{Libm} (h : heap) (v : vheap) (s : Scene.t)
    (sel : ref) (d : draggable.t) (pos : vref) :
  Scene.selected s = Some sel ->
  Scene.draggable s = Some d ->
  Scene.mouse_action LEFT_CLICK_DRAG pos h v s
  = (Ok None,
     alter (fun c => vec2.translate
                       c (vec2.sub (v pos) (v (draggable.current_pos d))))
           (Shape.pos (h (draggable.shape d))) v,
     Scene.mk (Scene.shapes s) (Some (draggable.mk pos (draggable.shape d)))
              (Some sel)).
Proof.
  intros Hsel Hd. unfold Scene.mouse_action, draggable.work, Shape.translate.
  rewrite Hsel, Hd. reflexivity.
Qed.

Lemma run_cons `{Libm} (h : heap) (e : event) (es : list event)
    (st : vheap * Scene.t) :
  run h (e :: es) st = run h es (step h e st).
Proof. reflexivity. Qed.

Lemma run_app `{Libm} (h : heap) (es1 es2 : list event)
    (st : vheap * Scene.t) :
  run h (es1 ++ es2) st = run h es2 (run h es1 st).
Proof. unfold run. apply fold_left_app. Qed.

Lemma step_drag_dragging `{Libm} (h : heap) (v : vheap) (s : Scene.t)
    (sel : ref) (d : draggable.t) (pos : vref) :
  Scene.selected s = Some sel ->
  Scene.draggable s = Some d ->
  step h (Mouse LEFT_CLICK_DRAG pos) (v, s)
  = (alter (fun c => vec2.translate
                       c (vec2.sub (v pos) (v (draggable.current_pos d))))
           (Shape.pos (h (draggable.shape d))) v,
     Scene.mk (Scene.shapes s) (Some (draggable.mk pos (draggable.shape d)))
              (Some sel)).
Proof.
  intros Hsel Hd. unfold step. cbn [fst snd].
  rewrite (drag_step_dragging h v s sel d pos Hsel Hd). reflexivity.
Qed.

(** The last element of a list that is not empty. *)
Lemma last_cons (l : list vref) (a d : vref) :
  List.last (a :: l) d = List.last l a.
Proof.
  revert a d. induction l as [| b l IH]; intros a d; [reflexivity |].
  change (List.last (a :: b :: l) d) with (List.last (b :: l) d).
  rewrite (IH b d), (IH b a). reflexivity.
Qed.

(** A run of drag events while a drag record anchored at the object [last]
    exists, none of the pointer objects being the centre of the dragged
    shape: the centre is what [dragged] computes from the contents of the
    pointer objects, and no other [vec2] changes. *)
Lemma drags_fold `{Libm} (h : heap) (sel : ref) (qs : list vref) :
  forall (v : vheap) (s : Scene.t) (last : vref),
    Scene.selected s = Some sel ->
    Scene.draggable s = Some (draggable.mk last sel) ->
    (Shape.pos (h sel) ∉ last :: qs) ->
    exists v',
      run h (map (Mouse LEFT_CLICK_DRAG) qs) (v, s)
      = (v', Scene.mk (Scene.shapes s)
                      (Some (draggable.mk (List.last qs last) sel))
                      (Some sel)) /\
      v' (Shape.pos (h sel))
      = dragged (v (Shape.pos (h sel))) (v last) (map v qs) /\
      forall q, q <> Shape.pos (h sel) -> v' q = v q.
Proof.
  induction qs as [| q qs IH]; intros v s last Hsel Hd Hfresh.
  - exists v. destruct s as [shapes dr se]. simpl in Hsel, Hd. subst.
    repeat split.
  - apply not_elem_of_cons in Hfresh as [Hlast Hfresh].
    apply not_elem_of_cons in Hfresh as [Hq Hfresh].
    cbn [map]. rewrite run_cons.
    rewrite (step_drag_dragging h v s sel _ q Hsel Hd).
    cbn [draggable.shape draggable.current_pos].
    set (c := Shape.pos (h sel)) in *.
    set (v1 := alter (fun c0 => vec2.translate c0 (vec2.sub (v q) (v last)))
                     c v).
    destruct (IH v1 (Scene.mk (Scene.shapes s) (Some (draggable.mk q sel))
                              (Some sel))
                 q eq_refl eq_refl) as (v' & Hrun & Hc & Hother).
    { apply not_elem_of_cons. split; assumption. }
    exists v'. split; [| split].
    + rewrite Hrun. cbn [Scene.shapes].
      rewrite (last_cons qs q last). reflexivity.
    + rewrite Hc. unfold v1 at 1. rewrite vheap_alter_eq.
      cbn [dragged]. f_equal.
      * unfold v1. apply vheap_alter_ne. congruence.
      * apply map_ext_in. intros q' Hq'. unfold v1.
        apply vheap_alter_ne. intros ->.
        apply Hfresh. apply list_elem_of_In. exact Hq'.
    + intros q' Hq'. rewrite (Hother q' Hq').
      unfold v1. apply vheap_alter_ne. congruence.
Qed.

(** The anchoring drag event at the object [q0], then drag events at the
    objects [qs]. *)
Lemma drags_from_selected `{Libm} (h : heap) (v : vheap) (s : Scene.t)
    (sel : ref) (q0 : vref) (qs : list vref) :
  Scene.selected s = Some sel ->
  Scene.draggable s = None ->
  (Shape.pos (h sel) ∉ q0 :: qs) ->
  exists v',
    run h (map (Mouse LEFT_CLICK_DRAG) (q0 :: qs)) (v, s)
    = (v', Scene.mk (Scene.shapes s)
                    (Some (draggable.mk (List.last qs q0) sel))
                    (Some sel)) /\
    v' (Shape.pos (h sel))
    = dragged (v (Shape.pos (h sel))) (v q0) (map v qs) /\
    forall q, q <> Shape.pos (h sel) -> v' q = v q.
Proof.
  intros Hsel Hd Hfresh.
  destruct (drags_fold h sel qs v
              (Scene.mk (Scene.shapes s) (Some (draggable.mk q0 sel))
                        (Some sel))
              q0 eq_refl eq_refl Hfresh) as (v' & Hrun & Hc & Hother).
  exists v'. split; [| split]; [| exact Hc | exact Hother].
  cbn [Scene.shapes] in Hrun. rewrite <- Hrun.
  cbn [map]. rewrite run_cons. f_equal.
  unfold step, Scene.mouse_action. cbn [fst snd].
  rewrite Hsel, Hd. reflexivity.
Qed.

(** A press that selects leaves no drag record behind. *)
Lemma press_selects_without_drag_record `{Libm} (h : heap) (v : vheap)
    (s : Scene.t) (sel : ref) (g : vref) :
  session_consistent s ->
  Scene.selected s = None ->
  Scene.first_containing h v (v g) (Scene.shapes s) = Ok (Some sel) ->
  step h (Mouse LEFT_CLICK_DOWN g) (v, s)
  = (v, Scene.mk (Scene.shapes s) None (Some sel)).
Proof.
  intros Hinv Hsel Hfc. unfold step, Scene.mouse_action. cbn [fst snd].
  rewrite Hsel, Hfc.
  destruct (Scene.draggable s) as [d |] eqn:Hd; [| reflexivity].
  specialize (Hinv d Hd). rewrite Hsel in Hinv. discriminate Hinv.
Qed.

Lemma scenario_press :
  step heap_AB (Mouse LEFT_CLICK_DOWN point_60_60) (vecs_AB, scene_A)
  = (vecs_AB, Scene.mk [0] None (Some 0)).
Proof. reflexivity. Qed.

(** C4, counterexample.
    - The scenario of the spec: the shape centred at (55, 55) is grabbed by
      a press at (60, 60); the pointer is dragged to (70, 70) and on to
      (80, 85) = (60 + 20, 60 + 25).  The centre ends at (65, 70) and not at
      (55 + 20, 55 + 25): the way from the press to the first drag event is
      lost.
    - A shape centred at (0.1, 0) is grabbed at (0, 0), the drag is anchored
      there, and the pointer is dragged to (0.5, 0), once directly and once
      by way of (0.2, 0).  The two centres differ (0.6 and
      0.6000000000000001 in their first coordinate), so at least one of
      them is not the old centre moved by the way of the pointer. *)
Lemma drag_loses_the_press_and_rounds :
  (vecs_AB 0 = vec2.mk 55 55 /\
   vecs_AB point_60_60 = vec2.mk 60 60 /\
   vecs_AB point_80_85 = vec2.mk (60 + 20) (60 + 25) /\
   (run heap_AB scenario (vecs_AB, scene_A)).2
   = Scene.mk [0] (Some (draggable.mk point_80_85 0)) (Some 0) /\
   (run heap_AB scenario (vecs_AB, scene_A)).1 0 = vec2.mk 65 70 /\
   (run heap_AB scenario (vecs_AB, scene_A)).1 0
   <> vec2.mk (55 + 20) (55 + 25)) /\
  ((run (fun _ => shape_A)
        [Mouse LEFT_CLICK_DOWN 1; Mouse LEFT_CLICK_DRAG 1;
         Mouse LEFT_CLICK_DRAG 3]
        (vecs_tenths, scene_A)).2
   = Scene.mk [0] (Some (draggable.mk 3 0)) (Some 0) /\
   (run (fun _ => shape_A)
        [Mouse LEFT_CLICK_DOWN 1; Mouse LEFT_CLICK_DRAG 1;
         Mouse LEFT_CLICK_DRAG 2; Mouse LEFT_CLICK_DRAG 3]
        (vecs_tenths, scene_A)).2
   = Scene.mk [0] (Some (draggable.mk 3 0)) (Some 0) /\
   (run (fun _ => shape_A)
        [Mouse LEFT_CLICK_DOWN 1; Mouse LEFT_CLICK_DRAG 1;
         Mouse LEFT_CLICK_DRAG 3]
        (vecs_tenths, scene_A)).1 0
   <> (run (fun _ => shape_A)
           [Mouse LEFT_CLICK_DOWN 1; Mouse LEFT_CLICK_DRAG 1;
            Mouse LEFT_CLICK_DRAG 2; Mouse LEFT_CLICK_DRAG 3]
           (vecs_tenths, scene_A)).1 0).
Proof.
  split.
  - repeat split; try reflexivity.
    intros Heq. apply (f_equal vec2.x) in Heq. revert Heq.
    apply (float_neq (fun f => (f <=? 70)%float)).
    vm_compute. discriminate.
  - repeat split; try reflexivity.
    intros Heq. apply (f_equal vec2.x) in Heq. revert Heq.
    apply (float_neq (fun f => (f <=? 0x1.3333333333333p-1)%float)).
    vm_compute. discriminate.
Qed.

(** C4, as the code has it. With a shape selected:
    - the first drag event only creates the drag record, which keeps the
      [vec2] object of that event, for the selected shape; no [vec2]
      changes;
    - every later drag event replaces the content [c] of the centre object
      of the dragged shape by [c + (new_pos - last_known_pos)], with the
      rounded [+] and [-] of doubles on each coordinate, changes no other
      [vec2] object, and records the object [new_pos];
    - hence, after the anchoring event at [q0], drag events at [qs] leave in
      the centre object what [dragged] computes, step by step, from the old
      centre and the pointers [q0], [qs]: the rounded differences are added
      one after the other, the centre is never set to the pointer, and
      shapes that have another centre object do not move;
    - the same holds counted from the press: the point of the press that
      selected the shape does not enter the result. *)
Theorem drag_is_relative `{Libm} (h : heap) (v : vheap) (s : Scene.t)
    (sel : ref) :
  Scene.selected s = Some sel ->
  (Scene.draggable s = None ->
   forall pos : vref,
     Scene.mouse_action LEFT_CLICK_DRAG pos h v s
     = (Ok None, v,
        Scene.mk (Scene.shapes s) (Some (draggable.mk pos sel)) (Some sel))) /\
  (forall (d : draggable.t) (new_pos : vref),
     Scene.draggable s = Some d ->
     exists v',
       Scene.mouse_action LEFT_CLICK_DRAG new_pos h v s
       = (Ok None, v',
          Scene.mk (Scene.shapes s)
                   (Some (draggable.mk new_pos (draggable.shape d)))
                   (Some sel)) /\
       v' (Shape.pos (h (draggable.shape d)))
       = vec2.mk
           (vec2.x (v (Shape.pos (h (draggable.shape d)))) +
            (vec2.x (v new_pos) - vec2.x (v (draggable.current_pos d))))
           (vec2.y (v (Shape.pos (h (draggable.shape d)))) +
            (vec2.y (v new_pos) - vec2.y (v (draggable.current_pos d)))) /\
       forall q, q <> Shape.pos (h (draggable.shape d)) -> v' q = v q) /\
  (Scene.draggable s = None ->
   forall (q0 : vref) (qs : list vref),
     (Shape.pos (h sel) ∉ q0 :: qs) ->
     exists v',
       run h (map (Mouse LEFT_CLICK_DRAG) (q0 :: qs)) (v, s)
       = (v', Scene.mk (Scene.shapes s)
                       (Some (draggable.mk (List.last qs q0) sel))
                       (Some sel)) /\
       v' (Shape.pos (h sel))
       = dragged (v (Shape.pos (h sel))) (v q0) (map v qs) /\
       forall q, q <> Shape.pos (h sel) -> v' q = v q) /\
  (forall (s0 : Scene.t) (g q0 : vref) (qs : list vref),
     session_consistent s0 ->
     Scene.selected s0 = None ->
     Scene.first_containing h v (v g) (Scene.shapes s0) = Ok (Some sel) ->
     (Shape.pos (h sel) ∉ q0 :: qs) ->
     exists v',
       run h (Mouse LEFT_CLICK_DOWN g ::
              map (Mouse LEFT_CLICK_DRAG) (q0 :: qs)) (v, s0)
       = (v', Scene.mk (Scene.shapes s0)
                       (Some (draggable.mk (List.last qs q0) sel))
                       (Some sel)) /\
       v' (Shape.pos (h sel))
       = dragged (v (Shape.pos (h sel))) (v q0) (map v qs) /\
       forall q, q <> Shape.pos (h sel) -> v' q = v q).
Proof.
  intros Hsel. split; [| split; [| split]].
  - intros Hd pos. unfold Scene.mouse_action. rewrite Hsel, Hd. reflexivity.
  - intros d new_pos Hd. eexists. split; [| split].
    + apply (drag_step_dragging h v s sel d new_pos Hsel Hd).
    + rewrite vheap_alter_eq. reflexivity.
    + intros q Hq. apply vheap_alter_ne. congruence.
  - intros Hd q0 qs Hfresh. apply drags_from_selected; assumption.
  - intros s0 g q0 qs Hinv Hsel0 Hfc Hfresh.
    rewrite run_cons.
    rewrite (press_selects_without_drag_record h v s0 sel g Hinv Hsel0 Hfc).
    exact (drags_from_selected
             h v (Scene.mk (Scene.shapes s0) None (Some sel)) sel q0 qs
             eq_refl eq_refl Hfresh).
Qed.

(** The spec's scenario from the anchoring event on: the drag is anchored at
    (70, 70) and the pointer moves to (80, 85); the centre goes from
    (55, 55) to (65, 70), not to the pointer, and the centre of [shape_B]
    stays. *)
Lemma drag_is_relative_witness :
  Scene.selected scene_A_selected = Some 0 /\
  exists v',
    run heap_AB (map (Mouse LEFT_CLICK_DRAG) [point_70_70; point_80_85])
        (vecs_AB, scene_A_selected)
    = (v', Scene.mk [0; 1] (Some (draggable.mk point_80_85 0)) (Some 0)) /\
    v' 0 = dragged (vec2.mk 55 55) (vec2.mk 70 70) [vec2.mk 80 85] /\
    forall q, q <> 0 -> v' q = vecs_AB q.
Proof.
  split; [reflexivity |].
  refine (proj1 (proj2 (proj2 (drag_is_relative
                                 heap_AB vecs_AB scene_A_selected 0 eq_refl)))
                eq_refl point_70_70 [point_80_85] _).
  unfold point_70_70, point_80_85. cbn.
  intros Hin. apply elem_of_cons in Hin as [Hin | Hin]; [discriminate Hin |].
  apply list_elem_of_singleton in Hin. discriminate Hin.
Defined.

(** ** Removing a shape *)

Lemma remove_first_absent (x : ref) (l : list ref) :
  x ∉ l -> Scene.remove_first x l = None.
Proof.
  induction l as [| y l IH]; intros Hx; simpl.
  - reflexivity.
  - apply not_elem_of_cons in Hx as [Hne Hx].
    destruct (Nat.eqb_spec y x) as [-> | _]; [contradiction |].
    rewrite (IH Hx). reflexivity.
Qed.

Lemma remove_first_present (x : ref) (l1 l2 : list ref) :
  x ∉ l1 -> Scene.remove_first x (l1 ++ x :: l2) = Some (l1 ++ l2).
Proof.
  induction l1 as [| y l1 IH]; intros Hx; simpl.
  - rewrite Nat.eqb_refl. reflexivity.
  - apply not_elem_of_cons in Hx as [Hne Hx].
    destruct (Nat.eqb_spec y x) as [-> | _]; [contradiction |].
    rewrite (IH Hx). reflexivity.
Qed.

Lemma remove_first_NoDup (x : ref) (l l' : list ref) :
  NoDup l -> Scene.remove_first x l = Some l' -> x ∉ l'.
Proof.
  revert l'. induction l as [| y l IH]; intros l' Hnd H; simpl in H.
  - discriminate H.
  - apply NoDup_cons in Hnd as [Hy Hnd].
    destruct (Nat.eqb_spec y x) as [-> | Hne].
    + injection H as <-. exact Hy.
    + destruct (Scene.remove_first x l) as [l'' |] eqn:Hl; [| discriminate H].
      injection H as <-. apply not_elem_of_cons. split.
      * congruence.
      * apply IH; [exact Hnd | reflexivity].
Qed.

(** C2, counterexample. Only [shape_B] is registered; removing [shape_A],
    which is absent, raises [ValueError]: the call does not complete
    normally. *)
Lemma remove_absent_raises :
  (0 ∉ Scene.shapes scene_B_only) /\
  Scene.remove_shape 0 scene_B_only = (Raise ValueError, scene_B_only) /\
  (Scene.remove_shape 0 scene_B_only).1 <> Ok tt.
Proof.
  split; [| split].
  - intros H. apply list_elem_of_singleton in H. discriminate H.
  - reflexivity.
  - discriminate.
Qed.

(** C2, as the code has it. Removing a shape that is not registered raises
    [ValueError] and leaves the scene, hence the registry's sequence and its
    length, as it was.  Removing a registered shape completes normally and
    drops exactly its first entry: the entries before and after it stay, in
    order, and the selection and the drag record are kept. *)
Theorem remove_shape_first_entry_or_error (shape : ref) (s : Scene.t) :
  (shape ∉ Scene.shapes s ->
   Scene.remove_shape shape s = (Raise ValueError, s)) /\
  (forall l1 l2 : list ref,
     Scene.shapes s = l1 ++ shape :: l2 ->
     shape ∉ l1 ->
     Scene.remove_shape shape s
     = (Ok tt, Scene.mk (l1 ++ l2) (Scene.draggable s) (Scene.selected s)) /\
     length (Scene.shapes s) = S (length (l1 ++ l2))).
Proof.
  split.
  - intros Habs. unfold Scene.remove_shape.
    rewrite (remove_first_absent _ _ Habs). reflexivity.
  - intros l1 l2 Hl Hfirst. unfold Scene.remove_shape.
    rewrite Hl, (remove_first_present _ _ _ Hfirst).
    split; [reflexivity |].
    rewrite !length_app. simpl. lia.
Qed.

Lemma remove_shape_first_entry_or_error_witness :
  Scene.remove_shape 0 scene_B_only = (Raise ValueError, scene_B_only) /\
  Scene.remove_shape 0 (Scene.mk [1; 0; 2; 0] None None)
  = (Ok tt, Scene.mk [1; 2; 0] None None).
Proof.
  split.
  - apply (proj1 (remove_shape_first_entry_or_error 0 scene_B_only)).
    intros H. apply list_elem_of_singleton in H. discriminate H.
  - apply (proj2 (remove_shape_first_entry_or_error
                    0 (Scene.mk [1; 0; 2; 0] None None))
                 [1] [2; 0] eq_refl).
    intros H. apply list_elem_of_singleton in H. discriminate H.
Defined.

(** [Session.remove_shape] is [Scene.remove_shape] on the wrapped scene. *)
Lemma session_remove_shape_forwards (shape : ref) (s : Scene.t) :
  Session.remove_shape shape (Session.mk s)
  = ((Scene.remove_shape shape s).1, Session.mk (Scene.remove_shape shape s).2).
Proof.
  unfold Session.remove_shape. simpl.
  destruct (Scene.remove_shape shape s) as [r sc]. reflexivity.
Qed.

Lemma run_remove_while_dragging :
  run heap_AB remove_while_dragging (vecs_AB, Scene.init)
  = (vecs_AB, Scene.mk [] (Some (draggable.mk point_70_70 0)) (Some 0)).
Proof. reflexivity. Qed.

(** C3, counterexample. [shape_A] is registered, selected by a press and
    dragged; removing it then succeeds, and afterwards the selection and the
    drag record still name it although the registry is empty.  The next
    press, where a hit-test would run, clears nothing either. *)
Lemma removed_shape_stays_selected :
  Scene.shapes (run heap_AB remove_while_dragging (vecs_AB, Scene.init)).2
  = [] /\
  Scene.selected (run heap_AB remove_while_dragging (vecs_AB, Scene.init)).2
  = Some 0 /\
  Scene.draggable (run heap_AB remove_while_dragging (vecs_AB, Scene.init)).2
  = Some (draggable.mk point_70_70 0) /\
  ~ (forall r,
       Scene.selected
         (run heap_AB remove_while_dragging (vecs_AB, Scene.init)).2
       = Some r ->
       r ∈ Scene.shapes
             (run heap_AB remove_while_dragging (vecs_AB, Scene.init)).2) /\
  Scene.selected
    (run heap_AB (remove_while_dragging ++ [Mouse LEFT_CLICK_DOWN point_P])
         (vecs_AB, Scene.init)).2
  = Some 0.
Proof.
  rewrite run_app, run_remove_while_dragging.
  cbn [snd Scene.shapes Scene.selected Scene.draggable].
  repeat split.
  intros H. specialize (H 0 eq_refl). inversion H.
Qed.

(** C3, as the code has it. Removing the selected (or dragged) shape changes
    the registry only: the selection and the drag record are kept as they
    were, through [Scene.remove_shape] and through [Session.remove_shape]
    alike.  When the registry holds no shape twice, the selection therefore
    names, after the removal, a shape that is absent from the registry. *)
Theorem remove_shape_keeps_selection (shape : ref) (s : Scene.t) :
  Scene.selected s = Some shape ->
  NoDup (Scene.shapes s) ->
  Scene.selected (Scene.remove_shape shape s).2 = Some shape /\
  Scene.draggable (Scene.remove_shape shape s).2 = Scene.draggable s /\
  (shape ∉ Scene.shapes (Scene.remove_shape shape s).2) /\
  Session.scene (Session.remove_shape shape (Session.mk s)).2
  = (Scene.remove_shape shape s).2.
Proof.
  intros Hsel Hnd.
  rewrite session_remove_shape_forwards. cbn [snd Session.scene].
  unfold Scene.remove_shape.
  destruct (Scene.remove_first shape (Scene.shapes s)) as [l |] eqn:Hrm;
    cbn [snd Scene.selected Scene.draggable Scene.shapes].
  - repeat split; [exact Hsel |].
    exact (remove_first_NoDup shape _ l Hnd Hrm).
  - repeat split; [exact Hsel |].
    intros Hin.
    revert Hrm. clear -Hin. induction (Scene.shapes s) as [| y l IH]; simpl.
    + inversion Hin.
    + destruct (Nat.eqb_spec y shape) as [-> | Hne]; [discriminate |].
      apply elem_of_cons in Hin as [-> | Hin]; [contradiction |].
      destruct (Scene.remove_first shape l); [discriminate |].
      intros _. exact (IH Hin eq_refl).
Qed.

Lemma remove_shape_keeps_selection_witness :
  Scene.selected (Scene.remove_shape 0 scene_A_selected).2 = Some 0 /\
  Scene.draggable (Scene.remove_shape 0 scene_A_selected).2 = None /\
  (0 ∉ Scene.shapes (Scene.remove_shape 0 scene_A_selected).2) /\
  Session.scene (Session.remove_shape 0 (Session.mk scene_A_selected)).2
  = (Scene.remove_shape 0 scene_A_selected).2.
Proof.
  apply (remove_shape_keeps_selection 0 scene_A_selected eq_refl).
  apply NoDup_cons. split.
  - intros H. apply list_elem_of_singleton in H. discriminate H.
  - apply NoDup_singleton.
Defined.

(** ** The toolbar dispatcher *)

Lemma hit_test_from_none (i : nat) (btns : list Button.t) (p : vec2.t) :
  (forall b, b ∈ btns -> Button.hit_test b p = Ok false) ->
  Toolbar.hit_test_from i btns p = Ok None.
Proof.
  revert i. induction btns as [| b btns IH]; intros i Hall; simpl.
  - reflexivity.
  - rewrite (Hall b) by apply list_elem_of_here.
    apply IH. intros b' Hb'. apply Hall. apply list_elem_of_further, Hb'.
Qed.

Lemma hit_test_from_first (btns : list Button.t) (p : vec2.t) :
  forall (i k : nat) (b : Button.t),
    btns !! k = Some b ->
    Button.hit_test b p = Ok true ->
    (forall j b', j < k -> btns !! j = Some b' ->
                  Button.hit_test b' p = Ok false) ->
    Toolbar.hit_test_from i btns p = Ok (Some (i + k)).
Proof.
  induction btns as [| b0 btns IH]; intros i k b Hk Hb Hbefore.
  - discriminate Hk.
  - destruct k as [| k]; simpl in Hk |- *.
    + injection Hk as ->. rewrite Hb. f_equal. f_equal. lia.
    + rewrite (Hbefore 0 b0) by (lia || reflexivity).
      rewrite (IH (S i) k b Hk Hb).
      * f_equal. f_equal. lia.
      * intros j b' Hj Hb'. apply (Hbefore (S j) b'); [lia | exact Hb'].
Qed.

(** With every button placed, the loop never raises: either some first
    button contains the point or none does. *)
Lemma placed_buttons_decide (btns : list Button.t) (p : vec2.t) :
  (forall b, b ∈ btns -> Button.pos b <> None) ->
  (exists k b, btns !! k = Some b /\ Button.hit_test b p = Ok true /\
     forall j b', j < k -> btns !! j = Some b' ->
                  Button.hit_test b' p = Ok false) \/
  (forall b, b ∈ btns -> Button.hit_test b p = Ok false).
Proof.
  induction btns as [| b0 btns IH]; intros Hplaced.
  - right. intros b Hb. inversion Hb.
  - assert (H0 : exists v, Button.hit_test b0 p = Ok v).
    { unfold Button.hit_test.
      destruct (Button.pos b0) eqn:Hp; [eexists; reflexivity |].
      exfalso. apply (Hplaced b0); [apply list_elem_of_here | exact Hp]. }
    destruct H0 as [[|] H0].
    + left. exists 0, b0. split; [reflexivity |]. split; [exact H0 |].
      intros j b' Hj. lia.
    + destruct IH as [(k & b & Hk & Hb & Hbefore) | Hnone].
      * intros b Hb. apply Hplaced. apply list_elem_of_further, Hb.
      * left. exists (S k), b. split; [exact Hk |]. split; [exact Hb |].
        intros [| j] b' Hj Hb'.
        -- simpl in Hb'. injection Hb' as <-. exact H0.
        -- apply (Hbefore j b'); [lia | exact Hb'].
      * right. intros b Hb. apply elem_of_cons in Hb as [-> | Hb].
        -- exact H0.
        -- apply Hnone, Hb.
Qed.

(** The constructor places every button. *)
Lemma toolbar_init_places (pos : vec2.t) (btns : list Button.t) (b : Button.t) :
  b ∈ Toolbar.buttons (Toolbar.init pos btns) -> Button.pos b <> None.
Proof.
  unfold Toolbar.init, Toolbar._create_button_positions. cbn [Toolbar.buttons].
  intros Hb. apply list_elem_of_lookup in Hb as [i Hi].
  rewrite list_lookup_imap in Hi.
  destruct (btns !! i) as [b0 |]; [| discriminate Hi].
  injection Hi as <-. discriminate.
Qed.

(** [click()] on the button at index [k] puts there the same button with its
    [selected] flag negated and leaves the other entries. *)
Lemma alter_click_insert (btns : list Button.t) :
  forall (k : nat) (b : Button.t),
    btns !! k = Some b ->
    alter Button.click k btns
    = <[k := Button.mk (Button.pos b) (Button.size b) (Button.color b)
                       (Button.clicked b) (negb (Button.selected b))]> btns.
Proof.
  induction btns as [| b0 btns IH]; intros k b Hk.
  - discriminate Hk.
  - destruct k as [| k]; simpl in Hk |- *.
    + injection Hk as ->. reflexivity.
    + f_equal. exact (IH k b Hk).
Qed.

(** The store after [pos = vec2(x, y)]: the shapes and the [vec2] objects
    that existed are as before. *)
Lemma alloc_vec2_frame (p : vec2.t) (st : store) :
  objs (alloc_vec2 p st).2 = objs st /\
  next (alloc_vec2 p st).2 = next st /\
  next_vec (alloc_vec2 p st).2 = S (next_vec st) /\
  vecs (alloc_vec2 p st).2 (next_vec st) = p /\
  forall q, q <> next_vec st -> vecs (alloc_vec2 p st).2 q = vecs st q.
Proof.
  unfold alloc_vec2. cbn [snd objs next next_vec vecs].
  repeat split.
  - exact (fn_lookup_insert (vecs st) (next_vec st) p).
  - intros q Hq. apply (fn_lookup_insert_ne (vecs st)). congruence.
Qed.

(** The press on a button, in the terms of the callback. *)
Lemma press_on_button `{Libm} (st : store) (d : DrawArea.t) (x y : float)
    (uid : uuid) (k : nat) (b : Button.t) :
  Toolbar.buttons (DrawArea.toolbar d) !! k = Some b ->
  Button.hit_test b (vec2.mk x y) = Ok true ->
  (forall j b', j < k ->
     Toolbar.buttons (DrawArea.toolbar d) !! j = Some b' ->
     Button.hit_test b' (vec2.mk x y) = Ok false) ->
  DrawArea.mouse_button_callback MOUSE_BUTTON_LEFT PRESS x y uid st d
  = Ok ((alloc_vec2 (vec2.mk x y) st).2,
        DrawArea.mk (DrawArea.width d) (DrawArea.height d)
          (DrawArea.scene d)
          (Toolbar.mk (Toolbar.pos (DrawArea.toolbar d))
             (alter Button.click k (Toolbar.buttons (DrawArea.toolbar d))))).
Proof.
  intros Hk Hb Hbefore.
  unfold DrawArea.mouse_button_callback, Toolbar.hit_test, alloc_vec2.
  cbn [glfw_button_eqb glfw_action_eqb vecs].
  rewrite (fn_lookup_insert (vecs st) (next_vec st) (vec2.mk x y)).
  rewrite (hit_test_from_first _ _ 0 k b Hk Hb Hbefore).
  reflexivity.
Qed.

(** The press that misses every button, in the terms of the callback. *)
Lemma press_off_buttons `{Libm} (st : store) (d : DrawArea.t) (x y : float)
    (uid : uuid) :
  (forall b, b ∈ Toolbar.buttons (DrawArea.toolbar d) ->
             Button.hit_test b (vec2.mk x y) = Ok false) ->
  DrawArea.mouse_button_callback MOUSE_BUTTON_LEFT PRESS x y uid st d
  = match Scene.mouse_action LEFT_CLICK_DOWN (next_vec st) (objs st)
                             (vecs (alloc_vec2 (vec2.mk x y) st).2)
                             (DrawArea.scene d) with
    | (Raise e, _, _) => Raise e
    | (Ok _, v, sc) =>
        Ok (with_vecs v (alloc_vec2 (vec2.mk x y) st).2,
            DrawArea.mk (DrawArea.width d) (DrawArea.height d) sc
                        (DrawArea.toolbar d))
    end.
Proof.
  intros Hnone.
  unfold DrawArea.mouse_button_callback, Toolbar.hit_test, alloc_vec2.
  cbn [glfw_button_eqb glfw_action_eqb vecs objs snd].
  rewrite (fn_lookup_insert (vecs st) (next_vec st) (vec2.mk x y)).
  rewrite (hit_test_from_none 0 _ _ Hnone).
  destruct (Scene.mouse_action LEFT_CLICK_DOWN (next_vec st) (objs st)
              (<[next_vec st := vec2.mk x y]> (vecs st)) (DrawArea.scene d))
    as [[[ret | e] v] sc]; reflexivity.
Qed.

(** C6. A left press is first offered to the toolbar.
    - If some button contains the point, the first such button in toolbar
      order is toggled, that is, its [selected] flag is negated and nothing
      else of it changes, and nothing else happens: the other buttons, the
      scene (registry, selection, drag record), the shapes and the [vec2]
      objects are the ones before the press, whatever shapes lie under the
      pointer; the store only gains the [vec2] built for the pointer.
    - If no button contains the point, the toolbar stays as it is and the
      press is handed to [Scene.mouse_action].
    - With every button placed, one of the two cases applies; the
      constructor of the toolbar places every button. *)
Theorem press_goes_to_toolbar_first `{Libm} (st : store) (d : DrawArea.t)
    (x y : float) (uid : uuid) :
  (forall (k : nat) (b : Button.t),
     Toolbar.buttons (DrawArea.toolbar d) !! k = Some b ->
     Button.hit_test b (vec2.mk x y) = Ok true ->
     (forall j b', j < k ->
        Toolbar.buttons (DrawArea.toolbar d) !! j = Some b' ->
        Button.hit_test b' (vec2.mk x y) = Ok false) ->
     exists btns' : list Button.t,
       DrawArea.mouse_button_callback MOUSE_BUTTON_LEFT PRESS x y uid st d
       = Ok ((alloc_vec2 (vec2.mk x y) st).2,
             DrawArea.mk (DrawArea.width d) (DrawArea.height d)
               (DrawArea.scene d)
               (Toolbar.mk (Toolbar.pos (DrawArea.toolbar d)) btns')) /\
       btns' !! k
       = Some (Button.mk (Button.pos b) (Button.size b) (Button.color b)
                         (Button.clicked b) (negb (Button.selected b))) /\
       (forall j, j <> k ->
          btns' !! j = Toolbar.buttons (DrawArea.toolbar d) !! j) /\
       length btns' = length (Toolbar.buttons (DrawArea.toolbar d)) /\
       objs (alloc_vec2 (vec2.mk x y) st).2 = objs st /\
       (forall q, q <> next_vec st ->
          vecs (alloc_vec2 (vec2.mk x y) st).2 q = vecs st q)) /\
  ((forall b, b ∈ Toolbar.buttons (DrawArea.toolbar d) ->
              Button.hit_test b (vec2.mk x y) = Ok false) ->
   DrawArea.mouse_button_callback MOUSE_BUTTON_LEFT PRESS x y uid st d
   = match Scene.mouse_action LEFT_CLICK_DOWN (next_vec st) (objs st)
                              (vecs (alloc_vec2 (vec2.mk x y) st).2)
                              (DrawArea.scene d) with
     | (Raise e, _, _) => Raise e
     | (Ok _, v, sc) =>
         Ok (with_vecs v (alloc_vec2 (vec2.mk x y) st).2,
             DrawArea.mk (DrawArea.width d) (DrawArea.height d) sc
                         (DrawArea.toolbar d))
     end) /\
  ((forall b, b ∈ Toolbar.buttons (DrawArea.toolbar d) ->
              Button.pos b <> None) ->
   (exists k b,
      Toolbar.buttons (DrawArea.toolbar d) !! k = Some b /\
      Button.hit_test b (vec2.mk x y) = Ok true /\
      forall j b', j < k ->
        Toolbar.buttons (DrawArea.toolbar d) !! j = Some b' ->
        Button.hit_test b' (vec2.mk x y) = Ok false) \/
   (forall b, b ∈ Toolbar.buttons (DrawArea.toolbar d) ->
              Button.hit_test b (vec2.mk x y) = Ok false)) /\
  (forall (pos : vec2.t) (btns : list Button.t) (b : Button.t),
     b ∈ Toolbar.buttons (Toolbar.init pos btns) -> Button.pos b <> None).
Proof.
  split; [| split; [| split]]; [| | | exact toolbar_init_places].
  - intros k b Hk Hb Hbefore.
    exists (alter Button.click k (Toolbar.buttons (DrawArea.toolbar d))).
    split; [exact (press_on_button st d x y uid k b Hk Hb Hbefore) |].
    rewrite (alter_click_insert _ k b Hk).
    split; [| split; [| split; [| split]]].
    + apply list_lookup_insert_eq. apply lookup_lt_Some in Hk. exact Hk.
    + intros j Hj. apply list_lookup_insert_ne. congruence.
    + apply length_insert.
    + apply alloc_vec2_frame.
    + apply alloc_vec2_frame.
  - apply press_off_buttons.
  - apply placed_buttons_decide.
Qed.

Lemma program_toolbar_buttons :
  Toolbar.buttons
    (DrawArea.toolbar (DrawArea.init WIDTH (HEIGHT - UI_TOP_BAR_HEIGHT)))
  = [select_button; delete_button].
Proof. reflexivity. Qed.

Lemma select_button_hit :
  Button.hit_test select_button (vec2.mk 300 10) = Ok true.
Proof. reflexivity. Qed.

(** A press at (300, 10): inside the first button and inside the shape
    registered under it.  The button is toggled, the scene is untouched. *)
Lemma press_goes_to_toolbar_first_witness :
  Shape.contains (vecs store_under_toolbar) (objs store_under_toolbar 0)
                 (vec2.mk 300 10) = Ok true /\
  exists btns' : list Button.t,
    DrawArea.mouse_button_callback MOUSE_BUTTON_LEFT PRESS 300 10 0%Z
      store_under_toolbar draw_area_under_toolbar
    = Ok ((alloc_vec2 (vec2.mk 300 10) store_under_toolbar).2,
          DrawArea.mk WIDTH (HEIGHT - UI_TOP_BAR_HEIGHT)
            (Scene.mk [0] None None)
            (Toolbar.mk (vec2.mk 0 448) btns')) /\
    btns' !! 0
    = Some (Button.mk (Some (vec2.mk 291 6)) 20 (200, 200, 200)%Z
                      false true).
Proof.
  split; [reflexivity |].
  destruct (proj1 (press_goes_to_toolbar_first
                     store_under_toolbar draw_area_under_toolbar
                     300%float 10%float 0%Z)
                  0 select_button eq_refl select_button_hit
                  (fun j b' (Hj : j < 0) _ =>
                     match Nat.nlt_0_r j Hj with end))
    as (btns' & Hcb & Hk & _).
  exists btns'. split; [exact Hcb | exact Hk].
Defined.

(** ** The two hit-tests *)

(** A left press that hits no button and no shape: only the [vec2] built
    for the pointer is new. *)
Lemma press_missing_everything `{Libm} (st : store) (d : DrawArea.t)
    (x y : float) (uid : uuid) :
  (forall b, b ∈ Toolbar.buttons (DrawArea.toolbar d) ->
             Button.hit_test b (vec2.mk x y) = Ok false) ->
  Scene.selected (DrawArea.scene d) = None ->
  (forall r, r ∈ Scene.shapes (DrawArea.scene d) ->
             Shape.contains (vecs (alloc_vec2 (vec2.mk x y) st).2)
                            (objs st r) (vec2.mk x y) = Ok false) ->
  DrawArea.mouse_button_callback MOUSE_BUTTON_LEFT PRESS x y uid st d
  = Ok ((alloc_vec2 (vec2.mk x y) st).2, d).
Proof.
  intros Hbtn Hsel Hshapes.
  rewrite (press_off_buttons st d x y uid Hbtn).
  unfold Scene.mouse_action. rewrite Hsel.
  replace (vecs (alloc_vec2 (vec2.mk x y) st).2 (next_vec st))
    with (vec2.mk x y)
    by (symmetry; apply alloc_vec2_frame).
  rewrite (first_containing_none _ _ _ _ Hshapes).
  destruct d. reflexivity.
Qed.

(** C7, counterexample, on a platform whose [pow] is correctly rounded (the
    powers that decide the first case, [40 ** 2 = 1600],
    [(2^-24) ** 2 = 2^-48] and [1600 ** 0.5 = 40], are exact, so any [pow]
    that errs by less than one unit in the last place computes the same).
    - The shape of radius 40 centred at (55, 55) and the point
      (95, 55 + 2^-24): the code answers [True], although the point is
      farther than 40 from the centre (the square of the small difference
      is lost when it is added to 1600).
    - The same shape and the point (2^664, 0): the code raises
      [OverflowError] and gives no answer.
    - A button at (291, 6) of size 25.999999999999996 and the point
      (317, 10): the code answers [True], although 317 is greater than
      291 + 25.999999999999996 (the sum is rounded to 317). *)
Lemma hit_tests_are_rounded :
  (vecs_AB (Shape.pos shape_A) = vec2.mk 55 55 /\
   Shape.radius shape_A = 40%float /\
   Shape.contains vecs_AB shape_A (vec2.mk 95 0x1.b8000008p+5) = Ok true /\
   euclidean_within (vec2.mk 55 55) (vec2.mk 95 0x1.b8000008p+5) 40
   = Some false) /\
  (Shape.contains vecs_AB shape_A (vec2.mk 0x1p+664 0) = Raise OverflowError /\
   euclidean_within (vec2.mk 55 55) (vec2.mk 0x1p+664 0) 40 = Some false) /\
  (Button.hit_test
     (Button.mk (Some (vec2.mk 291 6)) 0x1.9ffffffffffffp+4
                (200, 200, 200)%Z false false)
     (vec2.mk 317 10) = Ok true /\
   square_within (vec2.mk 291 6) (vec2.mk 317 10) 0x1.9ffffffffffffp+4
   = Some false).
Proof. repeat split; vm_compute; reflexivity. Qed.

(** C7, as the code has it. Both hit-tests compare with [<=], on the
    doubles the code computes.
    - When the three powers of [contains] succeed, with [d] the computed
      distance, the answer is [d <= radius]; so a point whose computed
      distance is the radius is inside.  A shape with finite centre and a
      radius that is not negative contains its centre.  When one of the
      three powers raises, [contains] raises the same exception and answers
      nothing.
    - A point is inside a button exactly when the button has been placed at
      an origin [o] and each coordinate is [>=] that of [o] and [<=] the
      rounded sum of it and [size]; the origin and the computed far corner
      are inside.  On a button that has not been placed the test raises
      [AttributeError].
    - Both are functions of the receiver, the centre and the point alone:
      neither has a store to change.  Accordingly a left press that tests
      every button and every shape and hits none leaves the scene, the
      toolbar, the shapes and the existing [vec2] objects exactly as they
      were. *)
Theorem hit_tests_boundary_inclusive `{Libm} :
  (forall (v : vheap) (s : Shape.t) (p : vec2.t) (a b d : float),
      float_pow (vec2.x p - vec2.x (v (Shape.pos s)))%float exp_two
      = Ok (PyFloat a) ->
      float_pow (vec2.y p - vec2.y (v (Shape.pos s)))%float exp_two
      = Ok (PyFloat b) ->
      float_pow (a + b)%float exp_half = Ok (PyFloat d) ->
      Shape.contains v s p = Ok (d <=? Shape.radius s)%float /\
      ((d =? Shape.radius s)%float = true -> Shape.contains v s p = Ok true)) /\
  (forall (v : vheap) (s : Shape.t),
      is_finite (vec2.x (v (Shape.pos s))) = true ->
      is_finite (vec2.y (v (Shape.pos s))) = true ->
      (0 <=? Shape.radius s)%float = true ->
      Shape.contains v s (v (Shape.pos s)) = Ok true) /\
  (forall (v : vheap) (s : Shape.t) (p : vec2.t) (e : exn),
      float_pow (vec2.x p - vec2.x (v (Shape.pos s)))%float exp_two
      = Raise e \/
      (exists a,
         float_pow (vec2.x p - vec2.x (v (Shape.pos s)))%float exp_two
         = Ok (PyFloat a) /\
         float_pow (vec2.y p - vec2.y (v (Shape.pos s)))%float exp_two
         = Raise e) \/
      (exists a b,
         float_pow (vec2.x p - vec2.x (v (Shape.pos s)))%float exp_two
         = Ok (PyFloat a) /\
         float_pow (vec2.y p - vec2.y (v (Shape.pos s)))%float exp_two
         = Ok (PyFloat b) /\
         float_pow (a + b)%float exp_half = Raise e) ->
      Shape.contains v s p = Raise e) /\
  (forall (b : Button.t) (p : vec2.t),
      Button.hit_test b p = Ok true <->
      exists o : vec2.t,
        Button.pos b = Some o /\
        (vec2.x o <=? vec2.x p)%float = true /\
        (vec2.x p <=? vec2.x o + Button.size b)%float = true /\
        (vec2.y o <=? vec2.y p)%float = true /\
        (vec2.y p <=? vec2.y o + Button.size b)%float = true) /\
  (forall (b : Button.t) (o : vec2.t),
      Button.pos b = Some o ->
      (vec2.x o <=? vec2.x o + Button.size b)%float = true ->
      (vec2.y o <=? vec2.y o + Button.size b)%float = true ->
      Button.hit_test b o = Ok true /\
      Button.hit_test b (vec2.mk (vec2.x o + Button.size b)%float
                                 (vec2.y o + Button.size b)%float)
      = Ok true) /\
  (forall (b : Button.t) (p : vec2.t),
      Button.pos b = None -> Button.hit_test b p = Raise AttributeError) /\
  (forall (st : store) (d : DrawArea.t) (x y : float) (uid : uuid),
      (forall b, b ∈ Toolbar.buttons (DrawArea.toolbar d) ->
                 Button.hit_test b (vec2.mk x y) = Ok false) ->
      Scene.selected (DrawArea.scene d) = None ->
      (forall r, r ∈ Scene.shapes (DrawArea.scene d) ->
                 Shape.contains (vecs (alloc_vec2 (vec2.mk x y) st).2)
                                (objs st r) (vec2.mk x y) = Ok false) ->
      DrawArea.mouse_button_callback MOUSE_BUTTON_LEFT PRESS x y uid st d
      = Ok ((alloc_vec2 (vec2.mk x y) st).2, d) /\
      objs (alloc_vec2 (vec2.mk x y) st).2 = objs st /\
      (forall q, q <> next_vec st ->
         vecs (alloc_vec2 (vec2.mk x y) st).2 q = vecs st q)).
Proof.
  split; [| split; [| split; [| split; [| split; [| split]]]]].
  - intros v s p a b d Ha Hb Hd.
    rewrite (contains_computed v s p a b d Ha Hb Hd).
    split; [reflexivity |].
    rewrite FloatAxioms.eqb_spec, FloatAxioms.leb_spec.
    unfold SFeqb, SFleb.
    destruct (SFcompare (Prim2SF d) (Prim2SF (Shape.radius s)))
      as [[| |] |]; intros Heq; first [reflexivity | discriminate Heq].
  - intros v s Hx Hy Hr.
    exact (contains_centre v s _ eq_refl Hx Hy Hr).
  - intros v s p e [Hx | [(a & Ha & Hy) | (a & b & Ha & Hb & Hd)]].
    + exact (contains_raise_x v s p e Hx).
    + exact (contains_raise_y v s p a e Ha Hy).
    + exact (contains_raise_root v s p a b e Ha Hb Hd).
  - exact button_hit_test_iff.
  - exact button_corners.
  - intros b p Hb. unfold Button.hit_test. rewrite Hb. reflexivity.
  - intros st d x y uid Hbtn Hsel Hshapes.
    split; [exact (press_missing_everything st d x y uid Hbtn Hsel Hshapes) |].
    split; apply alloc_vec2_frame.
Qed.

(** The point (95, 55), at distance 40 from the centre of [shape_A], is
    inside it, and the far corner (311, 26) of the first button is inside
    the button. *)
Lemma hit_tests_boundary_inclusive_witness :
  Shape.contains vecs_AB shape_A (vec2.mk 95 55) = Ok true /\
  Button.hit_test select_button (vec2.mk (291 + 20) (6 + 20)) = Ok true.
Proof.
  split.
  - exact (proj2 (proj1 hit_tests_boundary_inclusive
                        vecs_AB shape_A (vec2.mk 95 55)
                        1600%float 0%float 40%float
                        eq_refl eq_refl eq_refl)
                 eq_refl).
  - exact (proj2 (proj1 (proj2 (proj2 (proj2 (proj2
                   hit_tests_boundary_inclusive))))
                        select_button (vec2.mk 291 6)
                        eq_refl eq_refl eq_refl)).
Defined.

(** ** The toolbar layout *)

Lemma toolbar_init_buttons (pos : vec2.t) (btns : list Button.t) :
  Toolbar.buttons (Toolbar.init pos btns)
  = imap (fun i btn =>
            Button.set_pos
              (vec2.mk (float_of_Z (button_x (Z.of_nat (length btns)) i)) 6)
              btn)
         btns.
Proof. reflexivity. Qed.

Lemma alter_click_keeps_positions (k : nat) (btns : list Button.t) :
  map Button.pos (alter Button.click k btns) = map Button.pos btns.
Proof.
  revert k. induction btns as [| b btns IH]; intros k.
  - reflexivity.
  - destruct k as [| k]; simpl.
    + reflexivity.
    + f_equal. apply IH.
Qed.

(** No event handler moves a button: the positions are those given at
    construction. *)
Lemma mouse_button_callback_keeps_positions `{Libm} (button : glfw_button)
    (action : glfw_action) (x y : float) (uid : uuid) (st st' : store)
    (d d' : DrawArea.t) :
  DrawArea.mouse_button_callback button action x y uid st d = Ok (st', d') ->
  map Button.pos (Toolbar.buttons (DrawArea.toolbar d'))
  = map Button.pos (Toolbar.buttons (DrawArea.toolbar d)).
Proof.
  unfold DrawArea.mouse_button_callback, alloc_vec2.
  destruct button, action; cbn [glfw_button_eqb glfw_action_eqb];
    try (intros HH; injection HH as <- <-; reflexivity).
  destruct (Toolbar.hit_test _ _) as [[k |] | e].
  - cbn beta iota. intros HH; injection HH as <- <-.
    cbn [DrawArea.toolbar Toolbar.click_at Toolbar.buttons].
    apply alter_click_keeps_positions.
  - destruct (Scene.mouse_action _ _ _ _ _) as [[[ret | e] v] sc];
      cbn beta iota; intros HH; [| discriminate HH].
    injection HH as <- <-; reflexivity.
  - intros HH; discriminate HH.
Qed.

Lemma cursor_pos_callback_keeps_toolbar `{Libm} (left : glfw_action)
    (xpos ypos : float) (st st' : store) (d d' : DrawArea.t) :
  DrawArea.cursor_pos_callback left xpos ypos st d = Ok (st', d') ->
  DrawArea.toolbar d' = DrawArea.toolbar d.
Proof.
  unfold DrawArea.cursor_pos_callback, alloc_vec2.
  destruct (glfw_action_eqb left PRESS).
  - destruct (Scene.mouse_action _ _ _ _ _) as [[[ret | e] v] sc];
      intros HH; [| discriminate HH].
    injection HH as <- <-; reflexivity.
  - intros HH; injection HH as <- <-; reflexivity.
Qed.

(** C8. What the constructor computes, for a toolbar of at least one button:
    the [i]-th button is put at [(button_x n i, 6)], so the buttons follow
    each other from left to right with exactly [BUTTON_MARGIN] between
    neighbours, and no later call of an event handler moves a button; but
    the free space right of the row exceeds the free space left of it by two
    margins, so the row is not centred in [WIDTH].  For the two buttons of
    the program the row spans 291 to 337 and leaves 291 on the left and 303
    on the right. *)
Theorem toolbar_row_is_off_centre `{Libm} (pos : vec2.t) (b : Button.t)
    (btns : list Button.t) :
  Toolbar.buttons (Toolbar.init pos (b :: btns))
  = imap (fun i btn =>
            Button.set_pos
              (vec2.mk
                 (float_of_Z (button_x (Z.of_nat (S (length btns))) i)) 6)
              btn)
         (b :: btns) /\
  (forall i : nat,
     button_x (Z.of_nat (S (length btns))) (S i)
     - (button_x (Z.of_nat (S (length btns))) i + BUTTON_SIZE)
     = BUTTON_MARGIN)%Z /\
  (forall (button : glfw_button) (action : glfw_action) (x y : float)
          (uid : uuid) (st : store) (d : DrawArea.t),
     match DrawArea.mouse_button_callback button action x y uid st d with
     | Ok (_, d') =>
         map Button.pos (Toolbar.buttons (DrawArea.toolbar d'))
         = map Button.pos (Toolbar.buttons (DrawArea.toolbar d))
     | Raise _ => True
     end) /\
  (forall (left : glfw_action) (xpos ypos : float) (st : store)
          (d : DrawArea.t),
     match DrawArea.cursor_pos_callback left xpos ypos st d with
     | Ok (_, d') => DrawArea.toolbar d' = DrawArea.toolbar d
     | Raise _ => True
     end) /\
  (right_gap (S (length btns)) - left_gap (S (length btns))
   = 2 * BUTTON_MARGIN)%Z /\
  Toolbar.buttons
    (DrawArea.toolbar (DrawArea.init WIDTH (HEIGHT - UI_TOP_BAR_HEIGHT)))
  = [select_button; delete_button] /\
  left_gap 2 = 291%Z /\
  right_gap 2 = 303%Z.
Proof.
  split; [apply toolbar_init_buttons |].
  split.
  { intros i. unfold button_x, BUTTON_SIZE, BUTTON_MARGIN. lia. }
  split.
  { intros button action x y uid st d.
    destruct (DrawArea.mouse_button_callback button action x y uid st d)
      as [[st' d'] | e] eqn:Hcb; [| exact I].
    exact (mouse_button_callback_keeps_positions _ _ _ _ _ _ _ _ _ Hcb). }
  split.
  { intros left xpos ypos st d.
    destruct (DrawArea.cursor_pos_callback left xpos ypos st d)
      as [[st' d'] | e] eqn:Hcb; [| exact I].
    exact (cursor_pos_callback_keeps_toolbar _ _ _ _ _ _ _ Hcb). }
  split.
  { unfold right_gap, left_gap, button_x, start_x, WIDTH, BUTTON_SIZE,
      BUTTON_MARGIN.
    replace (S (length btns) - 1) with (length btns) by lia.
    Z.div_mod_to_equations. lia. }
  repeat split.
Qed.

(** ** The scenario of the spec *)

(** The program starts with one registered shape, the circle of radius 40
    around a new [vec2(55, 55)], and nothing selected. *)
Example program_start_scene :
  let w := program_start 1%Z store_empty in
  objs w.1 0 = shape_A /\
  vecs w.1 (Shape.pos (objs w.1 0)) = vec2.mk 55 55 /\
  next w.1 = 1 /\
  next_vec w.1 = 1 /\
  DrawArea.scene (Wmain.draw_area w.2) = scene_A.
Proof. repeat split. Qed.

(** Press at (60, 60) selects the shape; the drag to (70, 70) only anchors;
    the drag to (80, 85) moves the centre from (55, 55) to (65, 70); the
    release returns to [Idle] and leaves the shape where it is. *)
Example scenario_runs :
  (run heap_AB [Mouse LEFT_CLICK_DOWN point_60_60] (vecs_AB, scene_A)).2
  = Scene.mk [0] None (Some 0) /\
  (run heap_AB [Mouse LEFT_CLICK_DOWN point_60_60;
                Mouse LEFT_CLICK_DRAG point_70_70] (vecs_AB, scene_A)).2
  = Scene.mk [0] (Some (draggable.mk point_70_70 0)) (Some 0) /\
  (run heap_AB [Mouse LEFT_CLICK_DOWN point_60_60;
                Mouse LEFT_CLICK_DRAG point_70_70] (vecs_AB, scene_A)).1 0
  = vec2.mk 55 55 /\
  (run heap_AB scenario (vecs_AB, scene_A)).2
  = Scene.mk [0] (Some (draggable.mk point_80_85 0)) (Some 0) /\
  (run heap_AB scenario (vecs_AB, scene_A)).1 0 = vec2.mk 65 70 /\
  phase_of (run heap_AB scenario (vecs_AB, scene_A)).2 = Dragging /\
  (run heap_AB (scenario ++ [Mouse LEFT_CLICK_UP point_80_85])
       (vecs_AB, scene_A)).2
  = Scene.mk [0] None None /\
  (run heap_AB (scenario ++ [Mouse LEFT_CLICK_UP point_80_85])
       (vecs_AB, scene_A)).1 0
  = vec2.mk 65 70.
Proof. repeat split. Qed.

(** * Further properties of the code *)

(** ** What a mouse action leaves alone *)

(** X1. A mouse action never changes the registry.  The only [vec2] object
    it can change is the centre object of the shape named by the drag
    record, and only on a drag event with a selection; so a shape moves
    only if its centre is that very object (the dragged shape, and any
    shape built on the same [vec2]).  The selection changes on press and
    release only, the drag record on drag and release only, and a call that
    raises changes nothing. *)
Theorem mouse_action_frame `{Libm} (a : MOUSE_ACTION) (pos : vref)
    (h : heap) (v : vheap) (s : Scene.t) :
  Scene.shapes (Scene.mouse_action a pos h v s).2 = Scene.shapes s /\
  (forall q : vref,
     (Scene.mouse_action a pos h v s).1.2 q <> v q ->
     a = LEFT_CLICK_DRAG /\
     Scene.selected s <> None /\
     exists d, Scene.draggable s = Some d /\
               q = Shape.pos (h (draggable.shape d))) /\
  (forall r : ref,
     (Scene.mouse_action a pos h v s).1.2 (Shape.pos (h r))
     <> v (Shape.pos (h r)) ->
     exists d, Scene.draggable s = Some d /\
               Shape.pos (h r) = Shape.pos (h (draggable.shape d))) /\
  (Scene.selected (Scene.mouse_action a pos h v s).2 <> Scene.selected s ->
   a = LEFT_CLICK_DOWN \/ a = LEFT_CLICK_UP) /\
  (Scene.draggable (Scene.mouse_action a pos h v s).2 <> Scene.draggable s ->
   a = LEFT_CLICK_DRAG \/ a = LEFT_CLICK_UP) /\
  (forall e : exn,
     (Scene.mouse_action a pos h v s).1.1 = Raise e ->
     Scene.mouse_action a pos h v s = (Raise e, v, s)).
Proof.
  assert (Hvec : forall q : vref,
             (Scene.mouse_action a pos h v s).1.2 q <> v q ->
             a = LEFT_CLICK_DRAG /\
             Scene.selected s <> None /\
             exists d, Scene.draggable s = Some d /\
                       q = Shape.pos (h (draggable.shape d))).
  { unfold Scene.mouse_action. destruct a.
    - destruct (Scene.selected s) as [sel |];
        [| destruct (Scene.first_containing h v (v pos) (Scene.shapes s))
             as [[r |] | e]];
        cbn [fst snd]; intros q Hq; contradiction.
    - destruct (Scene.selected s) as [sel |] eqn:Hsel;
        [destruct (Scene.draggable s) as [d |] eqn:Hd |];
        cbn [fst snd draggable.work draggable.shape draggable.current_pos];
        intros q Hq; try contradiction.
      split; [reflexivity |]. split; [discriminate |].
      exists d. split; [reflexivity |].
      destruct (decide (Shape.pos (h (draggable.shape d)) = q))
        as [Heq | Hne]; [symmetry; exact Heq |].
      exfalso. apply Hq. unfold Shape.translate.
      apply vheap_alter_ne. exact Hne.
    - cbn [fst snd]. intros q Hq. contradiction.
    - cbn [fst snd]. intros q Hq. contradiction. }
  split; [| split; [exact Hvec | split]].
  - unfold Scene.mouse_action. destruct a; try reflexivity.
    + destruct (Scene.selected s); [reflexivity |].
      destruct (Scene.first_containing h v (v pos) (Scene.shapes s))
        as [[r |] | e]; reflexivity.
    + destruct (Scene.selected s); [| reflexivity].
      destruct (Scene.draggable s); reflexivity.
  - intros r Hr. destruct (Hvec _ Hr) as (_ & _ & d & Hd & Heq).
    exists d. split; assumption.
  - unfold Scene.mouse_action. destruct a.
    + destruct (Scene.selected s) as [sel |];
        [| destruct (Scene.first_containing h v (v pos) (Scene.shapes s))
             as [[r |] | e]];
        cbn [fst snd Scene.selected Scene.draggable];
        repeat split; intros; solve [congruence | auto].
    + destruct (Scene.selected s) as [sel |] eqn:Hsel;
        [destruct (Scene.draggable s) as [d |] eqn:Hd |];
        cbn [fst snd draggable.work Scene.selected Scene.draggable];
        repeat split; intros; solve [congruence | auto].
    + cbn [fst snd Scene.selected Scene.draggable].
      repeat split; intros; solve [congruence | auto].
    + cbn [fst snd].
      repeat split; intros; solve [congruence | auto].
Qed.

Lemma step_keeps_selection `{Libm} (h : heap) (e : event)
    (st : vheap * Scene.t) (sel : ref) :
  Scene.selected st.2 = Some sel ->
  not_release e ->
  Scene.selected (step h e st).2 = Some sel.
Proof.
  intros Hsel Hnr. destruct e as [a p | r | r]; unfold step.
  - destruct a; cbn in Hnr; try contradiction;
      unfold Scene.mouse_action; try rewrite Hsel.
    + exact Hsel.
    + destruct (Scene.draggable st.2); reflexivity.
    + exact Hsel.
  - exact Hsel.
  - unfold Scene.remove_shape.
    destruct (Scene.remove_first r (Scene.shapes st.2)); exact Hsel.
Qed.

(** X2. Once a shape is selected it stays selected through every sequence
    of presses, drags, registrations and removals, until a release arrives:
    no press can move the selection to another shape, and removing the
    selected shape does not deselect it. *)
Theorem selection_lasts_until_release `{Libm} (es : list event) (h : heap)
    (v : vheap) (s : Scene.t) (sel : ref) :
  Scene.selected s = Some sel ->
  Forall not_release es ->
  Scene.selected (run h es (v, s)).2 = Some sel.
Proof.
  intros Hsel Hes.
  assert (Hgen : forall st : vheap * Scene.t,
             Scene.selected st.2 = Some sel ->
             Scene.selected (run h es st).2 = Some sel).
  { induction Hes as [| e es He Hes IH]; intros st Hst.
    - exact Hst.
    - rewrite run_cons. apply IH. apply step_keeps_selection; assumption. }
  apply Hgen. exact Hsel.
Qed.

(** [shape_A] stays selected while [shape_B] is pressed, the pointer is
    dragged, and [shape_A] itself is removed. *)
Lemma selection_lasts_until_release_witness :
  Scene.selected
    (run heap_AB
         [Mouse LEFT_CLICK_DOWN point_in_B;
          Mouse LEFT_CLICK_DRAG point_70_70;
          RemoveShape 0;
          Mouse LEFT_CLICK_DOWN point_in_B]
         (vecs_AB, scene_A_selected)).2
  = Some 0.
Proof.
  apply (selection_lasts_until_release
           _ heap_AB vecs_AB scene_A_selected 0 eq_refl).
  repeat constructor.
Defined.

(** ** The value a mouse action returns *)

(** X3. [mouse_action] returns [True] exactly for a press, without prior
    selection, on a point that some registered shape contains, the shapes
    before it not containing it; it returns [False] exactly for a drag
    without selection; it raises exactly for a press, without prior
    selection, in which the test of some registered shape raises, the
    shapes before it not containing the point; in every other case, among
    them a press that hits no shape, it returns [None]. *)
Theorem mouse_action_return_value `{Libm} (a : MOUSE_ACTION) (pos : vref)
    (h : heap) (v : vheap) (s : Scene.t) :
  ((Scene.mouse_action a pos h v s).1.1 = Ok (Some true) <->
   a = LEFT_CLICK_DOWN /\ Scene.selected s = None /\
   exists l1 r l2,
     Scene.shapes s = l1 ++ r :: l2 /\
     Shape.contains v (h r) (v pos) = Ok true /\
     forall r', r' ∈ l1 -> Shape.contains v (h r') (v pos) = Ok false) /\
  ((Scene.mouse_action a pos h v s).1.1 = Ok (Some false) <->
   a = LEFT_CLICK_DRAG /\ Scene.selected s = None) /\
  (forall e : exn,
     (Scene.mouse_action a pos h v s).1.1 = Raise e <->
     a = LEFT_CLICK_DOWN /\ Scene.selected s = None /\
     exists l1 r l2,
       Scene.shapes s = l1 ++ r :: l2 /\
       Shape.contains v (h r) (v pos) = Raise e /\
       forall r', r' ∈ l1 -> Shape.contains v (h r') (v pos) = Ok false) /\
  (a = LEFT_CLICK_DOWN ->
   (forall r, r ∈ Scene.shapes s ->
              Shape.contains v (h r) (v pos) = Ok false) ->
   (Scene.mouse_action a pos h v s).1.1 = Ok None).
Proof.
  unfold Scene.mouse_action. destruct a.
  - destruct (Scene.selected s) as [sel |] eqn:Hsel.
    + cbn [fst]. repeat split; try (intros; discriminate).
      * intros (_ & HH & _). discriminate HH.
      * intros (HH & _). discriminate HH.
      * intros (_ & HH & _). discriminate HH.
    + destruct (Scene.first_containing h v (v pos) (Scene.shapes s))
        as [[r |] | e0] eqn:Hfc; cbn [fst].
      * destruct (first_containing_Some h v _ _ r Hfc)
          as (l1 & l2 & Hl & Hr & Hbefore).
        split; [| split; [| split]].
        -- split; [| reflexivity]. intros _. repeat split.
           exists l1, r, l2. repeat split; assumption.
        -- split; [discriminate |]. intros (HH & _). discriminate HH.
        -- intros e. split; [discriminate |].
           intros (_ & _ & l1' & r' & l2' & Hl' & Hr' & Hbefore').
           rewrite Hl' in Hfc.
           rewrite (first_containing_raise h v _ l1' l2' r' e Hbefore' Hr')
             in Hfc.
           discriminate Hfc.
        -- intros _ Hnone.
           rewrite (first_containing_none h v _ _ Hnone) in Hfc.
           discriminate Hfc.
      * pose proof (first_containing_None_inv h v _ _ Hfc) as Hall.
        split; [| split; [| split]].
        -- split; [discriminate |].
           intros (_ & _ & l1 & r & l2 & Hl & Hr & _).
           rewrite (Hall r) in Hr; [discriminate Hr |].
           rewrite Hl. apply elem_of_app. right. apply list_elem_of_here.
        -- split; [discriminate |]. intros (HH & _). discriminate HH.
        -- intros e. split; [discriminate |].
           intros (_ & _ & l1 & r & l2 & Hl & Hr & _).
           rewrite (Hall r) in Hr; [discriminate Hr |].
           rewrite Hl. apply elem_of_app. right. apply list_elem_of_here.
        -- reflexivity.
      * destruct (first_containing_Raise_inv h v _ _ e0 Hfc)
          as (l1 & l2 & r & Hl & Hr & Hbefore).
        split; [| split; [| split]].
        -- split; [discriminate |].
           intros (_ & _ & l1' & r' & l2' & Hl' & Hr' & Hbefore').
           rewrite Hl' in Hfc.
           rewrite (first_containing_first h v _ l1' l2' r' Hbefore' Hr')
             in Hfc.
           discriminate Hfc.
        -- split; [discriminate |]. intros (HH & _). discriminate HH.
        -- intros e. split.
           ++ intros HH. injection HH as <-. repeat split.
              exists l1, r, l2. repeat split; assumption.
           ++ intros (_ & _ & l1' & r' & l2' & Hl' & Hr' & Hbefore').
              rewrite Hl' in Hfc.
              rewrite (first_containing_raise h v _ l1' l2' r' e Hbefore' Hr')
                in Hfc.
              injection Hfc as ->. reflexivity.
        -- intros _ Hnone.
           rewrite (first_containing_none h v _ _ Hnone) in Hfc.
           discriminate Hfc.
  - destruct (Scene.selected s) as [sel |] eqn:Hsel.
    + destruct (Scene.draggable s); cbn [fst draggable.work];
        (split; [| split; [| split]]);
        try (split; [discriminate |]; intros (HH & HH'); discriminate);
        try (split; [discriminate |]; intros (HH & HH' & _); discriminate);
        try (intros e; split; [discriminate |];
             intros (HH & _); discriminate);
        intros HH; discriminate HH.
    + cbn [fst]. split; [| split; [| split]].
      * split; [discriminate |]. intros (HH & _). discriminate HH.
      * split; [| reflexivity]. intros _. split; reflexivity.
      * intros e. split; [discriminate |]. intros (HH & _). discriminate HH.
      * intros HH. discriminate HH.
  - cbn [fst]. split; [| split; [| split]].
    + split; [discriminate |]. intros (HH & _). discriminate HH.
    + split; [discriminate |]. intros (HH & _). discriminate HH.
    + intros e. split; [discriminate |]. intros (HH & _). discriminate HH.
    + intros HH. discriminate HH.
  - cbn [fst]. split; [| split; [| split]].
    + split; [discriminate |]. intros (HH & _). discriminate HH.
    + split; [discriminate |]. intros (HH & _). discriminate HH.
    + intros e. split; [discriminate |]. intros (HH & _). discriminate HH.
    + intros HH. discriminate HH.
Qed.

(** ** Registering and removing *)

Lemma remove_first_Some_inv (x : ref) (l l' : list ref) :
  Scene.remove_first x l = Some l' ->
  exists l1 l2, l = l1 ++ x :: l2 /\ (x ∉ l1) /\ l' = l1 ++ l2.
Proof.
  revert l'. induction l as [| y l IH]; simpl; intros l' H.
  - discriminate H.
  - destruct (Nat.eqb_spec y x) as [-> | Hne].
    + injection H as <-. exists [], l. repeat split. apply not_elem_of_nil.
    + destruct (Scene.remove_first x l) as [l'' |]; [| discriminate H].
      injection H as <-.
      destruct (IH l'' eq_refl) as (l1 & l2 & -> & Hx & ->).
      exists (y :: l1), l2. repeat split.
      apply not_elem_of_cons. split; [congruence | exact Hx].
Qed.

(** X4. Registering a shape and removing it again gives back the scene as it
    was when the shape was not registered before.  When it was registered
    already, the removal succeeds too but takes out the older entry: the
    shape ends up last in the registry. *)
Theorem add_then_remove_shape (shape : ref) (s : Scene.t) :
  (shape ∉ Scene.shapes s ->
   Scene.remove_shape shape (Scene.add_shape shape s) = (Ok tt, s)) /\
  (forall l1 l2 : list ref,
     Scene.shapes s = l1 ++ shape :: l2 ->
     shape ∉ l1 ->
     Scene.remove_shape shape (Scene.add_shape shape s)
     = (Ok tt,
        Scene.mk (l1 ++ l2 ++ [shape]) (Scene.draggable s)
                 (Scene.selected s))).
Proof.
  split.
  - intros Hnew. unfold Scene.remove_shape, Scene.add_shape.
    cbn [Scene.shapes Scene.draggable Scene.selected].
    rewrite (remove_first_present shape (Scene.shapes s) [] Hnew).
    rewrite app_nil_r. destruct s. reflexivity.
  - intros l1 l2 Hl Hfirst. unfold Scene.remove_shape, Scene.add_shape.
    cbn [Scene.shapes Scene.draggable Scene.selected].
    rewrite Hl, <- app_assoc. cbn [app].
    rewrite (remove_first_present shape l1 (l2 ++ [shape]) Hfirst).
    reflexivity.
Qed.

Lemma add_then_remove_shape_witness :
  Scene.remove_shape 0 (Scene.add_shape 0 scene_B_only) = (Ok tt, scene_B_only) /\
  Scene.remove_shape 0 (Scene.add_shape 0 scene_AB)
  = (Ok tt, Scene.mk [1; 0] None None).
Proof.
  split.
  - apply (proj1 (add_then_remove_shape 0 scene_B_only)).
    intros H. apply list_elem_of_singleton in H. discriminate H.
  - apply (proj2 (add_then_remove_shape 0 scene_AB) [] [1] eq_refl).
    apply not_elem_of_nil.
Defined.

(** X5. A removal that succeeds leaves every other shape registered, in the
    same order and as often as before, shortens the registry by one, keeps
    the selection and the drag record, and keeps a registry without
    repetitions free of them. *)
Theorem remove_shape_keeps_the_others (shape : ref) (s s' : Scene.t) :
  Scene.remove_shape shape s = (Ok tt, s') ->
  shape ∈ Scene.shapes s /\
  Scene.shapes s' `sublist_of` Scene.shapes s /\
  length (Scene.shapes s) = S (length (Scene.shapes s')) /\
  (forall r, r <> shape ->
             filter (fun y => y = r) (Scene.shapes s')
             = filter (fun y => y = r) (Scene.shapes s)) /\
  (NoDup (Scene.shapes s) -> NoDup (Scene.shapes s')) /\
  Scene.selected s' = Scene.selected s /\
  Scene.draggable s' = Scene.draggable s.
Proof.
  unfold Scene.remove_shape.
  destruct (Scene.remove_first shape (Scene.shapes s)) as [l |] eqn:Hrm;
    [| intros H; discriminate H].
  intros H. injection H as <-.
  cbn [Scene.shapes Scene.selected Scene.draggable].
  destruct (remove_first_Some_inv _ _ _ Hrm) as (l1 & l2 & Hl & Hx & ->).
  rewrite Hl.
  assert (Hsub : l1 ++ l2 `sublist_of` l1 ++ shape :: l2).
  { apply sublist_app; [reflexivity |]. apply sublist_cons. reflexivity. }
  split; [apply elem_of_app; right; apply list_elem_of_here |].
  split; [exact Hsub |].
  split; [rewrite !length_app; simpl; lia |].
  split.
  { intros r Hr. rewrite !filter_app, filter_cons.
    destruct (decide (shape = r)) as [Heq | _]; [congruence | reflexivity]. }
  split; [intros Hnd; eapply sublist_NoDup; eassumption |].
  split; reflexivity.
Qed.

Lemma remove_shape_keeps_the_others_witness :
  Scene.shapes (Scene.mk [1; 2; 0] None (Some 0)) `sublist_of` [1; 0; 2; 0] /\
  length [1; 0; 2; 0] = S (length [1; 2; 0]).
Proof.
  pose proof (remove_shape_keeps_the_others
                0 (Scene.mk [1; 0; 2; 0] None (Some 0))
                (Scene.mk [1; 2; 0] None (Some 0)) eq_refl)
    as (_ & Hsub & Hlen & _).
  exact (conj Hsub Hlen).
Defined.

(** ** The toolbar's hit-test *)

Lemma button_hit_test_false_or_true (b : Button.t) (p : vec2.t) :
  Button.pos b <> None -> exists v, Button.hit_test b p = Ok v.
Proof.
  intros Hp. unfold Button.hit_test.
  destruct (Button.pos b); [eexists; reflexivity | contradiction].
Qed.

Lemma button_hit_test_raise (b : Button.t) (p : vec2.t) (e : exn) :
  Button.hit_test b p = Raise e <-> Button.pos b = None /\ e = AttributeError.
Proof.
  unfold Button.hit_test. destruct (Button.pos b); split.
  - intros H. discriminate H.
  - intros [H _]. discriminate H.
  - intros H. injection H as <-. split; reflexivity.
  - intros [_ ->]. reflexivity.
Qed.

Lemma hit_test_from_raise (btns : list Button.t) (p : vec2.t) :
  forall (i k : nat) (b : Button.t),
    btns !! k = Some b ->
    Button.pos b = None ->
    (forall j b', j < k -> btns !! j = Some b' ->
                  Button.hit_test b' p = Ok false) ->
    Toolbar.hit_test_from i btns p = Raise AttributeError.
Proof.
  induction btns as [| b0 btns IH]; intros i k b Hk Hb Hbefore.
  - discriminate Hk.
  - destruct k as [| k]; simpl in Hk |- *.
    + injection Hk as ->.
      rewrite (proj2 (button_hit_test_raise b p AttributeError)
                     (conj Hb eq_refl)).
      reflexivity.
    + rewrite (Hbefore 0 b0) by (lia || reflexivity).
      apply (IH (S i) k b Hk Hb).
      intros j b' Hj Hb'. apply (Hbefore (S j) b'); [lia | exact Hb'].
Qed.

(** The three ways the loop can end, each with the index reached. *)
Lemma hit_test_from_cases (btns : list Button.t) (p : vec2.t) (i : nat) :
  (exists k b,
     btns !! k = Some b /\ Button.hit_test b p = Ok true /\
     (forall j b', j < k -> btns !! j = Some b' ->
                   Button.hit_test b' p = Ok false) /\
     Toolbar.hit_test_from i btns p = Ok (Some (i + k))) \/
  ((forall b, b ∈ btns -> Button.hit_test b p = Ok false) /\
   Toolbar.hit_test_from i btns p = Ok None) \/
  (exists k b,
     btns !! k = Some b /\ Button.pos b = None /\
     (forall j b', j < k -> btns !! j = Some b' ->
                   Button.hit_test b' p = Ok false) /\
     Toolbar.hit_test_from i btns p = Raise AttributeError).
Proof.
  revert i. induction btns as [| b0 btns IH]; intros i.
  - right. left. split; [| reflexivity]. intros b Hb. inversion Hb.
  - destruct (Button.hit_test b0 p) as [[|] | e] eqn:H0.
    + left. exists 0, b0. split; [reflexivity |]. split; [exact H0 |].
      split; [intros j b' Hj; lia |].
      simpl. rewrite H0. f_equal. f_equal. lia.
    + destruct (IH (S i))
        as [(k & b & Hk & Hb & Hbefore & Hres)
           | [[Hnone Hres] | (k & b & Hk & Hb & Hbefore & Hres)]].
      * left. exists (S k), b. split; [exact Hk |]. split; [exact Hb |].
        split.
        -- intros [| j] b' Hj Hb'.
           ++ simpl in Hb'. injection Hb' as <-. exact H0.
           ++ apply (Hbefore j b'); [lia | exact Hb'].
        -- simpl. rewrite H0, Hres. f_equal. f_equal. lia.
      * right. left. split.
        -- intros b Hb. apply elem_of_cons in Hb as [-> | Hb];
             [exact H0 | exact (Hnone b Hb)].
        -- simpl. rewrite H0. exact Hres.
      * right. right. exists (S k), b.
        split; [exact Hk |]. split; [exact Hb |]. split.
        -- intros [| j] b' Hj Hb'.
           ++ simpl in Hb'. injection Hb' as <-. exact H0.
           ++ apply (Hbefore j b'); [lia | exact Hb'].
        -- simpl. rewrite H0. exact Hres.
    + apply button_hit_test_raise in H0 as [Hpos ->].
      right. right. exists 0, b0.
      split; [reflexivity |]. split; [exact Hpos |].
      split; [intros j b' Hj; lia |].
      simpl.
      rewrite (proj2 (button_hit_test_raise b0 p AttributeError)
                     (conj Hpos eq_refl)).
      reflexivity.
Qed.

(** X8. The outcome of [Toolbar.hit_test], completely.  It returns the
    button at index [k] exactly when that button contains the point and
    every earlier button is placed and does not; it returns [None] exactly
    when every button is placed and none contains the point; it raises
    exactly when an unplaced button is reached before any hit, and then the
    exception is the [AttributeError] of [None.x].  Buttons after the first
    hit are never looked at. *)
Theorem toolbar_hit_test_outcome (tb : Toolbar.t) (p : vec2.t) :
  (forall k : nat,
     Toolbar.hit_test tb p = Ok (Some k) <->
     exists b, Toolbar.buttons tb !! k = Some b /\
               Button.hit_test b p = Ok true /\
               forall j b', j < k -> Toolbar.buttons tb !! j = Some b' ->
                            Button.hit_test b' p = Ok false) /\
  (Toolbar.hit_test tb p = Ok None <->
   forall b, b ∈ Toolbar.buttons tb -> Button.hit_test b p = Ok false) /\
  (forall e : exn,
     Toolbar.hit_test tb p = Raise e <->
     e = AttributeError /\
     exists k b, Toolbar.buttons tb !! k = Some b /\
                 Button.pos b = None /\
                 forall j b', j < k -> Toolbar.buttons tb !! j = Some b' ->
                              Button.hit_test b' p = Ok false).
Proof.
  unfold Toolbar.hit_test.
  pose proof (hit_test_from_cases (Toolbar.buttons tb) p 0) as Hcases.
  split; [| split].
  - intros k. split.
    + intros Hres.
      destruct Hcases as [(k' & b & Hk & Hb & Hbefore & Hres')
                         | [[_ Hres'] | (k' & b & _ & _ & _ & Hres')]];
        rewrite Hres in Hres'; try discriminate Hres'.
      injection Hres' as Heq. cbn in Heq. subst k.
      exists b. repeat split; assumption.
    + intros (b & Hk & Hb & Hbefore).
      exact (hit_test_from_first _ p 0 k b Hk Hb Hbefore).
  - split.
    + intros Hres.
      destruct Hcases as [(k' & b' & _ & _ & _ & Hres')
                         | [[Hnone _] | (k' & b' & _ & _ & _ & Hres')]];
        try (rewrite Hres in Hres'; discriminate Hres').
      exact Hnone.
    + apply hit_test_from_none.
  - intros e. split.
    + intros Hres.
      destruct Hcases as [(k' & b' & _ & _ & _ & Hres')
                         | [[_ Hres'] | (k & b & Hk & Hb & Hbefore & Hres')]];
        rewrite Hres in Hres'; try discriminate Hres'.
      injection Hres' as Heq. subst e. split; [reflexivity |].
      exists k, b. repeat split; assumption.
    + intros (-> & k & b & Hk & Hb & Hbefore).
      exact (hit_test_from_raise _ p 0 k b Hk Hb Hbefore).
Qed.

(** ** The toolbar row *)

(** The button the constructor leaves at index [i]. *)
Lemma toolbar_init_lookup (pos : vec2.t) (btns : list Button.t) (i : nat)
    (b : Button.t) :
  Toolbar.buttons (Toolbar.init pos btns) !! i = Some b ->
  exists b0,
    btns !! i = Some b0 /\
    b = Button.set_pos
          (vec2.mk (float_of_Z (button_x (Z.of_nat (length btns)) i)) 6) b0.
Proof.
  rewrite toolbar_init_buttons, list_lookup_imap.
  destruct (btns !! i) as [b0 |]; [| intros H; discriminate H].
  intros H. injection H as <-. exists b0. split; reflexivity.
Qed.

(** X10. The row and the window.  With at most 24 buttons every button the
    constructor places lies within the width of the window, on the line
    [y = 6]; from 25 buttons on the first button starts left of the window:
    the constructor neither wraps nor rejects a row that does not fit. *)
Theorem toolbar_row_and_window (pos : vec2.t) (btns : list Button.t) :
  (length btns <= 24 ->
   forall (i : nat) (b : Button.t),
     Toolbar.buttons (Toolbar.init pos btns) !! i = Some b ->
     exists x : Z,
       Button.pos b = Some (vec2.mk (float_of_Z x) 6) /\
       (0 <= x)%Z /\ (x + BUTTON_SIZE <= WIDTH)%Z) /\
  (25 <= length btns ->
   forall b : Button.t,
     Toolbar.buttons (Toolbar.init pos btns) !! 0 = Some b ->
     exists x : Z,
       Button.pos b = Some (vec2.mk (float_of_Z x) 6) /\ (x < 0)%Z).
Proof.
  split.
  - intros Hn i b Hi.
    pose proof (lookup_lt_Some _ _ _ Hi) as Hlt.
    rewrite toolbar_init_buttons, length_imap in Hlt.
    destruct (toolbar_init_lookup _ _ _ _ Hi) as (b0 & _ & ->).
    exists (button_x (Z.of_nat (length btns)) i).
    split; [reflexivity |].
    unfold button_x, start_x, WIDTH, BUTTON_SIZE, BUTTON_MARGIN.
    Z.div_mod_to_equations. lia.
  - intros Hn b H0.
    destruct (toolbar_init_lookup _ _ _ _ H0) as (b0 & _ & ->).
    exists (button_x (Z.of_nat (length btns)) 0).
    split; [reflexivity |].
    unfold button_x, start_x, WIDTH, BUTTON_SIZE, BUTTON_MARGIN.
    Z.div_mod_to_equations. lia.
Qed.

Lemma toolbar_row_and_window_witness :
  exists x : Z,
    Button.pos delete_button = Some (vec2.mk (float_of_Z x) 6) /\
    (0 <= x)%Z /\ (x + BUTTON_SIZE <= WIDTH)%Z.
Proof.
  refine (proj1 (toolbar_row_and_window
                   (vec2.mk 0 448)
                   [Button.init "select" 20 (200, 200, 200)%Z;
                    Button.init "delete" 20 (200, 200, 200)%Z])
                _ 1 delete_button eq_refl).
  simpl. lia.
Defined.

(** ** Toggling a button *)

Lemma button_click_twice (b : Button.t) : Button.click (Button.click b) = b.
Proof.
  destruct b as [o sz c cl sel]. unfold Button.click.
  cbn [Button.pos Button.size Button.color Button.clicked Button.selected].
  rewrite negb_involutive. reflexivity.
Qed.

Lemma alter_click_twice (k : nat) (btns : list Button.t) :
  alter Button.click k (alter Button.click k btns) = btns.
Proof.
  revert k. induction btns as [| b btns IH]; intros k.
  - reflexivity.
  - destruct k as [| k]; simpl.
    + rewrite button_click_twice. reflexivity.
    + f_equal. apply IH.
Qed.

(** Toggling does not move or resize a button: the hit-tests agree. *)
Lemma hit_test_from_alter_click (k : nat) (btns : list Button.t)
    (p : vec2.t) (i : nat) :
  Toolbar.hit_test_from i (alter Button.click k btns) p
  = Toolbar.hit_test_from i btns p.
Proof.
  revert k i. induction btns as [| b btns IH]; intros k i.
  - reflexivity.
  - destruct k as [| k]; simpl.
    + change (Button.hit_test (Button.click b) p) with (Button.hit_test b p).
      reflexivity.
    + destruct (Button.hit_test b p) as [[|] | e]; try reflexivity.
      apply IH.
Qed.

(** The callback on a left press, once [Toolbar.hit_test] found a button. *)
Lemma press_with_hit `{Libm} (st : store) (d : DrawArea.t) (x y : float)
    (uid : uuid) (k : nat) :
  Toolbar.hit_test (DrawArea.toolbar d) (vec2.mk x y) = Ok (Some k) ->
  DrawArea.mouse_button_callback MOUSE_BUTTON_LEFT PRESS x y uid st d
  = Ok ((alloc_vec2 (vec2.mk x y) st).2,
        DrawArea.mk (DrawArea.width d) (DrawArea.height d) (DrawArea.scene d)
                    (Toolbar.click_at k (DrawArea.toolbar d))).
Proof.
  intros Hhit.
  unfold DrawArea.mouse_button_callback, alloc_vec2.
  cbn [glfw_button_eqb glfw_action_eqb vecs].
  rewrite (fn_lookup_insert (vecs st) (next_vec st) (vec2.mk x y)).
  rewrite Hhit. reflexivity.
Qed.

(** X11. A left press on a button flips that button's [selected] flag and
    nothing else: every other button, the scene, the shapes and the [vec2]
    objects are as before (the store only gains the [vec2] built for the
    pointer), and the button stays where it is.  A second press at the same
    point therefore hits the same button and restores the window exactly:
    the toggle is a plain flip, with no coupling between buttons. *)
Theorem press_toggles_and_second_press_restores `{Libm} (st : store)
    (d : DrawArea.t) (x y : float) (uid uid' : uuid) (k : nat) :
  Toolbar.hit_test (DrawArea.toolbar d) (vec2.mk x y) = Ok (Some k) ->
  exists d1 : DrawArea.t,
    DrawArea.mouse_button_callback MOUSE_BUTTON_LEFT PRESS x y uid st d
    = Ok ((alloc_vec2 (vec2.mk x y) st).2, d1) /\
    objs (alloc_vec2 (vec2.mk x y) st).2 = objs st /\
    (forall q, q <> next_vec st ->
       vecs (alloc_vec2 (vec2.mk x y) st).2 q = vecs st q) /\
    DrawArea.scene d1 = DrawArea.scene d /\
    (forall b, Toolbar.buttons (DrawArea.toolbar d) !! k = Some b ->
               Toolbar.buttons (DrawArea.toolbar d1) !! k
               = Some (Button.mk (Button.pos b) (Button.size b)
                                 (Button.color b) (Button.clicked b)
                                 (negb (Button.selected b)))) /\
    (forall j, j <> k ->
               Toolbar.buttons (DrawArea.toolbar d1) !! j
               = Toolbar.buttons (DrawArea.toolbar d) !! j) /\
    Toolbar.hit_test (DrawArea.toolbar d1) (vec2.mk x y) = Ok (Some k) /\
    forall st1 : store,
      DrawArea.mouse_button_callback MOUSE_BUTTON_LEFT PRESS x y uid' st1 d1
      = Ok ((alloc_vec2 (vec2.mk x y) st1).2, d).
Proof.
  intros Hhit.
  exists (DrawArea.mk (DrawArea.width d) (DrawArea.height d)
                      (DrawArea.scene d)
                      (Toolbar.click_at k (DrawArea.toolbar d))).
  assert (Hhit1 : Toolbar.hit_test (Toolbar.click_at k (DrawArea.toolbar d))
                                   (vec2.mk x y)
                  = Ok (Some k)).
  { unfold Toolbar.hit_test, Toolbar.click_at. cbn [Toolbar.buttons].
    rewrite hit_test_from_alter_click. exact Hhit. }
  split; [exact (press_with_hit st d x y uid k Hhit) |].
  split; [apply alloc_vec2_frame |].
  split; [apply alloc_vec2_frame |].
  split; [reflexivity |].
  split; [| split; [| split]].
  - intros b Hb. cbn [DrawArea.toolbar Toolbar.click_at Toolbar.buttons].
    rewrite list_lookup_alter_eq, Hb. reflexivity.
  - intros j Hj. cbn [DrawArea.toolbar Toolbar.click_at Toolbar.buttons].
    apply list_lookup_alter_ne. congruence.
  - exact Hhit1.
  - intros st1.
    rewrite (press_with_hit
               st1
               (DrawArea.mk (DrawArea.width d) (DrawArea.height d)
                            (DrawArea.scene d)
                            (Toolbar.click_at k (DrawArea.toolbar d)))
               x y uid' k Hhit1).
    cbn [DrawArea.width DrawArea.height DrawArea.scene DrawArea.toolbar].
    unfold Toolbar.click_at. cbn [Toolbar.pos Toolbar.buttons].
    rewrite alter_click_twice.
    destruct d as [w hgt sc [tpos tbtns]]. reflexivity.
Qed.

Lemma press_toggles_and_second_press_restores_witness :
  Toolbar.hit_test (DrawArea.toolbar draw_area_under_toolbar) (vec2.mk 300 10)
  = Ok (Some 0) /\
  exists d1 : DrawArea.t,
    DrawArea.mouse_button_callback MOUSE_BUTTON_LEFT PRESS 300 10
      0%Z store_under_toolbar draw_area_under_toolbar
    = Ok ((alloc_vec2 (vec2.mk 300 10) store_under_toolbar).2, d1) /\
    DrawArea.mouse_button_callback MOUSE_BUTTON_LEFT PRESS 300 10
      1%Z (alloc_vec2 (vec2.mk 300 10) store_under_toolbar).2 d1
    = Ok ((alloc_vec2 (vec2.mk 300 10)
                      (alloc_vec2 (vec2.mk 300 10) store_under_toolbar).2).2,
          draw_area_under_toolbar).
Proof.
  assert (Hhit : Toolbar.hit_test (DrawArea.toolbar draw_area_under_toolbar)
                                  (vec2.mk 300 10) = Ok (Some 0))
    by reflexivity.
  split; [exact Hhit |].
  destruct (press_toggles_and_second_press_restores
              store_under_toolbar draw_area_under_toolbar 300%float 10%float
              0%Z 1%Z 0 Hhit) as (d1 & H1 & _ & _ & _ & _ & _ & _ & H2).
  exists d1. split; [exact H1 | apply H2].
Defined.

(** ** Creating a shape *)

(** X12. Releasing the right button registers a new shape, a circle of
    radius 40 whose centre is the [vec2] built for the pointer, as the last
    entry of the registry, under a reference no earlier allocation used.
    Nothing else changes: not the selection, the drag record, any toolbar
    button or any other object, also when the pointer is over a toolbar
    button.  The new shape contains the pointer (whose coordinates, read
    from the window, are finite). *)
Theorem right_release_creates_shape `{Libm} (x y : float) (uid : uuid)
    (st : store) (d : DrawArea.t) :
  exists (st' : store) (d' : DrawArea.t),
    DrawArea.mouse_button_callback MOUSE_BUTTON_RIGHT RELEASE x y uid st d
    = Ok (st', d') /\
    Scene.shapes (DrawArea.scene d')
    = Scene.shapes (DrawArea.scene d) ++ [next st] /\
    next st' = S (next st) /\
    next_vec st' = S (next_vec st) /\
    objs st' (next st) = Shape.mk (next_vec st) 40 color uid /\
    vecs st' (next_vec st) = vec2.mk x y /\
    (forall r, r <> next st -> objs st' r = objs st r) /\
    (forall q, q <> next_vec st -> vecs st' q = vecs st q) /\
    Scene.selected (DrawArea.scene d') = Scene.selected (DrawArea.scene d) /\
    Scene.draggable (DrawArea.scene d') = Scene.draggable (DrawArea.scene d) /\
    DrawArea.toolbar d' = DrawArea.toolbar d /\
    (is_finite x = true -> is_finite y = true ->
     Shape.contains (vecs st') (objs st' (next st)) (vec2.mk x y) = Ok true).
Proof.
  eexists. eexists. split; [reflexivity |].
  cbn [DrawArea.add_shape DrawArea.scene DrawArea.toolbar Scene.add_shape
       Scene.shapes Scene.selected Scene.draggable objs vecs next next_vec].
  assert (Hnew : <[next st := Shape.init (next_vec st) 40 color uid]>
                   (objs st) (next st)
                 = Shape.mk (next_vec st) 40 color uid).
  { exact (fn_lookup_insert (objs st) (next st) _). }
  assert (Hvec : <[next_vec st := vec2.mk x y]> (vecs st) (next_vec st)
                 = vec2.mk x y).
  { exact (fn_lookup_insert (vecs st) (next_vec st) _). }
  repeat split.
  - exact Hnew.
  - exact Hvec.
  - intros r Hr.
    exact (fn_lookup_insert_ne (objs st) (next st) r _ (not_eq_sym Hr)).
  - intros q Hq.
    exact (fn_lookup_insert_ne (vecs st) (next_vec st) q _ (not_eq_sym Hq)).
  - intros Hx Hy. rewrite Hnew. apply contains_centre.
    + cbn [Shape.pos]. symmetry. exact Hvec.
    + exact Hx.
    + exact Hy.
    + reflexivity.
Qed.

(** A right release at (100, 120) in the program's window. *)
Lemma right_release_creates_shape_witness :
  Shape.contains
    (<[1 := vec2.mk 100 120]> (vecs_of [vec2.mk 300 20]))
    (Shape.mk 1 40 color 5%Z) (vec2.mk 100 120)
  = Ok true.
Proof.
  destruct (right_release_creates_shape
              100%float 120%float 5%Z store_under_toolbar
              draw_area_under_toolbar)
    as (st' & d' & Hcb & _ & _ & _ & Hobj & _ & _ & _ & _ & _ & _ & Hin).
  injection Hcb as <- <-.
  exact (Hin eq_refl eq_refl).
Defined.

(** ** The program's window during the event loop *)

Lemma mouse_action_shapes `{Libm} (a : MOUSE_ACTION) (pos : vref) (h : heap)
    (v : vheap) (s : Scene.t) :
  Scene.shapes (Scene.mouse_action a pos h v s).2 = Scene.shapes s.
Proof.
  unfold Scene.mouse_action. destruct a; try reflexivity.
  - destruct (Scene.selected s); [reflexivity |].
    destruct (Scene.first_containing h v (v pos) (Scene.shapes s))
      as [[r |] | e]; reflexivity.
  - destruct (Scene.selected s); [| reflexivity].
    destruct (Scene.draggable s); reflexivity.
Qed.

Lemma mouse_action_registered `{Libm} (a : MOUSE_ACTION) (pos : vref)
    (h : heap) (v : vheap) (s : Scene.t) :
  (forall r, Scene.selected s = Some r -> r ∈ Scene.shapes s) ->
  forall r, Scene.selected (Scene.mouse_action a pos h v s).2 = Some r ->
            r ∈ Scene.shapes s.
Proof.
  intros Hreg r. unfold Scene.mouse_action. destruct a.
  - destruct (Scene.selected s) as [sel |] eqn:Hsel.
    + cbn [snd]. rewrite Hsel. intros HH. apply Hreg. exact HH.
    + destruct (Scene.first_containing h v (v pos) (Scene.shapes s))
        as [[r0 |] | e] eqn:Hfc; cbn [snd Scene.selected].
      * intros HH. injection HH as <-.
        destruct (first_containing_Some h v _ _ r0 Hfc) as (l1 & l2 & -> & _).
        apply elem_of_app. right. apply list_elem_of_here.
      * rewrite Hsel. intros HH. discriminate HH.
      * rewrite Hsel. intros HH. discriminate HH.
  - destruct (Scene.selected s) as [sel |] eqn:Hsel.
    + destruct (Scene.draggable s); cbn [snd draggable.work Scene.selected];
        intros HH; apply Hreg; exact HH.
    + cbn [snd]. rewrite Hsel. intros HH. discriminate HH.
  - cbn [snd Scene.selected]. intros HH. discriminate HH.
  - cbn [snd]. apply Hreg.
Qed.

(** The drag record after a mouse action is the old one, or one that keeps
    the [vec2] of this action. *)
Lemma mouse_action_drag_record `{Libm} (a : MOUSE_ACTION) (pos : vref)
    (h : heap) (v : vheap) (s : Scene.t) (d' : draggable.t) :
  Scene.draggable (Scene.mouse_action a pos h v s).2 = Some d' ->
  Scene.draggable s = Some d' \/ draggable.current_pos d' = pos.
Proof.
  unfold Scene.mouse_action. destruct a.
  - destruct (Scene.selected s) as [sel |]; [intros HH; left; exact HH |].
    destruct (Scene.first_containing h v (v pos) (Scene.shapes s))
      as [[r0 |] | e]; cbn [snd Scene.draggable]; intros HH; left; exact HH.
  - destruct (Scene.selected s) as [sel |]; [| intros HH; left; exact HH].
    destruct (Scene.draggable s) as [d0 |];
      cbn [snd draggable.work Scene.draggable]; intros HH;
      injection HH as <-; right; reflexivity.
  - cbn [snd Scene.draggable]. intros HH. discriminate HH.
  - intros HH. left. exact HH.
Qed.

(** A drag event never raises. *)
Lemma drag_never_raises `{Libm} (pos : vref) (h : heap) (v : vheap)
    (s : Scene.t) (e : exn) :
  (Scene.mouse_action LEFT_CLICK_DRAG pos h v s).1.1 <> Raise e.
Proof.
  unfold Scene.mouse_action.
  destruct (Scene.selected s); [| discriminate].
  destruct (Scene.draggable s); discriminate.
Qed.

(** A press raises only what the test of a registered shape raises. *)
Lemma press_raise_inv `{Libm} (pos : vref) (h : heap) (v : vheap)
    (s : Scene.t) (e : exn) :
  (Scene.mouse_action LEFT_CLICK_DOWN pos h v s).1.1 = Raise e ->
  Scene.selected s = None /\
  exists r, r ∈ Scene.shapes s /\ Shape.contains v (h r) (v pos) = Raise e.
Proof.
  unfold Scene.mouse_action.
  destruct (Scene.selected s) as [sel |]; [intros HH; discriminate HH |].
  destruct (Scene.first_containing h v (v pos) (Scene.shapes s))
    as [[r0 |] | e0] eqn:Hfc; cbn [fst]; intros HH; try discriminate HH.
  injection HH as ->. split; [reflexivity |].
  destruct (first_containing_Raise_inv h v _ _ e Hfc)
    as (l1 & l2 & r & Hl & Hr & _).
  exists r. split; [| exact Hr].
  rewrite Hl. apply elem_of_app. right. apply list_elem_of_here.
Qed.

Lemma window_ok_alloc_vec2 (first : ref) (st : store) (d : DrawArea.t)
    (p : vec2.t) :
  window_ok first (st, d) -> window_ok first ((alloc_vec2 p st).2, d).
Proof.
  intros (Hfirst & Hshapes & Hreg & Hcons & Hlook & Hinj & Hdrag & Hpos
          & Hbtns).
  cbn [fst snd] in *.
  unfold window_ok, alloc_vec2. cbn [fst snd next objs next_vec].
  split; [exact Hfirst |]. split; [exact Hshapes |].
  split; [exact Hreg |]. split; [exact Hcons |].
  split.
  { intros r Hr. destruct (Hlook r Hr) as (Hrad & Hcol & Hlt).
    repeat split; [exact Hrad | exact Hcol | lia]. }
  split; [exact Hinj |].
  split; [| split; [exact Hpos | exact Hbtns]].
  intros d0 Hd0. destruct (Hdrag d0 Hd0) as [Hlt Hne].
  split; [lia | exact Hne].
Qed.

(** The scene part of [window_ok] is kept by every mouse action a callback
    forwards, with the [vec2] it has just built. *)
Lemma window_ok_forward `{Libm} (first : ref) (st : store) (d : DrawArea.t)
    (a : MOUSE_ACTION) (p : vec2.t) :
  window_ok first (st, d) ->
  window_ok first
    (with_vecs
       (Scene.mouse_action a (next_vec st) (objs st)
                           (vecs (alloc_vec2 p st).2) (DrawArea.scene d)).1.2
       (alloc_vec2 p st).2,
     DrawArea.mk (DrawArea.width d) (DrawArea.height d)
       (Scene.mouse_action a (next_vec st) (objs st)
                           (vecs (alloc_vec2 p st).2) (DrawArea.scene d)).2
       (DrawArea.toolbar d)).
Proof.
  intros (Hfirst & Hshapes & Hreg & Hcons & Hlook & Hinj & Hdrag & Hpos
          & Hbtns).
  cbn [fst snd] in *.
  unfold window_ok, with_vecs.
  cbn [fst snd next objs next_vec DrawArea.scene DrawArea.toolbar].
  rewrite mouse_action_shapes.
  unfold alloc_vec2. cbn [snd next objs next_vec vecs].
  split; [exact Hfirst |]. split; [exact Hshapes |].
  split; [apply mouse_action_registered; exact Hreg |].
  split; [apply mouse_action_consistent; exact Hcons |].
  split.
  { intros r Hr. destruct (Hlook r Hr) as (Hrad & Hcol & Hlt).
    repeat split; [exact Hrad | exact Hcol | lia]. }
  split; [exact Hinj |].
  split; [| split; [exact Hpos | exact Hbtns]].
  intros d' Hd'.
  destruct (mouse_action_drag_record _ _ _ _ _ _ Hd') as [Hold | Hnew].
  - destruct (Hdrag d' Hold) as [Hlt Hne]. split; [lia | exact Hne].
  - rewrite Hnew. split; [lia |].
    intros r Hr. destruct (Hlook r Hr) as (_ & _ & Hlt). lia.
Qed.

Lemma window_ok_click (first : ref) (st : store) (d : DrawArea.t) (k : nat) :
  window_ok first (st, d) ->
  window_ok first
    (st, DrawArea.mk (DrawArea.width d) (DrawArea.height d) (DrawArea.scene d)
                     (Toolbar.click_at k (DrawArea.toolbar d))).
Proof.
  intros (Hfirst & Hshapes & Hreg & Hcons & Hlook & Hinj & Hdrag & Hpos
          & s1 & s2 & Hbtns).
  cbn [fst snd] in *.
  unfold window_ok.
  cbn [fst snd DrawArea.scene DrawArea.toolbar Toolbar.click_at Toolbar.pos
       Toolbar.buttons].
  repeat (split; [assumption |]).
  rewrite Hbtns.
  destruct k as [| [| k]].
  - exists (negb s1), s2. reflexivity.
  - exists s1, (negb s2). reflexivity.
  - exists s1, s2. reflexivity.
Qed.

(** The right release: a new [vec2] and a new shape built on it. *)
Lemma window_ok_create (first : ref) (st : store) (d : DrawArea.t)
    (p : vec2.t) (uid : uuid) :
  window_ok first (st, d) ->
  window_ok first
    ((alloc (Shape.init (next_vec st) 40 color uid) (alloc_vec2 p st).2).2,
     DrawArea.add_shape (next st) d).
Proof.
  intros (Hfirst & Hshapes & Hreg & Hcons & Hlook & Hinj & Hdrag & Hpos
          & Hbtns).
  cbn [fst snd] in *.
  unfold window_ok, alloc, alloc_vec2.
  cbn [fst snd next objs next_vec vecs DrawArea.add_shape DrawArea.scene
       DrawArea.toolbar Scene.add_shape Scene.shapes Scene.selected
       Scene.draggable].
  assert (Hold : forall r, r ∈ Scene.shapes (DrawArea.scene d) ->
                   <[next st := Shape.init (next_vec st) 40 color uid]>
                     (objs st) r = objs st r).
  { intros r Hr. rewrite Hshapes in Hr. apply elem_of_seq in Hr.
    apply (fn_lookup_insert_ne (objs st)). lia. }
  assert (Hnew : <[next st := Shape.init (next_vec st) 40 color uid]>
                   (objs st) (next st)
                 = Shape.init (next_vec st) 40 color uid).
  { exact (fn_lookup_insert (objs st) (next st) _). }
  split; [lia |].
  split.
  { replace (S (next st) - first) with (S (next st - first)) by lia.
    rewrite seq_S, Hshapes. f_equal. f_equal. lia. }
  split.
  { intros r Hr. apply elem_of_app. left. exact (Hreg r Hr). }
  split; [exact Hcons |].
  split.
  { intros r Hr. apply elem_of_app in Hr as [Hr | Hr].
    - rewrite (Hold r Hr). destruct (Hlook r Hr) as (Hrad & Hcol & Hlt).
      repeat split; [exact Hrad | exact Hcol | lia].
    - apply list_elem_of_singleton in Hr as ->. rewrite Hnew.
      cbn [Shape.init Shape.radius Shape.color Shape.pos].
      repeat split. lia. }
  split.
  { intros r r' Hr Hr'.
    apply elem_of_app in Hr as [Hr | Hr];
      apply elem_of_app in Hr' as [Hr' | Hr'].
    - rewrite (Hold r Hr), (Hold r' Hr'). apply Hinj; assumption.
    - apply list_elem_of_singleton in Hr' as ->.
      rewrite (Hold r Hr), Hnew. cbn [Shape.init Shape.pos].
      destruct (Hlook r Hr) as (_ & _ & Hlt). lia.
    - apply list_elem_of_singleton in Hr as ->.
      rewrite (Hold r' Hr'), Hnew. cbn [Shape.init Shape.pos].
      destruct (Hlook r' Hr') as (_ & _ & Hlt). lia.
    - apply list_elem_of_singleton in Hr as ->.
      apply list_elem_of_singleton in Hr' as ->. reflexivity. }
  split; [| split; [exact Hpos | exact Hbtns]].
  intros d0 Hd0. destruct (Hdrag d0 Hd0) as [Hlt Hne].
  split; [lia |].
  intros r Hr. apply elem_of_app in Hr as [Hr | Hr].
  - rewrite (Hold r Hr). exact (Hne r Hr).
  - apply list_elem_of_singleton in Hr as ->. rewrite Hnew.
    cbn [Shape.init Shape.pos]. lia.
Qed.

Lemma window_ok_start (uid : uuid) (st0 : store) :
  window_ok (next st0) (program_window uid st0).
Proof.
  unfold window_ok, program_window, program_start, alloc, alloc_vec2.
  cbn [fst snd next objs next_vec vecs Wmain.add_shape Wmain.draw_area
       Wmain.init DrawArea.add_shape DrawArea.scene DrawArea.toolbar
       DrawArea.init Scene.add_shape Scene.init Scene.shapes Scene.selected
       Scene.draggable app].
  assert (Hnew : <[next st0 := Shape.init (next_vec st0) 40 color uid]>
                   (objs st0) (next st0)
                 = Shape.init (next_vec st0) 40 color uid).
  { exact (fn_lookup_insert (objs st0) (next st0) _). }
  split; [lia |].
  split; [replace (S (next st0) - next st0) with 1 by lia; reflexivity |].
  split; [intros r HH; discriminate HH |].
  split; [intros dr HH; discriminate HH |].
  split.
  { intros r Hr. apply list_elem_of_singleton in Hr as ->. rewrite Hnew.
    cbn [Shape.init Shape.radius Shape.color Shape.pos].
    repeat split. lia. }
  split.
  { intros r r' Hr Hr'.
    apply list_elem_of_singleton in Hr as ->.
    apply list_elem_of_singleton in Hr' as ->. reflexivity. }
  split; [intros dr HH; discriminate HH |].
  split; [reflexivity |].
  exists false, false. reflexivity.
Qed.

(** The callbacks that do not depend on the toolbar, as equations. *)
Lemma left_release_callback `{Libm} (x y : float) (uid : uuid) (st : store)
    (d : DrawArea.t) :
  DrawArea.mouse_button_callback MOUSE_BUTTON_LEFT RELEASE x y uid st d
  = Ok (with_vecs
          (Scene.mouse_action LEFT_CLICK_UP (next_vec st) (objs st)
             (vecs (alloc_vec2 (vec2.mk x y) st).2) (DrawArea.scene d)).1.2
          (alloc_vec2 (vec2.mk x y) st).2,
        DrawArea.mk (DrawArea.width d) (DrawArea.height d)
          (Scene.mouse_action LEFT_CLICK_UP (next_vec st) (objs st)
             (vecs (alloc_vec2 (vec2.mk x y) st).2) (DrawArea.scene d)).2
          (DrawArea.toolbar d)).
Proof. reflexivity. Qed.

Lemma right_release_callback `{Libm} (x y : float) (uid : uuid) (st : store)
    (d : DrawArea.t) :
  DrawArea.mouse_button_callback MOUSE_BUTTON_RIGHT RELEASE x y uid st d
  = Ok ((alloc (Shape.init (next_vec st) 40 color uid)
               (alloc_vec2 (vec2.mk x y) st).2).2,
        DrawArea.add_shape (next st) d).
Proof. reflexivity. Qed.

Lemma idle_callback `{Libm} (button : glfw_button) (action : glfw_action)
    (x y : float) (uid : uuid) (st : store) (d : DrawArea.t) :
  (button = MOUSE_BUTTON_LEFT -> action = REPEAT) ->
  (button = MOUSE_BUTTON_RIGHT -> action <> RELEASE) ->
  DrawArea.mouse_button_callback button action x y uid st d
  = Ok ((alloc_vec2 (vec2.mk x y) st).2, d).
Proof.
  intros Hleft Hright.
  destruct button, action; try reflexivity;
    solve [ discriminate (Hleft eq_refl)
          | exfalso; exact (Hright eq_refl eq_refl) ].
Qed.

(** One event of the loop on a window that is [window_ok]: the window stays
    so, and the only exception is that of a circle test in a left press. *)
Lemma gui_step_ok `{Libm} (first : ref) (e : gui_event)
    (w : store * DrawArea.t) :
  window_ok first w ->
  (forall w', gui_step e w = Ok w' -> window_ok first w') /\
  (forall x, gui_step e w = Raise x -> press_test_raises e w x).
Proof.
  destruct w as [st d]. intros Hok.
  destruct e as [button action x y uid | held xpos ypos]; unfold gui_step;
    cbn [fst snd].
  - destruct button, action;
      try (rewrite idle_callback by (intros; congruence);
           split; [intros w' HH; injection HH as <-;
                   apply window_ok_alloc_vec2; exact Hok
                  | intros x0 HH; discriminate HH]).
    + (* left release *)
      rewrite left_release_callback.
      split; [| intros x0 HH; discriminate HH].
      intros w' HH. injection HH as <-.
      exact (window_ok_forward first st d LEFT_CLICK_UP (vec2.mk x y) Hok).
    + (* left press *)
      assert (Hplaced : forall b, b ∈ Toolbar.buttons (DrawArea.toolbar d) ->
                                  Button.pos b <> None).
      { destruct Hok as (_ & _ & _ & _ & _ & _ & _ & _ & s1 & s2 & Hbtns).
        cbn [snd] in Hbtns. rewrite Hbtns. intros b Hb.
        apply elem_of_cons in Hb as [-> | Hb];
          [| apply list_elem_of_singleton in Hb as ->]; discriminate. }
      destruct (placed_buttons_decide _ (vec2.mk x y) Hplaced)
        as [(k & b & Hk & Hb & Hbefore) | Hnone].
      * rewrite (press_on_button st d x y uid k b Hk Hb Hbefore).
        split; [| intros x0 HH; discriminate HH].
        intros w' HH. injection HH as <-.
        apply (window_ok_click first _ d k).
        apply window_ok_alloc_vec2. exact Hok.
      * rewrite (press_off_buttons st d x y uid Hnone).
        pose proof (window_ok_forward first st d LEFT_CLICK_DOWN
                                      (vec2.mk x y) Hok) as Hf.
        pose proof (press_raise_inv
                      (next_vec st) (objs st)
                      (vecs (alloc_vec2 (vec2.mk x y) st).2)
                      (DrawArea.scene d)) as Hr.
        destruct (Scene.mouse_action LEFT_CLICK_DOWN (next_vec st) (objs st)
                    (vecs (alloc_vec2 (vec2.mk x y) st).2) (DrawArea.scene d))
          as [[[ret | e] v'] sc].
        -- split; [| intros x0 HH; discriminate HH].
           intros w' HH. injection HH as <-. exact Hf.
        -- split; [intros w' HH; discriminate HH |].
           intros x0 HH. injection HH as <-.
           destruct (Hr e eq_refl) as (Hsel & r & Hin & Hraise).
           exists x, y, uid. split; [reflexivity |].
           cbn [fst snd]. split; [exact Hsel |].
           exists r. split; [exact Hin |].
           replace (vecs (alloc_vec2 (vec2.mk x y) st).2 (next_vec st))
             with (vec2.mk x y) in Hraise
             by (symmetry; apply alloc_vec2_frame).
           exact Hraise.
    + (* right release *)
      rewrite right_release_callback.
      split; [| intros x0 HH; discriminate HH].
      intros w' HH. injection HH as <-.
      exact (window_ok_create first st d (vec2.mk x y) uid Hok).
  - unfold DrawArea.cursor_pos_callback.
    destruct (glfw_action_eqb held PRESS).
    + pose proof (window_ok_forward first st d LEFT_CLICK_DRAG
                                    (vec2.mk xpos ypos) Hok) as Hf.
      pose proof (drag_never_raises
                    (next_vec st) (objs st)
                    (vecs (alloc_vec2 (vec2.mk xpos ypos) st).2)
                    (DrawArea.scene d)) as Hnr.
      unfold alloc_vec2 in *. cbn [fst snd objs vecs next next_vec] in *.
      destruct (Scene.mouse_action LEFT_CLICK_DRAG (next_vec st) (objs st)
                  (<[next_vec st := vec2.mk xpos ypos]> (vecs st))
                  (DrawArea.scene d))
        as [[[ret | e] v'] sc].
      * split; [| intros x0 HH; discriminate HH].
        intros w' HH. injection HH as <-. exact Hf.
      * exfalso. exact (Hnr e eq_refl).
    + split; [| intros x0 HH; discriminate HH].
      intros w' HH. injection HH as <-. exact Hok.
Qed.

Lemma gui_run_ok `{Libm} (first : ref) (es : list gui_event) :
  forall w0 : store * DrawArea.t,
    window_ok first w0 ->
    (forall w, gui_run es w0 = Ok w -> window_ok first w) /\
    (forall x, gui_run es w0 = Raise x ->
       exists (es1 : list gui_event) (ev : gui_event) (es2 : list gui_event)
              (w : store * DrawArea.t),
         es = es1 ++ ev :: es2 /\
         gui_run es1 w0 = Ok w /\
         window_ok first w /\
         press_test_raises ev w x).
Proof.
  induction es as [| e es IH]; intros w0 Hok.
  - split.
    + intros w HH. injection HH as <-. exact Hok.
    + intros x HH. discriminate HH.
  - destruct (gui_step_ok first e w0 Hok) as [Hstep Hraise].
    cbn [gui_run].
    destruct (gui_step e w0) as [w1 | x1] eqn:He.
    + destruct (IH w1 (Hstep w1 eq_refl)) as [IHok IHraise].
      split; [exact IHok |].
      intros x HH.
      destruct (IHraise x HH) as (es1 & ev & es2 & w & -> & Hrun & Hw & Hev).
      exists (e :: es1), ev, es2, w. split; [reflexivity |].
      split; [| split; [exact Hw | exact Hev]].
      cbn [gui_run]. rewrite He. exact Hrun.
    + split; [intros w HH; discriminate HH |].
      intros x HH. injection HH as <-.
      exists [], e, es, w0. split; [reflexivity |].
      split; [reflexivity |]. split; [exact Hok |].
      exact (Hraise x1 eq_refl).
Qed.



(** A left press far from the program's shape, at (2^664, 0), ends the loop
    with [OverflowError], on a platform whose [pow] is correctly rounded. *)
Example far_press_raises :
  gui_run [MouseButton MOUSE_BUTTON_LEFT PRESS 0x1p+664 0 0%Z]
          (program_window 1%Z store_empty)
  = Raise OverflowError.
Proof. reflexivity. Qed.

(** ** The frame the program draws *)

Lemma scene_draw_appends (h : heap) (v : vheap) (s : Scene.t) (cv : canvas) :
  Scene_draw h v s cv
  = cv ++ map (fun r => circle_of v (h r)) (Scene.shapes s).
Proof.
  unfold Scene_draw. generalize (Scene.shapes s) as l. intros l. revert cv.
  induction l as [| r l IH]; intros cv; cbn [fold_left map].
  - rewrite app_nil_r. reflexivity.
  - rewrite IH. unfold Shape_draw, circle_of. rewrite <- app_assoc.
    reflexivity.
Qed.

(** X14. A frame of the program, after any sequence of events of the loop
    that raised nothing: drawing does not raise, and the canvas receives, in
    this order, one circle of radius 40 in the program's colour per created
    shape, oldest first, at the current content of the shape's centre
    object; the grey bar, whose rectangle starts at [y = 448 + 448]; and the
    squares of side 20 of the two buttons of the toolbar, at (291, 6) and
    (317, 6), each blue when the button's [selected] flag is set and in its
    base colour otherwise (never in the grey of a [clicked] button).  So the
    toolbar is painted over every shape and a younger shape over an older
    one. *)
Theorem program_frame `{Libm} (es : list gui_event) (uid : uuid)
    (st0 : store) (w : store * DrawArea.t) :
  gui_run es (program_window uid st0) = Ok w ->
  exists b1 b2 : Button.t,
    Toolbar.buttons (DrawArea.toolbar w.2) = [b1; b2] /\
    DrawArea_draw w.1 w.2 []
    = (Ok tt,
       map (fun r => drawCircle
                       (vec2.x (vecs w.1 (Shape.pos (objs w.1 r))))
                       (vec2.y (vecs w.1 (Shape.pos (objs w.1 r))))
                       40 (ColorOf color))
           (seq (next st0) (next w.1 - next st0))
       ++ [drawRect 0 (448 + 448) 640 32 ColorGRAY;
           drawRect 291 6 20 20 (button_paint (Button.selected b1));
           drawRect 317 6 20 20 (button_paint (Button.selected b2))]).
Proof.
  intros Hrun.
  pose proof (proj1 (gui_run_ok (next st0) es _ (window_ok_start uid st0))
                    w Hrun) as Hok.
  destruct w as [st d].
  destruct Hok as (_ & Hshapes & _ & _ & Hlook & _ & _ & Hpos & s1 & s2
                   & Hbtns).
  cbn [fst snd] in *.
  eexists. eexists. split; [exact Hbtns |].
  unfold DrawArea_draw, Toolbar_draw.
  rewrite scene_draw_appends, Hbtns, Hpos, Hshapes.
  cbn [app buttons_draw Button_draw Button.pos Button.selected Button.clicked
       Button.color vec2.x vec2.y].
  assert (Hcircles :
            map (fun r => circle_of (vecs st) (objs st r))
                (seq (next st0) (next st - next st0))
            = map (fun r => drawCircle
                              (vec2.x (vecs st (Shape.pos (objs st r))))
                              (vec2.y (vecs st (Shape.pos (objs st r))))
                              40 (ColorOf color))
                  (seq (next st0) (next st - next st0))).
  { apply map_ext_in. intros r Hr. unfold circle_of.
    rewrite Hshapes in Hlook.
    destruct (Hlook r (proj2 (list_elem_of_In _ _) Hr)) as (-> & -> & _).
    reflexivity. }
  rewrite Hcircles.
  destruct s1, s2; cbn [button_paint]; rewrite <- !app_assoc; reflexivity.
Qed.

(** The frame after the scenario of the spec and a press on the first
    button: the circle at (65, 70), the bar, a blue and a grey square. *)
Example frame_after_scenario :
  match gui_run (scenario_events
                 ++ [MouseButton MOUSE_BUTTON_LEFT PRESS 300 10 0%Z])
                (program_window 1%Z store_empty) with
  | Ok w => DrawArea_draw w.1 w.2 []
  | Raise e => (Raise e, [])
  end
  = (Ok tt,
     [drawCircle 65 70 40 (ColorOf color);
      drawRect 0 896 640 32 ColorGRAY;
      drawRect 291 6 20 20 ColorBLUE;
      drawRect 317 6 20 20 (ColorOf (200, 200, 200)%Z)]).
Proof. vm_compute. reflexivity. Qed.

Lemma program_frame_witness :
  match gui_run (scenario_events
                 ++ [MouseButton MOUSE_BUTTON_LEFT PRESS 300 10 0%Z])
                (program_window 1%Z store_empty) with
  | Ok w =>
      exists b1 b2 : Button.t,
        Toolbar.buttons (DrawArea.toolbar w.2) = [b1; b2] /\
        DrawArea_draw w.1 w.2 []
        = (Ok tt,
           map (fun r => drawCircle
                           (vec2.x (vecs w.1 (Shape.pos (objs w.1 r))))
                           (vec2.y (vecs w.1 (Shape.pos (objs w.1 r))))
                           40 (ColorOf color))
               (seq 0 (next w.1 - 0))
           ++ [drawRect 0 (448 + 448) 640 32 ColorGRAY;
               drawRect 291 6 20 20 (button_paint (Button.selected b1));
               drawRect 317 6 20 20 (button_paint (Button.selected b2))])
  | Raise _ => False
  end.
Proof.
  pose proof (program_frame
                (scenario_events
                 ++ [MouseButton MOUSE_BUTTON_LEFT PRESS 300 10 0%Z])
                1%Z store_empty) as Hthm.
  assert (Hs : match gui_run (scenario_events
                              ++ [MouseButton MOUSE_BUTTON_LEFT PRESS
                                              300 10 0%Z])
                             (program_window 1%Z store_empty) with
               | Ok _ => true
               | Raise _ => false
               end = true)
    by (vm_compute; reflexivity).
  destruct (gui_run (scenario_events
                     ++ [MouseButton MOUSE_BUTTON_LEFT PRESS 300 10 0%Z])
                    (program_window 1%Z store_empty)) as [w | x].
  - exact (Hthm w eq_refl).
  - discriminate Hs.
Defined.

(** ** A whole drag gesture through the callbacks *)

(** The circle test reads the [vec2] store at the centre of the shape
    only. *)
Lemma contains_ext `{Libm} (v v' : vheap) (s : Shape.t) (p : vec2.t) :
  v' (Shape.pos s) = v (Shape.pos s) ->
  Shape.contains v' s p = Shape.contains v s p.
Proof. intros Heq. unfold Shape.contains. rewrite Heq. reflexivity. Qed.

Lemma first_containing_ext `{Libm} (h : heap) (v v' : vheap) (p : vec2.t)
    (l : list ref) :
  (forall r, r ∈ l -> v' (Shape.pos (h r)) = v (Shape.pos (h r))) ->
  Scene.first_containing h v' p l = Scene.first_containing h v p l.
Proof.
  induction l as [| r l IH]; intros Hall; cbn [Scene.first_containing].
  - reflexivity.
  - rewrite (contains_ext v v' (h r) p)
      by (apply Hall; apply list_elem_of_here).
    rewrite IH; [reflexivity |].
    intros r' Hr'. apply Hall. apply list_elem_of_further, Hr'.
Qed.

(** Cursor moves with the button held, while a drag record exists whose
    [vec2] is not the centre of the dragged shape: each move builds a new
    [vec2], and the centre is what [dragged] computes. *)
Lemma cursor_moves `{Libm} (ps : list vec2.t) :
  forall (st : store) (d : DrawArea.t) (sel : ref) (last : vref)
         (rest : list gui_event),
    Scene.selected (DrawArea.scene d) = Some sel ->
    Scene.draggable (DrawArea.scene d) = Some (draggable.mk last sel) ->
    Shape.pos (objs st sel) < next_vec st ->
    last < next_vec st ->
    last <> Shape.pos (objs st sel) ->
    exists (v' : vheap) (last' : vref),
      gui_run (map cursor_to ps ++ rest) (st, d)
      = gui_run rest
          (mk_store (objs st) v' (next st) (length ps + next_vec st),
           DrawArea.mk (DrawArea.width d) (DrawArea.height d)
             (Scene.mk (Scene.shapes (DrawArea.scene d))
                       (Some (draggable.mk last' sel)) (Some sel))
             (DrawArea.toolbar d)) /\
      v' (Shape.pos (objs st sel))
      = dragged (vecs st (Shape.pos (objs st sel))) (vecs st last) ps /\
      (forall q, q < next_vec st -> q <> Shape.pos (objs st sel) ->
                 v' q = vecs st q).
Proof.
  induction ps as [| p ps IH]; intros st d sel last rest Hsel Hd Hc Hlast Hne.
  - exists (vecs st), last. split; [| split; [reflexivity | reflexivity]].
    destruct st as [o v n nv]. destruct d as [wd hg [shapes dr se] tb].
    cbn in Hsel, Hd. subst. reflexivity.
  - set (c := Shape.pos (objs st sel)) in *.
    set (q := next_vec st).
    set (v1 := <[q := p]> (vecs st)).
    set (v2 := alter (fun c0 => vec2.translate
                                  c0 (vec2.sub (v1 q) (v1 last))) c v1).
    assert (Hstep : gui_step (cursor_to p) (st, d)
                    = Ok (mk_store (objs st) v2 (next st) (S q),
                          DrawArea.mk (DrawArea.width d) (DrawArea.height d)
                            (Scene.mk (Scene.shapes (DrawArea.scene d))
                                      (Some (draggable.mk q sel)) (Some sel))
                            (DrawArea.toolbar d))).
    { unfold gui_step, cursor_to, DrawArea.cursor_pos_callback, alloc_vec2.
      cbn [fst snd glfw_action_eqb objs vecs next next_vec].
      replace (vec2.mk (vec2.x p) (vec2.y p)) with p
        by (destruct p; reflexivity).
      fold q. fold v1.
      rewrite (drag_step_dragging (objs st) v1 (DrawArea.scene d) sel
                                  (draggable.mk last sel) q Hsel Hd).
      reflexivity. }
    assert (Hv1q : v1 q = p) by exact (fn_lookup_insert (vecs st) q p).
    assert (Hv1 : forall q', q' <> q -> v1 q' = vecs st q').
    { intros q' Hq'.
      exact (fn_lookup_insert_ne (vecs st) q q' p (not_eq_sym Hq')). }
    assert (Hcq : c <> q) by (unfold q; lia).
    destruct (IH (mk_store (objs st) v2 (next st) (S q))
                 (DrawArea.mk (DrawArea.width d) (DrawArea.height d)
                    (Scene.mk (Scene.shapes (DrawArea.scene d))
                              (Some (draggable.mk q sel)) (Some sel))
                    (DrawArea.toolbar d))
                 sel q rest eq_refl eq_refl)
      as (v' & last' & Hrun & Hcentre & Hother).
    { cbn [objs next_vec]. fold c. unfold q. lia. }
    { cbn [next_vec]. lia. }
    { cbn [objs]. fold c. congruence. }
    cbn [objs vecs next next_vec DrawArea.width DrawArea.height
         DrawArea.scene DrawArea.toolbar Scene.shapes] in Hrun, Hcentre,
         Hother.
    fold c in Hcentre, Hother.
    exists v', last'. split; [| split].
    + cbn [map app gui_run]. rewrite Hstep, Hrun.
      replace (length ps + S q) with (length (p :: ps) + next_vec st)
        by (cbn [length]; unfold q; lia).
      reflexivity.
    + rewrite Hcentre. cbn [dragged]. f_equal.
      * unfold v2. rewrite vheap_alter_eq.
        rewrite Hv1q, (Hv1 c Hcq), (Hv1 last) by (unfold q; lia).
        reflexivity.
      * unfold v2. rewrite vheap_alter_ne by exact Hcq. exact Hv1q.
    + intros q' Hq' Hq'c.
      rewrite (Hother q') by (unfold q; lia || exact Hq'c).
      unfold v2. rewrite vheap_alter_ne by congruence.
      apply Hv1. unfold q. lia.
Qed.

(** X15. A complete gesture, as the callbacks see it.  The left button goes
    down at [(px, py)], outside every toolbar button and inside a
    registered shape, with nothing selected, in a window whose shapes have
    existing [vec2] objects as centres; the cursor then moves, button held,
    first to [(x0, y0)] and then through the points [ps]; the button is
    released, anywhere.  Afterwards nothing is selected and no drag record
    is left; the registry, the toolbar and the shapes are untouched; the
    centre object of the shape that was hit (the first registered one
    containing the point of the press) holds what [dragged] computes from
    the old centre, [(x0, y0)] and [ps]: the press point does not count;
    and no other [vec2] object that existed has changed, so shapes with
    another centre object have not moved. *)
Theorem drag_gesture `{Libm} (st : store) (d : DrawArea.t) (sel : ref)
    (px py x0 y0 rx ry : float) (ps : list vec2.t) (uid uid' : uuid) :
  (forall b, b ∈ Toolbar.buttons (DrawArea.toolbar d) ->
             Button.hit_test b (vec2.mk px py) = Ok false) ->
  session_consistent (DrawArea.scene d) ->
  Scene.selected (DrawArea.scene d) = None ->
  (forall r, r ∈ Scene.shapes (DrawArea.scene d) ->
             Shape.pos (objs st r) < next_vec st) ->
  Scene.first_containing (objs st) (vecs st) (vec2.mk px py)
                         (Scene.shapes (DrawArea.scene d))
  = Ok (Some sel) ->
  exists v' : vheap,
    gui_run (MouseButton MOUSE_BUTTON_LEFT PRESS px py uid
             :: map cursor_to (vec2.mk x0 y0 :: ps)
             ++ [MouseButton MOUSE_BUTTON_LEFT RELEASE rx ry uid'])
            (st, d)
    = Ok (mk_store (objs st) v' (next st) (length ps + 3 + next_vec st),
          DrawArea.mk (DrawArea.width d) (DrawArea.height d)
                      (Scene.mk (Scene.shapes (DrawArea.scene d)) None None)
                      (DrawArea.toolbar d)) /\
    v' (Shape.pos (objs st sel))
    = dragged (vecs st (Shape.pos (objs st sel))) (vec2.mk x0 y0) ps /\
    forall q, q < next_vec st -> q <> Shape.pos (objs st sel) ->
              v' q = vecs st q.
Proof.
  intros Hmiss Hcons Hsel Hcentres Hfc.
  assert (Hin : sel ∈ Scene.shapes (DrawArea.scene d)).
  { destruct (first_containing_Some _ _ _ _ sel Hfc) as (l1 & l2 & -> & _).
    apply elem_of_app. right. apply list_elem_of_here. }
  pose proof (Hcentres sel Hin) as Hc.
  set (c := Shape.pos (objs st sel)) in *.
  set (q0 := next_vec st).
  set (v0 := <[q0 := vec2.mk px py]> (vecs st)).
  set (v1 := <[S q0 := vec2.mk x0 y0]> v0).
  assert (Hnodrag : Scene.draggable (DrawArea.scene d) = None).
  { destruct (Scene.draggable (DrawArea.scene d)) as [dr |] eqn:Hdr;
      [| reflexivity].
    specialize (Hcons dr Hdr). rewrite Hsel in Hcons. discriminate Hcons. }
  (* the press *)
  assert (Hpress : gui_step (MouseButton MOUSE_BUTTON_LEFT PRESS px py uid)
                            (st, d)
                   = Ok (mk_store (objs st) v0 (next st) (S q0),
                         DrawArea.mk (DrawArea.width d) (DrawArea.height d)
                           (Scene.mk (Scene.shapes (DrawArea.scene d)) None
                                     (Some sel))
                           (DrawArea.toolbar d))).
  { unfold gui_step. cbn [fst snd].
    rewrite (press_off_buttons st d px py uid Hmiss).
    unfold Scene.mouse_action, alloc_vec2.
    cbn [snd objs vecs next next_vec]. fold q0. fold v0.
    rewrite Hsel, Hnodrag.
    replace (v0 q0) with (vec2.mk px py)
      by (symmetry; exact (fn_lookup_insert (vecs st) q0 _)).
    rewrite (first_containing_ext (objs st) (vecs st) v0), Hfc;
      [reflexivity |].
    intros r Hr. apply (fn_lookup_insert_ne (vecs st)).
    pose proof (Hcentres r Hr). unfold q0. lia. }
  (* the anchoring move *)
  assert (Hanchor : gui_step (cursor_to (vec2.mk x0 y0))
                      (mk_store (objs st) v0 (next st) (S q0),
                       DrawArea.mk (DrawArea.width d) (DrawArea.height d)
                         (Scene.mk (Scene.shapes (DrawArea.scene d)) None
                                   (Some sel))
                         (DrawArea.toolbar d))
                    = Ok (mk_store (objs st) v1 (next st) (S (S q0)),
                          DrawArea.mk (DrawArea.width d) (DrawArea.height d)
                            (Scene.mk (Scene.shapes (DrawArea.scene d))
                                      (Some (draggable.mk (S q0) sel))
                                      (Some sel))
                            (DrawArea.toolbar d))).
  { reflexivity. }
  assert (Hv1 : forall q, q < q0 -> v1 q = vecs st q).
  { intros q Hq. unfold v1, v0.
    rewrite (fn_lookup_insert_ne (<[q0 := vec2.mk px py]> (vecs st)) (S q0) q)
      by lia.
    apply (fn_lookup_insert_ne (vecs st)). lia. }
  destruct (cursor_moves ps
              (mk_store (objs st) v1 (next st) (S (S q0)))
              (DrawArea.mk (DrawArea.width d) (DrawArea.height d)
                 (Scene.mk (Scene.shapes (DrawArea.scene d))
                           (Some (draggable.mk (S q0) sel)) (Some sel))
                 (DrawArea.toolbar d))
              sel (S q0)
              [MouseButton MOUSE_BUTTON_LEFT RELEASE rx ry uid']
              eq_refl eq_refl)
    as (v' & last' & Hrun & Hcentre & Hother).
  { cbn [objs next_vec]. fold c. unfold q0. lia. }
  { cbn [next_vec]. lia. }
  { cbn [objs]. fold c. unfold q0. lia. }
  cbn [objs vecs next next_vec DrawArea.width DrawArea.height DrawArea.scene
       DrawArea.toolbar Scene.shapes] in Hrun, Hcentre, Hother.
  fold c in Hcentre, Hother.
  exists (<[length ps + S (S q0) := vec2.mk rx ry]> v').
  split; [| split].
  - cbn [map app gui_run]. rewrite Hpress.
    change (gui_run (cursor_to (vec2.mk x0 y0)
                     :: map cursor_to ps
                     ++ [MouseButton MOUSE_BUTTON_LEFT RELEASE rx ry uid'])
                    ?w)
      with (match gui_step (cursor_to (vec2.mk x0 y0)) w with
            | Ok w' => gui_run (map cursor_to ps
                                ++ [MouseButton MOUSE_BUTTON_LEFT RELEASE
                                                rx ry uid']) w'
            | Raise x => Raise x
            end).
    rewrite Hanchor, Hrun.
    cbn [gui_run gui_step fst snd].
    rewrite left_release_callback.
    unfold alloc_vec2, with_vecs, Scene.mouse_action.
    cbn [fst snd objs vecs next next_vec DrawArea.width DrawArea.height
         DrawArea.scene DrawArea.toolbar Scene.shapes].
    replace (S (length ps + S (S q0))) with (length ps + 3 + next_vec st)
      by (unfold q0; lia).
    reflexivity.
  - rewrite (fn_lookup_insert_ne v' (length ps + S (S q0)) c)
      by (unfold q0; lia).
    rewrite Hcentre.
    rewrite (Hv1 c) by (unfold q0; lia).
    replace (v1 (S q0)) with (vec2.mk x0 y0)
      by (symmetry; exact (fn_lookup_insert v0 (S q0) _)).
    reflexivity.
  - intros q Hq Hqc.
    rewrite (fn_lookup_insert_ne v' (length ps + S (S q0)) q)
      by (unfold q0; lia).
    rewrite (Hother q) by (unfold q0; lia || exact Hqc).
    apply Hv1. exact Hq.
Qed.

(** The scenario of the spec, delivered through the callbacks: the centre
    ends at (65, 70). *)
Lemma drag_gesture_witness :
  exists v' : vheap,
    gui_run [MouseButton MOUSE_BUTTON_LEFT PRESS 60 60 0%Z;
             cursor_to (vec2.mk 70 70);
             cursor_to (vec2.mk 80 85);
             MouseButton MOUSE_BUTTON_LEFT RELEASE 80 85 0%Z]
            (program_window 1%Z store_empty)
    = Ok (mk_store (objs (program_window 1%Z store_empty).1) v' 1 5,
          DrawArea.mk WIDTH (HEIGHT - UI_TOP_BAR_HEIGHT)
                      (Scene.mk [0] None None)
                      (Toolbar.mk (vec2.mk 0 448)
                                  [select_button; delete_button])) /\
    v' 0 = dragged (vec2.mk 55 55) (vec2.mk 70 70) [vec2.mk 80 85] /\
    dragged (vec2.mk 55 55) (vec2.mk 70 70) [vec2.mk 80 85] = vec2.mk 65 70.
Proof.
  assert (Hmiss : forall b, b ∈ [select_button; delete_button] ->
                            Button.hit_test b (vec2.mk 60 60) = Ok false).
  { intros b Hb.
    apply elem_of_cons in Hb as [-> | Hb];
      [| apply list_elem_of_singleton in Hb as ->]; reflexivity. }
  assert (Hcentres : forall r, r ∈ [0] ->
            Shape.pos (objs (program_window 1%Z store_empty).1 r) < 1).
  { intros r Hr. apply list_elem_of_singleton in Hr as ->.
    vm_compute. constructor. }
  destruct (drag_gesture
              (H := correctly_rounded)
              (program_window 1%Z store_empty).1
              (program_window 1%Z store_empty).2
              0 60%float 60%float 70%float 70%float 80%float 85%float
              [vec2.mk 80 85] 0%Z 0%Z
              Hmiss
              (fun dr (HH : None = Some dr) =>
                 match HH in _ = o
                       return match o with Some _ => _ | None => True end
                 with eq_refl => I end)
              eq_refl Hcentres eq_refl) as (v' & Hrun & Hcentre & _).
  exists v'. split; [exact Hrun |]. split; [exact Hcentre | reflexivity].
Defined.
